(** * Bedrock-Utility: response cache, generation gateway and archive assembly

    A shallow embedding of the source files that carry the invariants of
    the repository:

    - [src/utils/caching.ts]        ([generateCacheKey], [getFromCache], [setInCache])
    - [src/services/geminiService.ts] ([parseJsonResponse], [filesToSmartParts],
      [performSingleGeneration], [generateAddonFiles], and the tools built on
      them: [processAndUnzipFiles], [initiateAddonGeneration], [combineAddons],
      [fixAddon], [summarizeAddon], [devAddon], [generateFunction])
    - [src/utils/fileConverter.ts]  ([filesToGenerativeParts], [downloadAddon],
      [downloadMcaddonFromZips])
    - [src/components/McaddonConverter.tsx] ([handleConvert])

    Effects (session storage, console, the generation service, the download
    link) are threaded through an explicit state-and-exception monad [Js].
    What the browser or a vendored library provides (the digest, the JSON
    codec, the ZIP reader, the generation service) is an interface: the
    classes [Json] and [Env]. The long instruction texts of the tools are
    constants of the source; they are taken as given ([Tools.Texts],
    [Tools.CreatorTexts]).

    Boundaries of the model:
    - values have the TypeScript types the sources give them; a generation
      result is the record [{ files, assetMappings?, summaryReport? }], so a
      response or a cached text that denotes a JSON value of another shape
      is outside the model, but for [null] where the source acts on it
      before it fails ([devAddon], [initiateAddonGeneration]);
    - a [File] is in memory: reading it ([FileReader], [text()]) always
      succeeds; opening a container may fail, and so may the extraction of
      an entry of a container that opened (an entry carries its data, or
      none when it cannot be extracted);
    - an archive is the map [zip.files] from entry name to data, without
      the directory entries JSZip adds for parent folders;
      [zip.generateAsync] always succeeds, and the archive it generates
      leaves out the entry whose name is empty, as JSZip does when it walks
      the entries; a file picked by the user has a name that is not empty;
    - a request records the model, the contents, the instruction, the
      response type and the temperature, not the response schema;
    - of the component, [handleConvert] alone is modelled, as a function of
      the name typed and the files chosen whose value is the notifications
      it raises.

    The file has two parts: the definitions (the platform, the source
    files, the words of the specification, the notions the further
    properties are stated with, fixtures), then the properties. *)

From Stdlib Require Import ZArith QArith Ascii String List DecimalString.
From stdpp Require Import base option list strings gmap.

Local Open Scope stdpp_scope.

(** ** JavaScript strings and the built-ins the sources call

    A JavaScript string is a sequence of UTF-16 code units; the model keeps
    the code units below 256, one [ascii] each. *)

Module Js.

Definition code (c : ascii) : nat := nat_of_ascii c.

Definition between (lo hi : nat) (c : ascii) : bool :=
  (lo <=? code c)%nat && (code c <=? hi)%nat.

(** [String.prototype.endsWith]: the search string is compared with the
    code units of [s] that end at its last position. *)
Definition endsWith (s searchString : string) : bool :=
  let len := String.length s in
  let searchLength := String.length searchString in
  if (searchLength <=? len)%nat
  then String.eqb (String.substring (len - searchLength) searchLength s) searchString
  else false.

(** [String.prototype.startsWith]. *)
Definition startsWith (s searchString : string) : bool :=
  String.prefix searchString s.

(** [String.prototype.toLowerCase] on the code units kept: A-Z, and the
    Latin-1 capitals 192-222 but for the multiplication sign 215. *)
Definition lowerChar (c : ascii) : ascii :=
  if between 65 90 c then ascii_of_nat (code c + 32)
  else if between 192 222 c && negb (code c =? 215)%nat then ascii_of_nat (code c + 32)
  else c.

Fixpoint toLowerCase (s : string) : string :=
  match s with
  | EmptyString => EmptyString
  | String c s' => String (lowerChar c) (toLowerCase s')
  end.

(** White space and line terminators of ECMAScript among the code units
    kept: TAB, LF, VT, FF, CR, SPACE and NBSP. *)
Definition isWhiteSpace (c : ascii) : bool :=
  between 9 13 c || (code c =? 32)%nat || (code c =? 160)%nat.

Fixpoint trimStart (s : string) : string :=
  match s with
  | EmptyString => EmptyString
  | String c s' => if isWhiteSpace c then trimStart s' else s
  end.

(** [trimEnd] keeps a code unit when it is not white space or when something
    that is kept follows it. *)
Fixpoint trimEnd (s : string) : string :=
  match s with
  | EmptyString => EmptyString
  | String c s' =>
      match trimEnd s' with
      | EmptyString => if isWhiteSpace c then EmptyString else String c EmptyString
      | t => String c t
      end
  end.

(** [String.prototype.trim]. *)
Definition trim (s : string) : string := trimEnd (trimStart s).

(** [s.replace(/[^...]/g, '')] for a character class: every code unit
    outside the class is removed. *)
Fixpoint removeOutside (class : ascii -> bool) (s : string) : string :=
  match s with
  | EmptyString => EmptyString
  | String c s' =>
      if class c then String c (removeOutside class s') else removeOutside class s'
  end.

(** [Array.prototype.join] on strings. *)
Fixpoint join (sep : string) (l : list string) : string :=
  match l with
  | [] => ""
  | [x] => x
  | x :: rest => x +:+ sep +:+ join sep rest
  end.

(** The double quote, as a one-character string. *)
Definition dquote : string := String (ascii_of_nat 34) EmptyString.

(** The line feed, as a one-character string. *)
Definition lf : string := String (ascii_of_nat 10) EmptyString.

End Js.

(** ** The data model ([types.ts] and the shapes the sources pass around) *)

Abbreviation byte := Byte.byte.

#[global] Instance byte_eq_dec : EqDecision byte := Byte.byte_eq_dec.

(** [GeneratedFile]: one text artifact of a generation result. *)
Record GeneratedFile := mkGeneratedFile {
  path : string;
  content : string
}.

(** [AssetMapping]: the relocation instruction of the spec. *)
Record AssetMapping := mkAssetMapping {
  originalPath : string;
  newPath : string
}.

(** The browser's [File]: a name, a MIME type and the bytes. *)
Record File := mkFile {
  file_name : string;
  file_type : string;
  file_bytes : list byte
}.

Inductive UploadKind := asset | addon_file.

(** [UploadedFile]: [{ file, type }]. *)
Record UploadedFile := mkUploadedFile {
  uf_file : File;
  uf_type : UploadKind
}.

(** A part of the content sent to the generation service: [{ text }] or
    [{ inlineData: { mimeType, data } }]. *)
Inductive Part :=
| TextPart (text : string)
| InlineData (mimeType data : string).

(** The structured result of one generation: the annotation of
    [performSingleGeneration], [files] possibly missing as the code checks. *)
Record GenResult := mkGenResult {
  files : option (list GeneratedFile);
  assetMappings : option (list AssetMapping);
  summaryReport : option string
}.

(** One entry of an opened container ([JSZipObject]): its internal name,
    whether it is a directory, and the bytes [async('blob')] gives, [None]
    when the entry cannot be extracted (the promise is rejected). *)
Record ZipObject := mkZipObject {
  zip_name : string;
  zip_dir : bool;
  zip_data : option (list byte)
}.

(** What [zip.file(path, data)] is given: a text or binary data. *)
Inductive Content :=
| Text (s : string)
| Binary (b : list byte).

(** The archive under construction: [zip.files], a map from entry name to
    data. The directory entries JSZip adds for parent folders carry no data
    and are left out. *)
Abbreviation Archive := (gmap string Content).

(** A request to [ai.models.generateContent]. *)
Record Request := mkRequest {
  model : string;
  contents : list Part;
  systemInstruction : string;
  responseMimeType : string;
  temperature : Q
}.

(** A triggered download: [link.download] and the blob behind [link.href]. *)
Record Download := mkDownload {
  filename : string;
  blob : Archive
}.

(** ** The world the code runs in *)

(** [sessionStorage]: the stored items, whether the storage can be reached
    at all, and how many code units (keys and values) it accepts. *)
Record Storage := mkStorage {
  items : gmap string string;
  accessible : bool;
  quota : N
}.

Inductive Level := LogLevel | WarnLevel | ErrorLevel.

Record LogEntry := mkLogEntry {
  level : Level;
  message : string
}.

Record World := mkWorld {
  storage : Storage;
  console : list LogEntry;
  requests : list Request;
  downloads : list Download
}.

(** What a [throw] carries. *)
Inductive Exn :=
| JsError (msg : string)
| TypeError (msg : string)
| RangeError (msg : string)
| SyntaxError
| DOMException (name : string)
| ServiceError.

Inductive Completion (A : Type) :=
| Normal (a : A)
| Throw (e : Exn).
Arguments Normal {A} a.
Arguments Throw {A} e.

(** A computation: from a world to how it completes and the world after. *)
Definition Js (A : Type) : Type := World -> Completion A * World.

#[global] Instance js_ret : MRet Js := fun A a w => (Normal a, w).

#[global] Instance js_bind : MBind Js := fun A B f m w =>
  match m w with
  | (Normal a, w') => f a w'
  | (Throw e, w') => (Throw e, w')
  end.

Definition throw {A} (e : Exn) : Js A := fun w => (Throw e, w).

(** [try { body } catch (e) { handler(e) }]. *)
Definition tryCatch {A} (body : Js A) (handler : Exn -> Js A) : Js A := fun w =>
  match body w with
  | (Normal a, w') => (Normal a, w')
  | (Throw e, w') => handler e w'
  end.

(** The world with more on its console. *)
Definition withLog (w : World) (entries : list LogEntry) : World :=
  mkWorld (storage w) (console w ++ entries) (requests w) (downloads w).

(** [console.log], [console.warn] and [console.error]: one more entry. *)
Definition logAt (l : Level) (msg : string) : Js unit := fun w =>
  (Normal tt, withLog w [mkLogEntry l msg]).

Definition console_log : string -> Js unit := logAt LogLevel.
Definition console_warn : string -> Js unit := logAt WarnLevel.
Definition console_error : string -> Js unit := logAt ErrorLevel.

(** The code units an item takes in the storage. *)
Definition usage (m : gmap string string) : N :=
  map_fold (fun k v acc => N.of_nat (String.length k) + N.of_nat (String.length v) + acc)%N 0%N m.

(** [sessionStorage.getItem]: throws when the storage cannot be reached. *)
Definition sessionStorage_getItem (key : string) : Js (option string) := fun w =>
  if accessible (storage w)
  then (Normal (items (storage w) !! key), w)
  else (Throw (DOMException "SecurityError"), w).

(** [sessionStorage.setItem]: throws when the storage cannot be reached or
    the new contents would exceed the quota. *)
Definition sessionStorage_setItem (key value : string) : Js unit := fun w =>
  let st := storage w in
  if accessible st then
    let items' := <[key := value]> (items st) in
    if (usage items' <=? quota st)%N
    then (Normal tt, mkWorld (mkStorage items' true (quota st)) (console w) (requests w) (downloads w))
    else (Throw (DOMException "QuotaExceededError"), w)
  else (Throw (DOMException "SecurityError"), w).

(** ** What the platform provides *)

(** [JSON.stringify] and [JSON.parse] at the type [T] the caller gives to
    [getFromCache<T>] and [setInCache<T>]: [JSON_stringify] is [None] when
    the value cannot be serialized (a thrown [TypeError]), [JSON_parse] is
    [None] when the text is no JSON text (a thrown [SyntaxError]). The empty
    text is no JSON text. *)
Class Json (T : Type) := {
  JSON_stringify : T -> option string;
  JSON_parse : string -> option T;
  JSON_parse_empty : JSON_parse "" = None
}.

(** The other collaborators: the digest of the Web Crypto API
    ([crypto.subtle.digest], by algorithm name), the two ways a file is
    read, the ZIP reader (the entries in the order [Object.values(zip.files)]
    lists them, [None] when the bytes are no container), the generation
    service (the text of its response, [None] when the call fails; the
    answer may depend on the requests made before), and the fixed
    instruction of the verification pass, a constant text of the source. *)
Class Env := {
  subtle_digest : string -> list byte -> list byte;
  readAsBase64 : list byte -> string;
  blob_text : list byte -> string;
  JSZip_loadAsync : list byte -> option (list ZipObject);
  generateContent : list Request -> Request -> option string;
  verificationSystemInstruction : string
}.

(** ** [src/utils/caching.ts] *)

Module Caching.

(** A part of a cache key: a string or an [ArrayBuffer]. *)
Inductive KeyPart :=
| KString (s : string)
| KBuffer (b : list byte).

Definition byte_of_nat (n : nat) : byte := byte_of_ascii (ascii_of_nat n).

(** [new TextEncoder().encode]: UTF-8. A code unit below 128 is one byte,
    the others kept (128 to 255) are two. *)
Definition encodeChar (c : ascii) : list byte :=
  let n := Js.code c in
  if (n <? 128)%nat then [byte_of_ascii c]
  else [byte_of_nat (192 + n / 64); byte_of_nat (128 + n mod 64)].

Fixpoint TextEncoder_encode (s : string) : list byte :=
  match s with
  | EmptyString => []
  | String c s' => encodeChar c ++ TextEncoder_encode s'
  end.

(** The bytes a part contributes, and how many: [encode(part).length] or
    [part.byteLength]. *)
Definition partBytes (part : KeyPart) : list byte :=
  match part with
  | KString s => TextEncoder_encode s
  | KBuffer b => b
  end.

Definition partLength (part : KeyPart) : nat := length (partBytes part).

(** [target.set(source, offset)] on a [Uint8Array]: a [RangeError] when the
    source does not fit, otherwise the bytes from [offset] are overwritten. *)
Definition Uint8Array_set (target source : list byte) (offset : nat) : Js (list byte) :=
  if (offset + length source <=? length target)%nat
  then mret (take offset target ++ source ++ drop (offset + length source) target)
  else throw (RangeError "offset is out of bounds").

(** The loop of [generateCacheKey] over the parts, with [combined] and
    [offset] as its state. *)
Fixpoint fillCombined (parts : list KeyPart) (combined : list byte) (offset : nat)
  : Js (list byte) :=
  match parts with
  | [] => mret combined
  | part :: rest =>
      combined' ← Uint8Array_set combined (partBytes part) offset;
      fillCombined rest combined' (offset + partLength part)
  end.

Definition hexDigit (d : nat) : ascii :=
  if (d <? 10)%nat then ascii_of_nat (48 + d) else ascii_of_nat (87 + d).

(** [b.toString(16)] for a byte: one or two digits, lower case. *)
Definition toString16 (b : byte) : string :=
  let n := Js.code (ascii_of_byte b) in
  if (n <? 16)%nat then String (hexDigit n) EmptyString
  else String (hexDigit (n / 16)) (String (hexDigit (n mod 16)) EmptyString).

(** [s.padStart(targetLength, padString)] for a one-character pad. *)
Definition padStart (targetLength : nat) (pad : ascii) (s : string) : string :=
  string_of_list_ascii (replicate (targetLength - String.length s) pad) +:+ s.

Definition toHex (hashArray : list byte) : string :=
  Js.join "" (map (fun b => padStart 2 "0"%char (toString16 b)) hashArray).

Definition generateCacheKey `{Env} (parts : list KeyPart) : Js string :=
  let totalLength := fold_left (fun acc part => acc + partLength part)%nat parts 0%nat in
  let combined := replicate totalLength Byte.x00 in
  combined ← fillCombined parts combined 0;
  let hashBuffer := subtle_digest "SHA-256" combined in
  mret (toHex hashBuffer).

(** [getFromCache]: the stored item parsed, or [null] ([None]); whatever
    is thrown on the way is caught and logged. *)
Definition getFromCache `{Json T} (key : string) : Js (option T) :=
  tryCatch
    (item ← sessionStorage_getItem key;
     match item with
     | None => mret None
     | Some "" => mret None
     | Some text =>
         match JSON_parse text with
         | Some v => mret (Some v)
         | None => throw SyntaxError
         end
     end)
    (fun error =>
       console_error ("Failed to retrieve or parse cache for key " +:+ Js.dquote +:+ key +:+ Js.dquote);;
       mret None).

(** [setInCache]: the value serialized and stored; a failure of either step
    is caught and logged. *)
Definition setInCache `{Json T} (key : string) (data : T) : Js unit :=
  tryCatch
    (match JSON_stringify data with
     | Some item => sessionStorage_setItem key item
     | None => throw (TypeError "Converting circular structure to JSON")
     end)
    (fun error =>
       console_error ("Failed to set cache for key " +:+ Js.dquote +:+ key +:+ Js.dquote)).

End Caching.

(** ** [src/utils/fileConverter.ts] *)

Module FileConverter.

(** [filesToGenerativeParts]: per file, a text naming it and its content
    inlined as base64. *)
Definition filesToGenerativeParts `{Env} (files : list UploadedFile) : list Part :=
  flat_map (fun uploadedFile =>
    let file := uf_file uploadedFile in
    [ TextPart ("This is the content of the file: " +:+ file_name file);
      InlineData
        (if String.eqb (file_type file) "" then "application/octet-stream" else file_type file)
        (readAsBase64 (file_bytes file)) ]) files.

(** [files.forEach(file => zip.file(file.path, file.content))]. *)
Definition addGeneratedFiles (zip : Archive) (files : list GeneratedFile) : Archive :=
  fold_left (fun z file => <[path file := Text (content file)]> z) files zip.

Definition fileNames (l : list UploadedFile) : list string :=
  map (fun f => file_name (uf_file f)) l.

(** The loose inputs whose name ends with [originalPath]. *)
Definition looseMatchesOf (uploadedFiles : list UploadedFile) (mapping : AssetMapping)
  : list UploadedFile :=
  List.filter (fun uf => Js.endsWith (file_name (uf_file uf)) (originalPath mapping)) uploadedFiles.

(** The first part of the loop body: [targetFile] among the loose inputs. *)
Definition findTargetFile (uploadedFiles : list UploadedFile) (mapping : AssetMapping)
  : Js (option File) :=
  let looseMatches := looseMatchesOf uploadedFiles mapping in
  match looseMatches with
  | [] => mret None
  | first :: _ =>
      match List.find (fun uf => String.eqb (file_name (uf_file uf)) (originalPath mapping))
                      looseMatches with
      | Some exactMatch => mret (Some (uf_file exactMatch))
      | None =>
          (if (1 <? length looseMatches)%nat
           then console_warn
                  ("Ambiguous asset mapping for '" +:+ originalPath mapping
                   +:+ "'. Multiple files matched: " +:+ Js.join ", " (fileNames looseMatches)
                   +:+ ". Using the first one found: '" +:+ file_name (uf_file first) +:+ "'.")
           else mret tt);;
          mret (Some (uf_file first))
      end
  end.

Definition isContainerName (name : string) : bool :=
  let fileName := Js.toLowerCase name in
  Js.endsWith fileName ".zip" || Js.endsWith fileName ".mcaddon" || Js.endsWith fileName ".mcpack".

(** The entry [find] selects in an opened container. *)
Definition findAssetFile (entries : list ZipObject) (mapping : AssetMapping) : option ZipObject :=
  List.find (fun file => negb (zip_dir file) && Js.endsWith (zip_name file) (originalPath mapping))
            entries.

(** The fallback loop over the uploaded files: each container is opened
    and searched; the entry [find] selects is extracted, written, and ends
    the loop. A container that cannot be opened, or whose selected entry
    cannot be extracted, is logged and passed over. The result is the
    archive and [found]. *)
Fixpoint searchContainers `{Env} (rest : list UploadedFile) (mapping : AssetMapping)
  (zip : Archive) : Js (Archive * bool) :=
  match rest with
  | [] => mret (zip, false)
  | uf :: rest' =>
      if isContainerName (file_name (uf_file uf)) then
        written ← tryCatch
          (match JSZip_loadAsync (file_bytes (uf_file uf)) with
           | None => throw (JsError "Can't find end of central directory")
           | Some entries =>
               match findAssetFile entries mapping with
               | Some assetFile =>
                   match zip_data assetFile with
                   | Some assetContent =>
                       mret (Some (<[newPath mapping := Binary assetContent]> zip))
                   | None => throw (JsError "Corrupted zip: the entry cannot be read")
                   end
               | None => mret None
               end
           end)
          (fun e =>
             console_error ("Error reading zip file " +:+ file_name (uf_file uf)
                            +:+ " while searching for asset " +:+ originalPath mapping);;
             mret None);
        match written with
        | Some zip' => mret (zip', true)
        | None => searchContainers rest' mapping zip
        end
      else searchContainers rest' mapping zip
  end.

(** One turn of [for (const mapping of assetMappings)]. *)
Definition applyMapping `{Env} (uploadedFiles : list UploadedFile) (zip : Archive)
  (mapping : AssetMapping) : Js Archive :=
  targetFile ← findTargetFile uploadedFiles mapping;
  '(zip', found) ← (match targetFile with
                    | Some file =>
                        mret (<[newPath mapping := Binary (file_bytes file)]> zip, true)
                    | None => searchContainers uploadedFiles mapping zip
                    end : Js (Archive * bool));
  (if found : bool then mret tt
   else console_warn ("Asset for mapping '" +:+ originalPath mapping +:+ "' -> '"
                      +:+ newPath mapping +:+ "' not found in any uploaded files or zips."));;
  mret zip'.

Fixpoint applyMappings `{Env} (uploadedFiles : list UploadedFile) (zip : Archive)
  (assetMappings : list AssetMapping) : Js Archive :=
  match assetMappings with
  | [] => mret zip
  | mapping :: rest =>
      zip' ← applyMapping uploadedFiles zip mapping;
      applyMappings uploadedFiles zip' rest
  end.

(** [zip.generateAsync({ type: 'blob' })]: the archive generated holds the
    entries of [zip.files] but the one with the empty name, which JSZip
    passes over when it walks the files ([forEach] skips an empty relative
    path). *)
Definition generateAsync (zip : Archive) : Archive := delete "" zip.

(** The link that is created, clicked and removed. *)
Definition triggerDownload (name : string) (content : Archive) : Js unit := fun w =>
  (Normal tt, mkWorld (storage w) (console w) (requests w)
                      (downloads w ++ [mkDownload name content])).

Definition downloadAddon `{Env} (addonName : string) (files : list GeneratedFile)
  (uploadedFiles : list UploadedFile) (assetMappings : list AssetMapping) : Js unit :=
  let zip := addGeneratedFiles (∅ : Archive) files in
  zip ← applyMappings uploadedFiles zip assetMappings;
  let content := generateAsync zip in
  triggerDownload (addonName +:+ ".mcaddon") content.

(** The class of [/[^a-zA-Z0-9_ -]/]: the code units the pattern keeps. *)
Definition isNameChar (c : ascii) : bool :=
  Js.between 97 122 c || Js.between 65 90 c || Js.between 48 57 c
  || (Js.code c =? 95)%nat || (Js.code c =? 32)%nat || (Js.code c =? 45)%nat.

(** [addonName.replace(/[^a-zA-Z0-9_ -]/g, '').trim() || 'addon']. *)
Definition safeAddonName (addonName : string) : string :=
  let stripped := Js.trim (Js.removeOutside isNameChar addonName) in
  if String.eqb stripped "" then "addon" else stripped.

Definition addRawFile (zip : Archive) (file : option File) : Archive :=
  match file with
  | Some f => <[file_name f := Binary (file_bytes f)]> zip
  | None => zip
  end.

(** The two packs are files the user picked, whose names are not empty: the
    archive generated holds every entry of [zip.files]. *)
Definition downloadMcaddonFromZips (addonName : string) (rpFile bpFile : option File)
  : Js unit :=
  let zip := addRawFile (addRawFile (∅ : Archive) rpFile) bpFile in
  triggerDownload (safeAddonName addonName +:+ ".mcaddon") zip.

End FileConverter.

(** ** [src/services/geminiService.ts] *)

Module GeminiService.

(** [s.replace(/^```json/, '')]. *)
Definition stripJsonFence (s : string) : string :=
  if Js.startsWith s "```json"
  then String.substring 7 (String.length s - 7) s
  else s.

(** [s.replace(/```$/, '')]. *)
Definition stripClosingFence (s : string) : string :=
  if Js.endsWith s "```"
  then String.substring 0 (String.length s - 3) s
  else s.

Definition unparseableMessage : string :=
  "The AI returned a response that couldn't be understood. This can happen with very complex or ambiguous requests. Please try simplifying your prompt, or try again.".

(** [cleanJsonText]: the response trimmed, without its Markdown fence. *)
Definition cleanJsonTextOf (responseText : string) : string :=
  let jsonText := Js.trim responseText in
  Js.trim (stripClosingFence (stripJsonFence jsonText)).

(** [parseJsonResponse]: the clean text parsed; a failure is logged and
    thrown again as an [Error]. *)
Definition parseJsonResponse `{Json GenResult} (responseText : string) : Js GenResult :=
  tryCatch
    (let cleanJsonText := cleanJsonTextOf responseText in
     match JSON_parse cleanJsonText with
     | Some result => mret result
     | None => throw SyntaxError
     end)
    (fun e =>
       console_error "Failed to parse Gemini response as JSON";;
       console_error ("Raw response: " +:+ responseText);;
       throw (JsError unparseableMessage)).

Definition TEXT_EXTENSIONS : list string :=
  [".json"; ".js"; ".mcfunction"; ".lang"; ".md"; ".txt"].

Definition isTextName (fileName : string) : bool :=
  existsb (fun ext => Js.endsWith (Js.toLowerCase fileName) ext) TEXT_EXTENSIONS.

(** The loop of [filesToSmartParts]: text files become parts with their
    content, the names of the others are collected. *)
Fixpoint smartPartsLoop `{Env} (files : list UploadedFile) (parts : list Part)
  (binaryFilePaths : list string) : list Part * list string :=
  match files with
  | [] => (parts, binaryFilePaths)
  | uploadedFile :: rest =>
      let fileName := file_name (uf_file uploadedFile) in
      if isTextName fileName then
        let content := blob_text (file_bytes (uf_file uploadedFile)) in
        smartPartsLoop rest
          (parts ++ [TextPart ("File path: " +:+ fileName +:+ Js.lf +:+ Js.lf +:+ "---"
                               +:+ Js.lf +:+ Js.lf +:+ content)])
          binaryFilePaths
      else smartPartsLoop rest parts (binaryFilePaths ++ [fileName])
  end.

Definition filesToSmartParts `{Env} (files : list UploadedFile) : list Part :=
  let '(parts, binaryFilePaths) := smartPartsLoop files [] [] in
  match binaryFilePaths with
  | [] => parts
  | _ =>
      parts ++ [TextPart ("The following binary asset files also exist. You must create assetMappings for them to include them in the final addon:"
                          +:+ Js.lf +:+ "- " +:+ Js.join (Js.lf +:+ "- ") binaryFilePaths)]
  end.

(** [ai.models.generateContent]: the request is recorded; the service
    answers with a text or fails. *)
Definition ai_generateContent `{Env} (request : Request) : Js string := fun w =>
  let w' := mkWorld (storage w) (console w) (requests w ++ [request]) (downloads w) in
  match generateContent (requests w) request with
  | Some text => (Normal text, w')
  | None => (Throw ServiceError, w')
  end.

Definition performSingleGeneration `{Env} `{Json GenResult}
  (systemInstruction prompt : string) (parts : list Part) (temperature : Q) : Js GenResult :=
  let contents := TextPart prompt :: parts in
  text ← ai_generateContent
           (mkRequest "gemini-2.5-pro" contents systemInstruction "application/json" temperature);
  parseJsonResponse text.

(** [p.text || p.inlineData.mimeType]: a part with an empty text and no
    inline data has no [mimeType] to read. *)
Definition partLabel (p : Part) : Js string :=
  match p with
  | TextPart "" => throw (TypeError "Cannot read properties of undefined (reading 'mimeType')")
  | TextPart text => mret text
  | InlineData mimeType _ => mret mimeType
  end.

Fixpoint partLabels (parts : list Part) : Js (list string) :=
  match parts with
  | [] => mret []
  | p :: rest =>
      l ← partLabel p;
      ls ← partLabels rest;
      mret (l :: ls)
  end.

Definition noInitialFilesMessage : string :=
  "The AI did not generate any files in the initial step. Your request might be too vague, unsupported, or against the safety policy. Please provide more specific details and try again.".

Definition noVerifiedFilesMessage : string :=
  "The AI failed to return any files during the verification step. This is an unexpected error. The initial files have been preserved. Please try again.".

Definition verificationPromptOf (prompt : string) : string :=
  "The original user request was: " +:+ Js.dquote +:+ prompt +:+ Js.dquote
  +:+ ". Please verify and correct the following addon files to perfectly match the request and ensure they are 100% bug-free and production-ready.".

Definition generatedFilePart (f : GeneratedFile) : Part :=
  TextPart ("File path: " +:+ path f +:+ Js.lf +:+ Js.lf +:+ "---" +:+ Js.lf +:+ Js.lf
            +:+ content f).

(** [!result.files || result.files.length === 0]. *)
Definition hasNoFiles (result : GenResult) : bool :=
  match files result with
  | None | Some [] => true
  | Some (_ :: _) => false
  end.

Definition filesOf (result : GenResult) : list GeneratedFile :=
  default [] (files result).

(** The key of a request: instruction, prompt and the labels of the parts. *)
Definition cacheKeyOf `{Env} (systemInstruction prompt : string) (parts : list Part)
  : Js string :=
  labels ← partLabels parts;
  let partIdentifier := Js.join "|" labels in
  Caching.generateCacheKey
    [Caching.KString systemInstruction; Caching.KString prompt; Caching.KString partIdentifier].

(** The two passes after a cache miss. *)
Definition generateAndVerify `{Env} `{Json GenResult}
  (systemInstruction prompt : string) (parts : list Part) (cacheKey : string)
  : Js GenResult :=
  initialResult ← performSingleGeneration systemInstruction prompt parts (1 # 10)%Q;
  if hasNoFiles initialResult then throw (JsError noInitialFilesMessage)
  else
    console_log "Performing verification and correction step...";;
    let verificationPrompt := verificationPromptOf prompt in
    let generatedFileParts := map generatedFilePart (filesOf initialResult) in
    finalResult ← performSingleGeneration verificationSystemInstruction verificationPrompt
                    generatedFileParts 0%Q;
    let finalResult :=
      mkGenResult (files finalResult) (assetMappings initialResult)
                  (summaryReport initialResult) in
    console_log "Verification complete.";;
    if hasNoFiles finalResult then throw (JsError noVerifiedFilesMessage)
    else
      Caching.setInCache cacheKey finalResult;;
      mret finalResult.

Definition generateAddonFiles `{Env} `{Json GenResult}
  (systemInstruction prompt : string) (uploadedFiles : list UploadedFile)
  (useSmartParts : bool) : Js GenResult :=
  let parts := if useSmartParts then filesToSmartParts uploadedFiles
               else FileConverter.filesToGenerativeParts uploadedFiles in
  cacheKey ← cacheKeyOf systemInstruction prompt parts;
  cachedData ← Caching.getFromCache cacheKey;
  match cachedData with
  | Some cached =>
      console_log ("Cache hit! Returning cached addon files. " +:+ cacheKey);;
      mret cached
  | None =>
      console_log ("Cache miss. Generating new addon files. " +:+ cacheKey);;
      generateAndVerify systemInstruction prompt parts cacheKey
  end.

End GeminiService.

(** ** The specification's words, as definitions to compare the code with *)

Module Spec.

(** [get] of the ResponseCache (spec 4.2) as a plain lookup: the stored
    text parsed, absent when the storage cannot be reached, the key is
    unseen or the text does not parse. *)
Definition cached `{Json T} (st : Storage) (key : string) : option T :=
  if accessible st then
    match items st !! key with
    | Some text => JSON_parse text
    | None => None
    end
  else None.

(** The entries the cache logs when a read or a write fails. *)
Definition getError (key : string) : LogEntry :=
  mkLogEntry ErrorLevel
    ("Failed to retrieve or parse cache for key " +:+ Js.dquote +:+ key +:+ Js.dquote).

Definition setError (key : string) : LogEntry :=
  mkLogEntry ErrorLevel ("Failed to set cache for key " +:+ Js.dquote +:+ key +:+ Js.dquote).

(** [set] of the ResponseCache (spec 4.2) as a function on worlds: the
    item is written when the value serializes and the storage takes it,
    otherwise the failure is logged and nothing else changes. *)
Definition afterSet `{Json T} (key : string) (data : T) (w : World) : World :=
  match JSON_stringify data with
  | Some item =>
      match sessionStorage_setItem key item w with
      | (Normal _, w') => w'
      | (Throw _, _) => withLog w [setError key]
      end
  | None => withLog w [setError key]
  end.

(** The write of [data] under [key] is accepted by the storage of [w]. *)
Definition writable `{Json T} (key : string) (data : T) (st : Storage) : bool :=
  match JSON_stringify data with
  | Some item => accessible st && (usage (<[key := item]> (items st)) <=? quota st)%N
  | None => false
  end.

(** The fingerprint of the inputs: what each part contributes to the key. *)
Definition label (p : Part) : string :=
  match p with
  | TextPart text => text
  | InlineData mimeType _ => mimeType
  end.

Definition partsOf `{Env} (useSmartParts : bool) (uploadedFiles : list UploadedFile)
  : list Part :=
  if useSmartParts then GeminiService.filesToSmartParts uploadedFiles
  else FileConverter.filesToGenerativeParts uploadedFiles.

(** The key of a request (spec 4.3): the digest, in hexadecimal, of the
    instruction, the prompt and the fingerprint, concatenated. *)
Definition keyOf `{Env} (systemInstruction prompt : string) (parts : list Part) : string :=
  Caching.toHex (subtle_digest "SHA-256"
    (Caching.TextEncoder_encode systemInstruction
     ++ Caching.TextEncoder_encode prompt
     ++ Caching.TextEncoder_encode (Js.join "|" (map label parts)))).

(** The requests of the two passes. *)
Definition firstRequest (systemInstruction prompt : string) (parts : list Part) : Request :=
  mkRequest "gemini-2.5-pro" (TextPart prompt :: parts) systemInstruction
            "application/json" (1 # 10)%Q.

Definition secondRequest `{Env} (prompt : string) (initialResult : GenResult) : Request :=
  mkRequest "gemini-2.5-pro"
            (TextPart (GeminiService.verificationPromptOf prompt)
             :: map GeminiService.generatedFilePart (GeminiService.filesOf initialResult))
            verificationSystemInstruction "application/json" 0%Q.

(** What one call of the collaborator comes to: a transport failure, an
    unparseable response, or a structured result. *)
Definition pass `{Env} `{Json GenResult} (earlier : list Request) (request : Request)
  : Completion GenResult :=
  match generateContent earlier request with
  | None => Throw ServiceError
  | Some text =>
      match JSON_parse (GeminiService.cleanJsonTextOf text) with
      | Some result => Normal result
      | None => Throw (JsError GeminiService.unparseableMessage)
      end
  end.

(** The requests a cache miss makes, and how it completes: the second
    request is made when the first pass returned a file (spec 4.3). *)
Definition requestsMade `{Env} `{Json GenResult} (earlier : list Request)
  (systemInstruction prompt : string) (parts : list Part) : list Request :=
  let first := firstRequest systemInstruction prompt parts in
  match pass earlier first with
  | Normal initialResult =>
      if GeminiService.hasNoFiles initialResult then [first]
      else [first; secondRequest prompt initialResult]
  | Throw _ => [first]
  end.

Definition twoPasses `{Env} `{Json GenResult} (earlier : list Request)
  (systemInstruction prompt : string) (parts : list Part) : Completion GenResult :=
  let first := firstRequest systemInstruction prompt parts in
  match pass earlier first with
  | Throw e => Throw e
  | Normal initialResult =>
      if GeminiService.hasNoFiles initialResult
      then Throw (JsError GeminiService.noInitialFilesMessage)
      else
        match pass (earlier ++ [first]) (secondRequest prompt initialResult) with
        | Throw e => Throw e
        | Normal verified =>
            if GeminiService.hasNoFiles verified
            then Throw (JsError GeminiService.noVerifiedFilesMessage)
            else Normal (mkGenResult (files verified) (assetMappings initialResult)
                                     (summaryReport initialResult))
        end
  end.

(** A part has something to contribute to the fingerprint. *)
Definition hasLabel (p : Part) : bool :=
  match p with
  | TextPart "" => false
  | _ => true
  end.

(** The entry the gateway logs on a hit. *)
Definition hitEntry (key : string) : LogEntry :=
  mkLogEntry LogLevel ("Cache hit! Returning cached addon files. " +:+ key).

(** The two hexadecimal digits of a byte, and the byte two digits denote. *)
Definition hexPair (b : byte) : string :=
  Caching.padStart 2 "0"%char (Caching.toString16 b).

Definition digitValue (c : ascii) : nat :=
  if Js.between 48 57 c then Js.code c - 48 else Js.code c - 87.

Definition isLowerHex (c : ascii) : bool :=
  Js.between 48 57 c || Js.between 97 102 c.

Definition unhexPair (c1 c2 : ascii) : byte :=
  Caching.byte_of_nat (16 * digitValue c1 + digitValue c2).

(** The outcome of resolving one relocation instruction (spec 4.5): a
    loose input, an entry of a container with the bytes extracted from it,
    or nothing. *)
Inductive Resolution :=
| Loose (file : File)
| Entry (assetFile : ZipObject) (assetContent : list byte)
| NotFound.

Definition nameIs (originalPath : string) (uf : UploadedFile) : bool :=
  String.eqb (file_name (uf_file uf)) originalPath.

Definition nameEndsWith (originalPath : string) (uf : UploadedFile) : bool :=
  Js.endsWith (file_name (uf_file uf)) originalPath.

Definition entryMatches (originalPath : string) (e : ZipObject) : bool :=
  negb (zip_dir e) && Js.endsWith (zip_name e) originalPath.

(** The entries of an input that is a container and opens. *)
Definition opened `{Env} (uf : UploadedFile) : option (list ZipObject) :=
  if FileConverter.isContainerName (file_name (uf_file uf))
  then JSZip_loadAsync (file_bytes (uf_file uf))
  else None.

(** The entry the fallback takes in one input: the first matching entry of
    a container that opens. *)
Definition candidate `{Env} (originalPath : string) (uf : UploadedFile) : option ZipObject :=
  match opened uf with
  | Some entries => List.find (entryMatches originalPath) entries
  | None => None
  end.

(** What one input supplies to the fallback: its candidate, with the
    bytes, when the candidate can be extracted. *)
Definition supplied `{Env} (originalPath : string) (uf : UploadedFile)
  : option (ZipObject * list byte) :=
  match candidate originalPath uf with
  | Some e =>
      match zip_data e with
      | Some b => Some (e, b)
      | None => None
      end
  | None => None
  end.

(** The fallback: the first input, in upload order, that supplies an
    entry. *)
Definition fallback `{Env} (uploadedFiles : list UploadedFile) (originalPath : string)
  : option (ZipObject * list byte) :=
  head (omap (supplied originalPath) uploadedFiles).

(** The inputs the fallback passes over before it is supplied an entry,
    and those among them it logs an error for: the containers that do not
    open and those whose candidate cannot be extracted. *)
Fixpoint passedOver `{Env} (originalPath : string) (uploadedFiles : list UploadedFile)
  : list UploadedFile :=
  match uploadedFiles with
  | [] => []
  | uf :: rest =>
      match supplied originalPath uf with
      | Some _ => []
      | None => uf :: passedOver originalPath rest
      end
  end.

Definition unread `{Env} (originalPath : string) (uf : UploadedFile) : bool :=
  FileConverter.isContainerName (file_name (uf_file uf))
  && match JSZip_loadAsync (file_bytes (uf_file uf)) with
     | None => true
     | Some entries =>
         match List.find (entryMatches originalPath) entries with
         | Some e => bool_decide (zip_data e = None)
         | None => false
         end
     end.

Definition readError (m : AssetMapping) (uf : UploadedFile) : LogEntry :=
  mkLogEntry ErrorLevel ("Error reading zip file " +:+ file_name (uf_file uf)
                         +:+ " while searching for asset " +:+ originalPath m).

Definition readErrors `{Env} (m : AssetMapping) (uploadedFiles : list UploadedFile)
  : list LogEntry :=
  map (readError m)
      (List.filter (unread (originalPath m)) (passedOver (originalPath m) uploadedFiles)).

(** The four steps, in order: an exact name among the loose inputs, else
    the first loose input whose name ends with the path, else the entry the
    fallback is supplied, else nothing. *)
Definition resolve `{Env} (uploadedFiles : list UploadedFile) (originalPath : string)
  : Resolution :=
  match List.find (nameIs originalPath) uploadedFiles with
  | Some uf => Loose (uf_file uf)
  | None =>
      match List.find (nameEndsWith originalPath) uploadedFiles with
      | Some uf => Loose (uf_file uf)
      | None =>
          match fallback uploadedFiles originalPath with
          | Some (e, b) => Entry e b
          | None => NotFound
          end
      end
  end.

(** The step-2 choice is ambiguous: no exact name, several suffix matches. *)
Definition ambiguous (uploadedFiles : list UploadedFile) (originalPath : string) : bool :=
  match List.find (nameIs originalPath) uploadedFiles with
  | Some _ => false
  | None => (1 <? length (List.filter (nameEndsWith originalPath) uploadedFiles))%nat
  end.

Definition resolvedBytes (r : Resolution) : option (list byte) :=
  match r with
  | Loose file => Some (file_bytes file)
  | Entry _ b => Some b
  | NotFound => None
  end.

(** The warnings of the resolver. *)
Definition ambiguityWarning (uploadedFiles : list UploadedFile) (m : AssetMapping)
  : LogEntry :=
  let looseMatches := List.filter (nameEndsWith (originalPath m)) uploadedFiles in
  mkLogEntry WarnLevel
    ("Ambiguous asset mapping for '" +:+ originalPath m
     +:+ "'. Multiple files matched: "
     +:+ Js.join ", " (FileConverter.fileNames looseMatches)
     +:+ ". Using the first one found: '"
     +:+ default "" (head (FileConverter.fileNames looseMatches)) +:+ "'.").

Definition notFoundWarning (m : AssetMapping) : LogEntry :=
  mkLogEntry WarnLevel
    ("Asset for mapping '" +:+ originalPath m +:+ "' -> '" +:+ newPath m
     +:+ "' not found in any uploaded files or zips.").

(** What one relocation does to the archive: a write at [newPath] when it
    resolves, nothing otherwise. *)
Definition relocated `{Env} (uploadedFiles : list UploadedFile) (zip : Archive)
  (m : AssetMapping) : Archive :=
  match resolvedBytes (resolve uploadedFiles (originalPath m)) with
  | Some b => <[newPath m := Binary b]> zip
  | None => zip
  end.

(** A trace of writes applied to an archive, first to last. *)
Definition applyWrites (zip : Archive) (trace : list (string * Content)) : Archive :=
  fold_left (fun z pc => <[pc.1 := pc.2]> z) trace zip.

(** The writes of one assembly in application order: the generated files,
    then the relocations that resolve. *)
Definition relocationWrite `{Env} (uploadedFiles : list UploadedFile) (m : AssetMapping)
  : option (string * Content) :=
  b ← resolvedBytes (resolve uploadedFiles (originalPath m));
  Some (newPath m, Binary b).

Definition writes `{Env} (files : list GeneratedFile) (uploadedFiles : list UploadedFile)
  (assetMappings : list AssetMapping) : list (string * Content) :=
  map (fun f => (path f, Text (content f))) files
  ++ omap (relocationWrite uploadedFiles) assetMappings.

(** The files one assembly writes into the JSZip object, and the archive
    it produces from them. *)
Definition assembled `{Env} (files : list GeneratedFile) (uploadedFiles : list UploadedFile)
  (assetMappings : list AssetMapping) : Archive :=
  applyWrites ∅ (writes files uploadedFiles assetMappings).

Definition produced `{Env} (files : list GeneratedFile) (uploadedFiles : list UploadedFile)
  (assetMappings : list AssetMapping) : Archive :=
  FileConverter.generateAsync (assembled files uploadedFiles assetMappings).

(** The content of the last write of a trace that targets [p]. *)
Fixpoint lastWrite (p : string) (trace : list (string * Content)) : option Content :=
  match trace with
  | [] => None
  | (q, c) :: rest =>
      match lastWrite p rest with
      | Some c' => Some c'
      | None => if String.eqb q p then Some c else None
      end
  end.

(** Filename sanitization as the spec words it (section 6): the characters
    outside the class are stripped, an empty result falls back to the
    default name. *)
Definition strippedName (addonName : string) : string :=
  string_of_list_ascii (List.filter FileConverter.isNameChar (list_ascii_of_string addonName)).

Definition sanitizedFilename (addonName : string) : string :=
  (if String.eqb (strippedName addonName) "" then "addon" else strippedName addonName)
  +:+ ".mcaddon".

(** Spaces removed at both ends. *)
Definition isSpace (c : ascii) : bool := (Js.code c =? 32)%nat.

Fixpoint dropSpaces (l : list ascii) : list ascii :=
  match l with
  | c :: l' => if isSpace c then dropSpaces l' else l
  | [] => []
  end.

Definition trimSpaces (s : string) : string :=
  string_of_list_ascii (rev (dropSpaces (rev (dropSpaces (list_ascii_of_string s))))).

End Spec.

(** ** Concrete collaborators, for the examples *)

Module Fixture.

#[global] Instance GeneratedFile_eq_dec : EqDecision GeneratedFile.
Proof. solve_decision. Defined.

#[global] Instance AssetMapping_eq_dec : EqDecision AssetMapping.
Proof. solve_decision. Defined.

#[global] Instance GenResult_eq_dec : EqDecision GenResult.
Proof. solve_decision. Defined.

(** A JSON codec restricted to a finite table of texts and their values. *)
Definition tableParse {T} (table : list (string * T)) (s : string) : option T :=
  if String.eqb s "" then None
  else snd <$> List.find (fun e => String.eqb (fst e) s) table.

Definition tableStringify {T} `{EqDecision T} (table : list (string * T)) (v : T)
  : option string :=
  fst <$> List.find (fun e => bool_decide (snd e = v)) table.

Definition tableJson {T} `{EqDecision T} (table : list (string * T)) : Json T :=
  {| JSON_stringify := tableStringify table;
     JSON_parse := tableParse table;
     JSON_parse_empty := eq_refl |}.

Definition manifest : GeneratedFile := mkGeneratedFile "bp/manifest.json" "{}".
Definition manifestFixed : GeneratedFile := mkGeneratedFile "bp/manifest.json" "{ }".
Definition iconMapping : AssetMapping := mkAssetMapping "icon.png" "rp/pack_icon.png".

(** What the two passes answer: the first with a mapping and a report,
    the second with corrected files and fields of its own. *)
Definition firstPass : GenResult :=
  mkGenResult (Some [manifest]) (Some [iconMapping]) (Some "merged two packs").

Definition secondPass : GenResult :=
  mkGenResult (Some [manifestFixed]) None (Some "notes of the verifier").

Definition finalResult : GenResult :=
  mkGenResult (Some [manifestFixed]) (Some [iconMapping]) (Some "merged two packs").

Definition emptyPass : GenResult := mkGenResult (Some []) None None.

Definition json : Json GenResult :=
  tableJson [("first", firstPass); ("second", secondPass); ("final", finalResult);
             ("empty", emptyPass)].

(** A container is recognised by its first bytes, and holds two entries. *)
Definition containerBytes : list byte := [Byte.x50; Byte.x4b].

Definition containerEntries : list ZipObject :=
  [ mkZipObject "textures/" true (Some []);
    mkZipObject "textures/sword.png" false (Some [Byte.x01; Byte.x02]) ].

(** A service that answers the first request with [firstPass] and every
    later one with [secondPass]. *)
Definition env : Env :=
  {| subtle_digest := fun _ data => data;
     readAsBase64 := string_of_list_byte;
     blob_text := string_of_list_byte;
     JSZip_loadAsync := fun b =>
       if bool_decide (b = containerBytes) then Some containerEntries else None;
     generateContent := fun earlier _ =>
       match earlier with [] => Some "first" | _ => Some "second" end;
     verificationSystemInstruction := "You are the infallible core of a self-correcting IDE." |}.

(** A service whose verification pass returns no file. *)
Definition envEmptyVerification : Env :=
  {| subtle_digest := fun _ data => data;
     readAsBase64 := string_of_list_byte;
     blob_text := string_of_list_byte;
     JSZip_loadAsync := fun _ => None;
     generateContent := fun earlier _ =>
       match earlier with [] => Some "first" | _ => Some "empty" end;
     verificationSystemInstruction := "You are the infallible core of a self-correcting IDE." |}.

(** A service that answers every request with the text of [null]. *)
Definition envNull : Env :=
  {| subtle_digest := fun _ data => data;
     readAsBase64 := string_of_list_byte;
     blob_text := string_of_list_byte;
     JSZip_loadAsync := fun _ => None;
     generateContent := fun _ _ => Some "null";
     verificationSystemInstruction := "You are the infallible core of a self-correcting IDE." |}.

(** A service that answers every request with the text [second]. *)
Definition envSecond : Env :=
  {| subtle_digest := fun _ data => data;
     readAsBase64 := string_of_list_byte;
     blob_text := string_of_list_byte;
     JSZip_loadAsync := fun _ => None;
     generateContent := fun _ _ => Some "second";
     verificationSystemInstruction := "You are the infallible core of a self-correcting IDE." |}.

(** A service whose first pass returns no file. *)
Definition envEmptyInitial : Env :=
  {| subtle_digest := fun _ data => data;
     readAsBase64 := string_of_list_byte;
     blob_text := string_of_list_byte;
     JSZip_loadAsync := fun _ => None;
     generateContent := fun _ _ => Some "empty";
     verificationSystemInstruction := "You are the infallible core of a self-correcting IDE." |}.

Definition world (q : N) : World :=
  mkWorld (mkStorage ∅ true q) [] [] [].

(** A session whose storage has room, and one whose storage is full. *)
Definition freshWorld : World := world 5242880.
Definition fullWorld : World := world 0.

(** One request of the user, with no uploaded file. *)
Definition instruction : string := "You are an addon architect.".
Definition userPrompt : string := "A ruby sword".

Definition invoke : Js GenResult :=
  @GeminiService.generateAddonFiles env json instruction userPrompt [] false.

Definition key : string :=
  @Spec.keyOf env instruction userPrompt (@Spec.partsOf env false []).

Definition firstReq : Request :=
  Spec.firstRequest instruction userPrompt (@Spec.partsOf env false []).

Definition swordFile : File := mkFile "sword.png" "image/png" [Byte.x0a].
Definition iconFile : File := mkFile "assets/icons/icon.png" "image/png" [Byte.x0b].
Definition packFile : File := mkFile "Pack.MCADDON" "" containerBytes.

(** An assembly in which a relocation that resolves targets the path of a
    generated file, next to one that matches nothing. *)
Definition uploads : list UploadedFile := [mkUploadedFile swordFile asset].
Definition generatedA : GeneratedFile := mkGeneratedFile "a.json" "A".
Definition collidingMappings : list AssetMapping :=
  [ mkAssetMapping "missing.png" "textures/missing.png";
    mkAssetMapping "sword.png" "a.json" ].

(** A name with a leading space and a character outside the class. *)
Definition rawName : string := " my:addon".

(** A container whose first entry named sword.png cannot be extracted,
    before one that can; and a platform that opens it. *)
Definition damagedBytes : list byte := [Byte.x50; Byte.x4b; Byte.x00].

Definition damagedEntries : list ZipObject :=
  [ mkZipObject "textures/sword.png" false None;
    mkZipObject "models/sword.png" false (Some [Byte.x03]) ].

Definition damagedFile : File := mkFile "damaged.mcpack" "" damagedBytes.
Definition damagedUploads : list UploadedFile := [mkUploadedFile damagedFile addon_file].
Definition swordMapping : AssetMapping := mkAssetMapping "sword.png" "textures/items/sword.png".

(** A generated file whose path is empty. *)
Definition generatedUnnamed : GeneratedFile := mkGeneratedFile "" "A".

Definition envDamaged : Env :=
  {| subtle_digest := fun _ data => data;
     readAsBase64 := string_of_list_byte;
     blob_text := string_of_list_byte;
     JSZip_loadAsync := fun b =>
       if bool_decide (b = containerBytes) then Some containerEntries
       else if bool_decide (b = damagedBytes) then Some damagedEntries
       else None;
     generateContent := fun earlier _ =>
       match earlier with [] => Some "first" | _ => Some "second" end;
     verificationSystemInstruction := "You are the infallible core of a self-correcting IDE." |}.

(** The names of the downloads a run leaves behind. *)
Definition downloadNames (run : Completion unit * World) : list string :=
  map filename (downloads run.2).

End Fixture.

(** ** [src/services/geminiService.ts], the tools built on the gateway *)

Module Tools.

(** The instruction of each tool is a constant text of the source, two of
    them with the name the caller gives spliced in. *)
Class Texts := {
  combineSystemInstruction : string -> string;
  fixSystemInstruction : string;
  summarizeSystemInstruction : string;
  devSystemInstruction : string;
  functionSystemInstruction : string -> string
}.


(** [new File([blob], fileObject.name, { type: blob.type })]: the blob JSZip
    makes of an entry has the empty type. *)
Definition entryFile (fileObject : ZipObject) (blob : list byte) : UploadedFile :=
  mkUploadedFile (mkFile (zip_name fileObject) "" blob) addon_file.

(** The inner loop of [processAndUnzipFiles], over the entries of a
    container that opened: every entry that is no directory is extracted
    and pushed. [processedFiles] is an array the loop pushes to, so what was
    pushed stays when an extraction throws: the result is how the loop
    completes and the array after it. *)
Fixpoint pushEntries (entries : list ZipObject) (processedFiles : list UploadedFile)
  : Completion unit * list UploadedFile :=
  match entries with
  | [] => (Normal tt, processedFiles)
  | fileObject :: rest =>
      if zip_dir fileObject then pushEntries rest processedFiles
      else
        match zip_data fileObject with
        | Some blob => pushEntries rest (processedFiles ++ [entryFile fileObject blob])
        | None => (Throw (JsError "Corrupted zip: the entry cannot be read"), processedFiles)
        end
  end.

(** The [try] block for one container: the container is opened and its
    entries pushed. *)
Definition unzipInto `{Env} (uploadedFile : UploadedFile) (processedFiles : list UploadedFile)
  : Completion unit * list UploadedFile :=
  match JSZip_loadAsync (file_bytes (uf_file uploadedFile)) with
  | None => (Throw (JsError "Can't find end of central directory"), processedFiles)
  | Some entries => pushEntries entries processedFiles
  end.

(** The loop of [processAndUnzipFiles], with [processedFiles] as its state:
    for a container the [try] block runs, and when it throws the failure
    is logged and the container itself is pushed after what the block had
    pushed; every other file is pushed as it is. The test on the name is
    the one of the fallback of [downloadAddon]. *)
Fixpoint unzipLoop `{Env} (uploadedFiles processedFiles : list UploadedFile)
  : Js (list UploadedFile) :=
  match uploadedFiles with
  | [] => mret processedFiles
  | uploadedFile :: rest =>
      if FileConverter.isContainerName (file_name (uf_file uploadedFile)) then
        match unzipInto uploadedFile processedFiles with
        | (Normal _, processedFiles') => unzipLoop rest processedFiles'
        | (Throw e, processedFiles') =>
            console_error ("Failed to unzip " +:+ file_name (uf_file uploadedFile)
                           +:+ ", adding the file itself.");;
            unzipLoop rest (processedFiles' ++ [uploadedFile])
        end
      else unzipLoop rest (processedFiles ++ [uploadedFile])
  end.

Definition processAndUnzipFiles `{Env} (uploadedFiles : list UploadedFile)
  : Js (list UploadedFile) :=
  unzipLoop uploadedFiles [].

(** [parseJsonResponse] where the caller reads the result at another type
    than the generation result. *)
Definition parseJsonResponseAs {T} `{Json T} (responseText : string) : Js T :=
  tryCatch
    (let cleanJsonText := GeminiService.cleanJsonTextOf responseText in
     match JSON_parse cleanJsonText with
     | Some result => mret result
     | None => throw SyntaxError
     end)
    (fun e =>
       console_error "Failed to parse Gemini response as JSON";;
       console_error ("Raw response: " +:+ responseText);;
       throw (JsError GeminiService.unparseableMessage)).

(** The JSON text of [null]: the four letters, with the white space JSON
    allows around a value (space, TAB, LF, CR). *)
Definition isJsonSpace (c : ascii) : bool :=
  (Js.code c =? 32)%nat || (Js.code c =? 9)%nat || (Js.code c =? 10)%nat
  || (Js.code c =? 13)%nat.

Fixpoint skipJsonSpace (s : string) : string :=
  match s with
  | EmptyString => EmptyString
  | String c s' => if isJsonSpace c then skipJsonSpace s' else s
  end.

Definition isNullText (s : string) : bool :=
  match skipJsonSpace s with
  | String "n" (String "u" (String "l" (String "l" rest))) =>
      forallb isJsonSpace (list_ascii_of_string rest)
  | _ => false
  end.

(** [JSON.parse] and [JSON.stringify] where the value read at the type [T]
    may also be [null] ([None]): a text that is not read at [T] and is the
    text of [null] denotes [null], and [null] is written as its four
    letters. *)
Definition nullable {T} `{Json T} : Json (option T).
Proof.
  refine {| JSON_stringify := fun value =>
              match value with
              | Some v => JSON_stringify v
              | None => Some "null"
              end;
            JSON_parse := fun text =>
              match JSON_parse text with
              | Some v => Some (Some v)
              | None => if isNullText text then Some None else None
              end |}.
  by rewrite JSON_parse_empty.
Defined.

(** What [combineAddons] and [fixAddon] return:
    [{ files, assetMappings, summaryReport }], the last two never missing. *)
Record AddonResult := mkAddonResult {
  result_files : option (list GeneratedFile);
  result_assetMappings : list AssetMapping;
  result_summaryReport : string
}.

(** [report || fallback] on a string that may be missing. *)
Definition reportOr (report : option string) (fallback : string) : string :=
  match report with
  | Some (String c s) => String c s
  | _ => fallback
  end.


Definition auditPrompt : string :=
  "The user has not specified a problem. Please perform a full audit of the provided addon files, find any errors or potential issues, and generate a fixed version.".

Definition fixPromptOf (problem : string) : string :=
  if String.eqb (Js.trim problem) "" then auditPrompt
  else "Fix the following problem with my Minecraft addon: " +:+ Js.dquote +:+ problem
       +:+ Js.dquote.

Definition fixAddon `{Env} `{Texts} `{Json GenResult}
  (problem : string) (uploadedFiles : list UploadedFile) : Js AddonResult :=
  unzippedFiles ← processAndUnzipFiles uploadedFiles;
  let fullPrompt := fixPromptOf problem in
  result ← GeminiService.generateAddonFiles fixSystemInstruction fullPrompt unzippedFiles true;
  mret (mkAddonResult (files result) (default [] (assetMappings result))
                      (reportOr (summaryReport result) "")).

(** [summarizeAddon]: the summary is a string, cached under the digest of
    the instruction, a tag and the bytes of the files; the request sets no
    response type. A cached summary is returned when it is truthy. *)
Definition summarizeAddon `{Env} `{Texts} `{Json string}
  (uploadedFiles : list UploadedFile) : Js string :=
  unzippedFiles ← processAndUnzipFiles uploadedFiles;
  let fileBuffers := map (fun f => Caching.KBuffer (file_bytes (uf_file f))) unzippedFiles in
  cacheKey ← Caching.generateCacheKey
               (Caching.KString summarizeSystemInstruction :: Caching.KString "summarize"
                :: fileBuffers);
  cachedData ← Caching.getFromCache cacheKey;
  match cachedData with
  | Some (String c s) =>
      console_log ("Cache hit! Returning cached summary. " +:+ cacheKey);;
      mret (String c s)
  | _ =>
      console_log ("Cache miss. Generating new summary. " +:+ cacheKey);;
      let fileParts := GeminiService.filesToSmartParts unzippedFiles in
      text ← GeminiService.ai_generateContent
               (mkRequest "gemini-2.5-pro"
                          (TextPart "Please analyze the following addon files." :: fileParts)
                          summarizeSystemInstruction "" (3 # 10)%Q);
      Caching.setInCache cacheKey text;;
      mret text
  end.

(** What [devAddon] returns: [{ files, assetMappings }]. *)
Record DevResult := mkDevResult {
  dev_files : option (list GeneratedFile);
  dev_assetMappings : list AssetMapping
}.

Definition nullFilesMessage : string :=
  "Cannot read properties of null (reading 'files')".

(** [devAddon]: the cached value and the parsed response are read as a
    generation result or [null]. A cached [null] is falsy, so it counts as
    a miss; a response that is [null] is handed to [setInCache] before
    [result.files] is read and throws. *)
Definition devAddon `{Env} `{Texts} `{Json GenResult}
  (instruction : string) (existingFiles : list GeneratedFile) : Js DevResult :=
  let fileContents :=
    Js.join ";" (map (fun file => "path:" +:+ path file +:+ ",content:" +:+ content file)
                     existingFiles) in
  cacheKey ← Caching.generateCacheKey
               [Caching.KString devSystemInstruction; Caching.KString instruction;
                Caching.KString fileContents];
  cachedData ← Caching.getFromCache (H:=nullable) cacheKey;
  match cachedData with
  | Some (Some cached) =>
      console_log ("Cache hit! Returning cached dev files. " +:+ cacheKey);;
      mret (mkDevResult (files cached) [])
  | _ =>
      console_log ("Cache miss. Generating new dev files. " +:+ cacheKey);;
      let fileParts := map GeminiService.generatedFilePart existingFiles in
      text ← GeminiService.ai_generateContent
               (mkRequest "gemini-2.5-pro"
                          (TextPart ("Apply the following instruction to the addon: "
                                     +:+ Js.dquote +:+ instruction +:+ Js.dquote)
                           :: fileParts)
                          devSystemInstruction "application/json" (2 # 10)%Q);
      result ← parseJsonResponseAs (H:=nullable) text;
      Caching.setInCache (H:=nullable) cacheKey result;;
      match result with
      | Some result => mret (mkDevResult (files result) [])
      | None => throw (TypeError nullFilesMessage)
      end
  end.

Definition noFunctionMessage : string :=
  "The AI did not generate a function file. Your request might be too vague or unsupported. Please provide more specific details and try again.".

Definition functionPromptOf (prompt functionName : string) : string :=
  "Create a Minecraft function named '" +:+ functionName +:+ "'." +:+ Js.lf
  +:+ "  Request: " +:+ Js.dquote +:+ prompt +:+ Js.dquote.

(** [generateFunction]: one generation, without the verification pass and
    without the cache. *)
Definition generateFunction `{Env} `{Texts} `{Json GenResult}
  (prompt functionName : string) : Js (list GeneratedFile) :=
  let fullPrompt := functionPromptOf prompt functionName in
  result ← GeminiService.performSingleGeneration (functionSystemInstruction functionName)
             fullPrompt [] (1 # 10)%Q;
  if GeminiService.hasNoFiles result then throw (JsError noFunctionMessage)
  else mret (GeminiService.filesOf result).

(** [initiateAddonGeneration]: the entry point of the creators. Its first
    response follows the unified schema, [{ plan?, files?, assetMappings?,
    summaryReport? }], for a type of plans the model leaves open. *)
Record UnifiedResult (Plan : Type) := mkUnifiedResult {
  unified_plan : option Plan;
  unified_files : option (list GeneratedFile);
  unified_assetMappings : option (list AssetMapping);
  unified_summaryReport : option string
}.
Arguments mkUnifiedResult {Plan} _ _ _ _.
Arguments unified_plan {Plan} _.
Arguments unified_files {Plan} _.
Arguments unified_assetMappings {Plan} _.
Arguments unified_summaryReport {Plan} _.

(** Whether a value of the type is truthy: what [if (value)] tests. *)
Class Truthy (T : Type) := truthy : T -> bool.

(** [initialResult.plan] as [if (initialResult.plan)] sees it: the plan
    when the field is there and its value is truthy. *)
Definition truthyPlan {Plan} `{Truthy Plan} (initialResult : UnifiedResult Plan)
  : option Plan :=
  match unified_plan initialResult with
  | Some plan => if truthy plan then Some plan else None
  | None => None
  end.

(** What it returns: [{ plan }] or [{ files, assetMappings, summaryReport }]. *)
Inductive Initiated (Plan : Type) :=
| PlanOnly (plan : Plan)
| Generated (result : AddonResult).
Arguments PlanOnly {Plan} plan.
Arguments Generated {Plan} result.

(** Its two instructions, the first with the name and the description of
    the addon spliced in. *)
Class CreatorTexts := {
  creatorSystemInstruction : string -> string -> string;
  creatorVerificationInstruction : string
}.

Definition unexpectedResponseMessage : string :=
  "The AI returned an unexpected response. It did not contain a plan or any files. Please try rephrasing your request.".

Definition nullPlanMessage : string :=
  "Cannot read properties of null (reading 'plan')".

Definition creatorPromptOf (prompt : string) (uploadedFiles : list UploadedFile) : string :=
  "Generate an addon based on this request: " +:+ Js.dquote +:+ prompt +:+ Js.dquote
  +:+ Js.lf
  +:+ (if (0 <? length uploadedFiles)%nat then "The user has provided asset files." else "").

(** The first response is read as a unified result or [null]; reading the
    plan of [null] throws. *)
Definition initiateAddonGeneration {Plan} `{Truthy Plan} `{Env} `{CreatorTexts}
  `{Json (UnifiedResult Plan)} `{Json GenResult}
  (prompt addonName description : string) (uploadedFiles : list UploadedFile)
  : Js (Initiated Plan) :=
  let fullPrompt := creatorPromptOf prompt uploadedFiles in
  let parts := GeminiService.filesToSmartParts uploadedFiles in
  initialText ← GeminiService.ai_generateContent
                  (mkRequest "gemini-2.5-pro" (TextPart fullPrompt :: parts)
                             (creatorSystemInstruction addonName description)
                             "application/json" (1 # 10)%Q);
  initialResult ← parseJsonResponseAs (H:=nullable) initialText;
  match initialResult with
  | None => throw (TypeError nullPlanMessage)
  | Some initialResult =>
      match truthyPlan initialResult with
      | Some plan => mret (PlanOnly plan)
      | None =>
          match unified_files initialResult with
          | Some (file :: others) =>
              console_log "Performing verification and correction step...";;
              let verificationPrompt := GeminiService.verificationPromptOf prompt in
              let generatedFileParts :=
                map GeminiService.generatedFilePart (file :: others) in
              finalResult ← GeminiService.performSingleGeneration
                              creatorVerificationInstruction verificationPrompt
                              generatedFileParts 0%Q;
              let finalResult :=
                mkGenResult (files finalResult) (unified_assetMappings initialResult)
                            (unified_summaryReport initialResult) in
              console_log "Verification complete.";;
              if GeminiService.hasNoFiles finalResult
              then throw (JsError GeminiService.noVerifiedFilesMessage)
              else mret (Generated (mkAddonResult (files finalResult)
                                      (default [] (assetMappings finalResult))
                                      (reportOr (summaryReport finalResult) "")))
          | _ => throw (JsError unexpectedResponseMessage)
          end
      end
  end.

End Tools.

(** ** [src/components/McaddonConverter.tsx] *)

Module McaddonConverter.

(** A call of [addNotification(type, message)]. *)
Inductive NotificationType := success | error | info.

Record Notification := mkNotification {
  note_type : NotificationType;
  note_message : string
}.

(** [String.prototype.includes]. *)
Fixpoint includes (s searchString : string) : bool :=
  String.prefix searchString s
  || match s with
     | EmptyString => false
     | String _ s' => includes s' searchString
     end.

(** [addonName.trim().match(/^[a-zA-Z0-9_ -]+$/)] finds a match. *)
Definition validAddonName (addonName : string) : bool :=
  let trimmed := Js.trim addonName in
  negb (String.eqb trimmed "")
  && forallb FileConverter.isNameChar (list_ascii_of_string trimmed).

Definition isNull {A} (file : option A) : bool :=
  match file with
  | None => true
  | Some _ => false
  end.

(** The loop over the uploaded files, with [rpFile] and [bpFile] as its
    state. *)
Fixpoint pickPacks (uploadedFiles : list File) (rpFile bpFile : option File)
  : option File * option File :=
  match uploadedFiles with
  | [] => (rpFile, bpFile)
  | file :: rest =>
      let name := Js.toLowerCase (file_name file) in
      if (includes name "rp" || includes name "resource") && isNull rpFile
      then pickPacks rest (Some file) bpFile
      else if (includes name "bp" || includes name "behavior") && isNull bpFile
      then pickPacks rest rpFile (Some file)
      else pickPacks rest rpFile bpFile
  end.

Definition noFileMessage : string := "Please provide at least one pack file (.zip).".

Definition invalidNameMessage : string :=
  "Addon name can only contain letters, numbers, spaces, underscores, and hyphens.".

Definition oneFileMessage : string :=
  "Only one file uploaded. Could not determine pack type, but will proceed.".

Definition undeterminedMessage : string :=
  "Could not determine pack types. Please ensure filenames contain " +:+ Js.dquote +:+ "rp"
  +:+ Js.dquote +:+ ", " +:+ Js.dquote +:+ "resource" +:+ Js.dquote +:+ ", " +:+ Js.dquote
  +:+ "bp" +:+ Js.dquote +:+ ", or " +:+ Js.dquote +:+ "behavior" +:+ Js.dquote +:+ ".".

Definition tooManyMessage : string :=
  "More than two ZIP files uploaded. Using the first detected RP and BP.".

(** What [console.error(err)] shows of an error. *)
Definition errorText (err : Exn) : string :=
  match err with
  | JsError msg | TypeError msg | RangeError msg => msg
  | SyntaxError => "SyntaxError"
  | DOMException name => name
  | ServiceError => "ServiceError"
  end.

(** The [try] block at the end of [handleConvert], after the
    notifications raised so far. *)
Definition convert (addonName : string) (rpFile bpFile : option File)
  (raised : list Notification) : Js (list Notification) :=
  tryCatch
    (FileConverter.downloadMcaddonFromZips addonName rpFile bpFile;;
     mret (raised ++ [mkNotification success (addonName +:+ ".mcaddon has been downloaded.")]))
    (fun err =>
       console_error (errorText err);;
       mret (raised ++ [mkNotification error "An unexpected error occurred during conversion."])).

(** [handleConvert] on the state of the component: the name typed and the
    files chosen. Its value is the notifications it raises, in order. *)
Definition handleConvert (addonName : string) (uploadedFiles : list File)
  : Js (list Notification) :=
  match uploadedFiles with
  | [] => mret [mkNotification error noFileMessage]
  | first :: others =>
      if negb (validAddonName addonName) then mret [mkNotification error invalidNameMessage]
      else
        match pickPacks uploadedFiles None None, others with
        | (None, None), [] =>
            convert addonName (Some first) None [mkNotification info oneFileMessage]
        | (None, None), _ :: _ => mret [mkNotification error undeterminedMessage]
        | (rpFile, bpFile), _ =>
            convert addonName rpFile bpFile
              (if (2 <? length uploadedFiles)%nat then [mkNotification info tooManyMessage]
               else [])
        end
  end.

End McaddonConverter.

(** ** Notions the properties of the tools are stated with *)

Module Derived.

(** Every code unit of the string is white space. *)
Definition allWhite (s : string) : bool :=
  forallb Js.isWhiteSpace (list_ascii_of_string s).

(** The part [filesToSmartParts] makes of a text file, and the part that
    lists the names of the other files. *)
Definition textPartOf `{Env} (uploadedFile : UploadedFile) : Part :=
  TextPart ("File path: " +:+ file_name (uf_file uploadedFile) +:+ Js.lf +:+ Js.lf +:+ "---"
            +:+ Js.lf +:+ Js.lf +:+ blob_text (file_bytes (uf_file uploadedFile))).

Definition binaryListing (binaryFilePaths : list string) : Part :=
  TextPart ("The following binary asset files also exist. You must create assetMappings for them to include them in the final addon:"
            +:+ Js.lf +:+ "- " +:+ Js.join (Js.lf +:+ "- ") binaryFilePaths).

Definition isText (uploadedFile : UploadedFile) : bool :=
  GeminiService.isTextName (file_name (uf_file uploadedFile)).

Definition isBinary (uploadedFile : UploadedFile) : bool := negb (isText uploadedFile).

(** What an upload contributes to the fingerprint of the inline parts: its
    name and its MIME type. *)
Definition nameAndType (uploadedFile : UploadedFile) : string * string :=
  (file_name (uf_file uploadedFile), file_type (uf_file uploadedFile)).

(** What [processAndUnzipFiles] pushes for the entries of a container that
    opened: the entries that are no directory, as files, up to the first
    that cannot be extracted. *)
Fixpoint pushed (entries : list ZipObject) : list UploadedFile :=
  match entries with
  | [] => []
  | fileObject :: rest =>
      if zip_dir fileObject then pushed rest
      else
        match zip_data fileObject with
        | Some blob => Tools.entryFile fileObject blob :: pushed rest
        | None => []
        end
  end.

(** Every entry that is no directory can be extracted. *)
Definition extracts (fileObject : ZipObject) : bool :=
  zip_dir fileObject || negb (McaddonConverter.isNull (zip_data fileObject)).

Definition intact (entries : list ZipObject) : bool := forallb extracts entries.

(** What [processAndUnzipFiles] makes of one upload: for a container that
    opens, the files pushed for its entries, followed by the container
    itself when an entry could not be extracted; the upload itself
    otherwise. *)
Definition expanded `{Env} (uploadedFile : UploadedFile) : list UploadedFile :=
  match Spec.opened uploadedFile with
  | Some entries => pushed entries ++ (if intact entries then [] else [uploadedFile])
  | None => [uploadedFile]
  end.

(** The upload has the name of a container and does not open, or opens
    with an entry that cannot be extracted. *)
Definition unreadable `{Env} (uploadedFile : UploadedFile) : bool :=
  FileConverter.isContainerName (file_name (uf_file uploadedFile))
  && match JSZip_loadAsync (file_bytes (uf_file uploadedFile)) with
     | Some entries => negb (intact entries)
     | None => true
     end.

(** Every container among the uploads that opens is intact. *)
Definition allIntact `{Env} (uploadedFiles : list UploadedFile) : bool :=
  forallb (fun uploadedFile =>
             match Spec.opened uploadedFile with
             | Some entries => intact entries
             | None => true
             end) uploadedFiles.

Definition unzipError (uploadedFile : UploadedFile) : LogEntry :=
  mkLogEntry ErrorLevel ("Failed to unzip " +:+ file_name (uf_file uploadedFile)
                         +:+ ", adding the file itself.").

(** The key, the request and the console entries of [devAddon]. *)
Definition devContents (existingFiles : list GeneratedFile) : string :=
  Js.join ";" (map (fun file => "path:" +:+ path file +:+ ",content:" +:+ content file)
                   existingFiles).

Definition devKey `{Env} `{Tools.Texts} (instruction : string)
  (existingFiles : list GeneratedFile) : string :=
  Caching.toHex (subtle_digest "SHA-256"
    (Caching.TextEncoder_encode Tools.devSystemInstruction
     ++ Caching.TextEncoder_encode instruction
     ++ Caching.TextEncoder_encode (devContents existingFiles))).



Definition devHit (key : string) : LogEntry :=
  mkLogEntry LogLevel ("Cache hit! Returning cached dev files. " +:+ key).

Definition devMiss (key : string) : LogEntry :=
  mkLogEntry LogLevel ("Cache miss. Generating new dev files. " +:+ key).

(** The request of [generateFunction]. *)
Definition functionRequest `{Tools.Texts} (prompt functionName : string) : Request :=
  mkRequest "gemini-2.5-pro" [TextPart (Tools.functionPromptOf prompt functionName)]
            (Tools.functionSystemInstruction functionName) "application/json" (1 # 10)%Q.

(** The key and the request of [summarizeAddon] for the extracted files. *)
Definition bytesOf (files : list UploadedFile) : list byte :=
  flat_map (fun f => file_bytes (uf_file f)) files.

Definition summaryKey `{Env} `{Tools.Texts} (files : list UploadedFile) : string :=
  Caching.toHex (subtle_digest "SHA-256"
    (Caching.TextEncoder_encode Tools.summarizeSystemInstruction
     ++ Caching.TextEncoder_encode "summarize" ++ bytesOf files)).

Definition summaryRequest `{Env} `{Tools.Texts} (files : list UploadedFile) : Request :=
  mkRequest "gemini-2.5-pro"
            (TextPart "Please analyze the following addon files."
             :: GeminiService.filesToSmartParts files)
            Tools.summarizeSystemInstruction "" (3 # 10)%Q.

Definition summaryHit (key : string) : LogEntry :=
  mkLogEntry LogLevel ("Cache hit! Returning cached summary. " +:+ key).

Definition summaryMiss (key : string) : LogEntry :=
  mkLogEntry LogLevel ("Cache miss. Generating new summary. " +:+ key).


Definition addonResultOf (result : GenResult) (fallback : string) : Tools.AddonResult :=
  Tools.mkAddonResult (files result) (default [] (assetMappings result))
                      (Tools.reportOr (summaryReport result) fallback).

(** The world after the extraction of the uploads. *)
Definition afterUnzip `{Env} (uploadedFiles : list UploadedFile) (w : World) : World :=
  withLog w (map unzipError (List.filter unreadable uploadedFiles)).

(** The entry a pack handed to [downloadMcaddonFromZips] puts at a path. *)
Definition packAt (p : string) (file : option File) : option Content :=
  match file with
  | Some f => if String.eqb (file_name f) p then Some (Binary (file_bytes f)) else None
  | None => None
  end.

(** The requests of [initiateAddonGeneration] and what its first pass comes
    to. *)
Definition creatorRequest `{Env} `{Tools.CreatorTexts}
  (prompt addonName description : string) (uploadedFiles : list UploadedFile) : Request :=
  mkRequest "gemini-2.5-pro"
            (TextPart (Tools.creatorPromptOf prompt uploadedFiles)
             :: GeminiService.filesToSmartParts uploadedFiles)
            (Tools.creatorSystemInstruction addonName description) "application/json"
            (1 # 10)%Q.

Definition creatorVerification `{Tools.CreatorTexts} (prompt : string)
  (generated : list GeneratedFile) : Request :=
  mkRequest "gemini-2.5-pro"
            (TextPart (GeminiService.verificationPromptOf prompt)
             :: map GeminiService.generatedFilePart generated)
            Tools.creatorVerificationInstruction "application/json" 0%Q.

Definition passAs {T} `{Env} `{Json T} (earlier : list Request) (request : Request)
  : Completion T :=
  match generateContent earlier request with
  | None => Throw ServiceError
  | Some text =>
      match JSON_parse (GeminiService.cleanJsonTextOf text) with
      | Some result => Normal result
      | None => Throw (JsError GeminiService.unparseableMessage)
      end
  end.

(** The tests of the loop of [handleConvert] on a file, and a list without
    the first element that passes a test. *)
Definition isResourceName (file : File) : bool :=
  let name := Js.toLowerCase (file_name file) in
  McaddonConverter.includes name "rp" || McaddonConverter.includes name "resource".

Definition isBehaviorName (file : File) : bool :=
  let name := Js.toLowerCase (file_name file) in
  McaddonConverter.includes name "bp" || McaddonConverter.includes name "behavior".

Fixpoint withoutFirst {A} (test : A -> bool) (l : list A) : list A :=
  match l with
  | [] => []
  | x :: rest => if test x then rest else x :: withoutFirst test rest
  end.

(** Two files written as one: the path of the first, and as content what
    [devAddon] writes for the content of the first followed by the second. *)
Definition merged (f g : GeneratedFile) : GeneratedFile :=
  mkGeneratedFile (path f)
                  (content f +:+ ";" +:+ "path:" +:+ path g +:+ ",content:" +:+ content g).

End Derived.

(** ** Concrete collaborators for the examples of the tools *)

Module ToolFixture.

(** The constant texts, shortened. *)
#[global] Instance texts : Tools.Texts :=
  {| Tools.combineSystemInstruction := fun newAddonName =>
       "You are an AI-powered Addon Combiner. The pack is named " +:+ newAddonName +:+ ".";
     Tools.fixSystemInstruction := "You are an AI-powered repair system.";
     Tools.summarizeSystemInstruction := "You are an addon analyst.";
     Tools.devSystemInstruction := "You are a refactoring engine.";
     Tools.functionSystemInstruction := fun functionName =>
       "You are a function writer. The function name is '" +:+ functionName +:+ "'." |}.

(** A codec for summaries: the text [e] denotes the empty string. *)
Definition summaryJson : Json string :=
  Fixture.tableJson [("e", ""); ("s", "A pack with one sword.")].

(** A string is truthy when it is not empty. *)
#[global] Instance truthyString : Tools.Truthy string :=
  fun s => negb (String.eqb s "").

(** The creators: two short instructions, plans that are strings, and a
    codec for three first responses: a plan with files, files, and an empty
    plan with files. *)
#[global] Instance creatorTexts : Tools.CreatorTexts :=
  {| Tools.creatorSystemInstruction := fun addonName description =>
       "You are the architect of " +:+ addonName +:+ ": " +:+ description;
     Tools.creatorVerificationInstruction := "You are the final gatekeeper." |}.

#[global] Instance UnifiedResult_eq_dec : EqDecision (Tools.UnifiedResult string).
Proof. solve_decision. Defined.

Definition planned : Tools.UnifiedResult string :=
  Tools.mkUnifiedResult (Some "three items, one entity") (Some [Fixture.manifest]) None None.

Definition unifiedJson : Json (Tools.UnifiedResult string) :=
  Fixture.tableJson
    [("first", planned);
     ("files", Tools.mkUnifiedResult None (Some [Fixture.manifest]) None None);
     ("second", Tools.mkUnifiedResult (Some "") (Some [Fixture.manifest]) None None)].

End ToolFixture.

(** * Properties *)

(** ** Strings *)

Section StringFacts.

Lemma app_String (a : ascii) (s t : string) : String a s +:+ t = String a (s +:+ t).
Proof. reflexivity. Qed.

Lemma app_empty_l (t : string) : "" +:+ t = t.
Proof. reflexivity. Qed.

Lemma app_empty_r (s : string) : s +:+ "" = s.
Proof. induction s as [|a s IH]; [done|]. by rewrite app_String, IH. Qed.

Lemma length_app_string (s t : string) :
  String.length (s +:+ t) = (String.length s + String.length t)%nat.
Proof. induction s as [|a s IH]; [done|]. rewrite app_String. simpl. by rewrite IH. Qed.

Lemma substring_whole (t : string) : String.substring 0 (String.length t) t = t.
Proof. induction t as [|a t IH]; [done|]. simpl. by rewrite IH. Qed.

Lemma substring_after (p t : string) :
  String.substring (String.length p) (String.length t) (p +:+ t) = t.
Proof.
  induction p as [|a p IH]; [apply substring_whole|].
  rewrite app_String. simpl. exact IH.
Qed.

Lemma substring_split (s : string) (n : nat) :
  (n <= String.length s)%nat ->
  s = String.substring 0 n s +:+ String.substring n (String.length s - n) s.
Proof.
  revert n. induction s as [|a s IH]; intros [|n] Hn; simpl in *; try lia.
  - done.
  - rewrite app_empty_l. by rewrite substring_whole.
  - rewrite app_String. f_equal. apply IH. lia.
Qed.

(** [endsWith] is the raw suffix relation on strings. *)
Lemma endsWith_suffix (s t : string) :
  Js.endsWith s t = true <-> exists p, s = p +:+ t.
Proof.
  unfold Js.endsWith. split.
  - destruct (Nat.leb_spec (String.length t) (String.length s)) as [Hle|]; [|done].
    intros Heq%String.eqb_eq.
    exists (String.substring 0 (String.length s - String.length t) s).
    pose proof (substring_split s (String.length s - String.length t)) as Hs.
    replace (String.length s - (String.length s - String.length t))%nat
      with (String.length t) in Hs by lia.
    rewrite Heq in Hs. apply Hs. lia.
  - intros [p ->]. rewrite length_app_string.
    destruct (Nat.leb_spec (String.length t) (String.length p + String.length t)); [|lia].
    replace (String.length p + String.length t - String.length t)%nat
      with (String.length p) by lia.
    rewrite substring_after. apply String.eqb_refl.
Qed.

Lemma endsWith_refl (s : string) : Js.endsWith s s = true.
Proof. apply endsWith_suffix. by exists "". Qed.

Lemma eqb_endsWith (s t : string) : String.eqb s t = true -> Js.endsWith s t = true.
Proof. intros ->%String.eqb_eq. apply endsWith_refl. Qed.

End StringFacts.

(** ** The monad *)

Ltac js_unfold :=
  unfold mbind, js_bind, mret, js_ret, tryCatch, throw,
    console_error, console_warn, console_log, logAt in *.

Section MonadFacts.

Lemma withLog_nil (w : World) : withLog w [] = w.
Proof. destruct w. unfold withLog. simpl. by rewrite app_nil_r. Qed.

Lemma withLog_app (w : World) (l1 l2 : list LogEntry) :
  withLog (withLog w l1) l2 = withLog w (l1 ++ l2).
Proof. unfold withLog. simpl. by rewrite app_assoc. Qed.

Lemma bind_normal {A B} (m : Js A) (f : A -> Js B) (w w' : World) (a : A) :
  m w = (Normal a, w') -> (m ≫= f) w = f a w'.
Proof. intros Hm. unfold mbind, js_bind. by rewrite Hm. Qed.

Lemma bind_run {A B} (m : Js A) (f : A -> Js B) (w : World) :
  (m ≫= f) w
  = match m w with
    | (Normal a, w') => f a w'
    | (Throw e, w') => (Throw e, w')
    end.
Proof. reflexivity. Qed.

Lemma console_log_run (msg : string) (w : World) :
  console_log msg w = (Normal tt, withLog w [mkLogEntry LogLevel msg]).
Proof. reflexivity. Qed.

Lemma console_warn_run (msg : string) (w : World) :
  console_warn msg w = (Normal tt, withLog w [mkLogEntry WarnLevel msg]).
Proof. reflexivity. Qed.

Lemma console_error_run (msg : string) (w : World) :
  console_error msg w = (Normal tt, withLog w [mkLogEntry ErrorLevel msg]).
Proof. reflexivity. Qed.

End MonadFacts.

(** ** The response cache ([getFromCache], [setInCache]) *)

Section CacheFacts.
Context {T : Type} `{Json T}.

(** [getFromCache] completes normally with the plain lookup; the storage
    is left as it was and the console gains at most the error entry. *)
Lemma getFromCache_run (key : string) (w : World) :
  exists entries,
    Caching.getFromCache key w = (Normal (Spec.cached (storage w) key), withLog w entries)
    /\ (entries = [] \/ entries = [Spec.getError key]).
Proof.
  unfold Caching.getFromCache, Spec.cached, sessionStorage_getItem. js_unfold.
  destruct (accessible (storage w)) eqn:Hacc.
  - destruct (items (storage w) !! key) as [text|] eqn:Hitem.
    + destruct text as [|c text].
      * rewrite JSON_parse_empty. exists []. by rewrite withLog_nil; auto.
      * destruct (JSON_parse (String c text)) as [v|].
        -- exists []. by rewrite withLog_nil; auto.
        -- exists [Spec.getError key]. auto.
    + exists []. by rewrite withLog_nil; auto.
  - exists [Spec.getError key]. auto.
Qed.

(** A hit leaves the world as it was. *)
Lemma getFromCache_hit (key : string) (w : World) (v : T) :
  Spec.cached (storage w) key = Some v ->
  Caching.getFromCache key w = (Normal (Some v), w).
Proof.
  unfold Caching.getFromCache, Spec.cached, sessionStorage_getItem. js_unfold.
  destruct (accessible (storage w)); [|done].
  destruct (items (storage w) !! key) as [[|c text]|]; [|..|done].
  - by rewrite JSON_parse_empty.
  - by intros ->.
Qed.

Lemma setInCache_run (key : string) (data : T) (w : World) :
  Caching.setInCache key data w = (Normal tt, Spec.afterSet key data w).
Proof.
  unfold Caching.setInCache, Spec.afterSet. js_unfold.
  destruct (JSON_stringify data) as [item|]; [|done].
  unfold sessionStorage_setItem.
  destruct (accessible (storage w)); [|done].
  by destruct (usage _ <=? quota _)%N.
Qed.

(** C5. [getFromCache] never throws, whatever the key and the state of the
    session storage: it completes normally, leaves the storage as it was,
    and its value is absent when the key is unseen, when the stored text is
    not deserializable and when the storage cannot be reached.
    [setInCache] never throws either: when the value does not serialize or
    the write is refused, the storage is left as it was and the failure is
    logged. *)
Theorem cache_degrades_without_throwing (key : string) (data : T) (w : World) :
  (exists v w',
      Caching.getFromCache (T:=T) key w = (Normal v, w')
      /\ storage w' = storage w
      /\ (items (storage w) !! key = None -> v = None)
      /\ (forall text, items (storage w) !! key = Some text ->
                       JSON_parse (T:=T) text = None -> v = None)
      /\ (accessible (storage w) = false -> v = None))
  /\ (exists w',
      Caching.setInCache key data w = (Normal tt, w')
      /\ (forall e w0,
            (JSON_stringify data = None
             \/ exists item, JSON_stringify data = Some item
                             /\ sessionStorage_setItem key item w = (Throw e, w0)) ->
            storage w' = storage w /\ console w' = console w ++ [Spec.setError key])).
Proof.
  split.
  - destruct (getFromCache_run key w) as (entries & Hrun & _).
    eexists _, _. split; [exact Hrun|]. split; [done|].
    unfold Spec.cached. repeat split.
    + intros ->. by destruct (accessible _).
    + intros text -> ->. by destruct (accessible _).
    + by intros ->.
  - eexists. split; [apply setInCache_run|].
    intros e w0 Hfail. unfold Spec.afterSet.
    destruct Hfail as [->|(item & -> & ->)]; done.
Qed.

End CacheFacts.

(** ** The key deriver ([generateCacheKey]) *)

Section KeyFacts.
Context `{Env}.

Lemma totalLength_fold (parts : list Caching.KeyPart) (n : nat) :
  fold_left (fun acc part => acc + Caching.partLength part)%nat parts n
  = (n + length (flat_map Caching.partBytes parts))%nat.
Proof.
  revert n. induction parts as [|part parts IH]; intros n; simpl; [lia|].
  rewrite IH, length_app. unfold Caching.partLength. lia.
Qed.

(** The loop writes the parts one after the other from [offset] on and
    never leaves the buffer. *)
Lemma fillCombined_run (parts : list Caching.KeyPart) (combined : list byte)
  (offset : nat) (w : World) :
  (offset + length (flat_map Caching.partBytes parts) <= length combined)%nat ->
  Caching.fillCombined parts combined offset w
  = (Normal (take offset combined ++ flat_map Caching.partBytes parts
             ++ drop (offset + length (flat_map Caching.partBytes parts)) combined), w).
Proof.
  revert combined offset.
  induction parts as [|part parts IH]; intros combined offset Hfit; simpl in *.
  - rewrite Nat.add_0_r, take_drop. reflexivity.
  - rewrite length_app in Hfit.
    unfold Caching.Uint8Array_set.
    destruct (Nat.leb_spec (offset + length (Caching.partBytes part)) (length combined));
      [|lia].
    erewrite bind_normal; [|reflexivity].
    unfold Caching.partLength.
    rewrite IH.
    + do 2 f_equal.
      rewrite take_app_ge by (rewrite length_take; lia).
      rewrite length_take, Nat.min_l by lia.
      replace (offset + length (Caching.partBytes part) - offset)%nat
        with (length (Caching.partBytes part)) by lia.
      rewrite take_app_ge by lia. rewrite Nat.sub_diag. simpl. rewrite app_nil_r.
      rewrite <- !app_assoc. do 2 f_equal.
      rewrite !drop_app_ge by (rewrite ?length_take; lia).
      rewrite length_take, Nat.min_l by lia.
      rewrite drop_drop, length_app. f_equal. apply (f_equal (fun n => drop n combined)). lia.
    + rewrite !length_app, length_take, length_drop. lia.
Qed.

(** [generateCacheKey] has no error condition and no effect: the key is the
    lower-case hexadecimal rendering of the digest of the parts' bytes,
    concatenated in order. *)
Lemma generateCacheKey_run (parts : list Caching.KeyPart) (w : World) :
  Caching.generateCacheKey parts w
  = (Normal (Caching.toHex (subtle_digest "SHA-256" (flat_map Caching.partBytes parts))), w).
Proof.
  unfold Caching.generateCacheKey.
  erewrite bind_normal.
  2:{ apply fillCombined_run. rewrite totalLength_fold, length_replicate. lia. }
  rewrite totalLength_fold. simpl.
  rewrite drop_ge by (rewrite length_replicate; lia).
  by rewrite app_nil_r.
Qed.

End KeyFacts.

(** ** The rendering of the key *)

Section HexFacts.
Context `{Env}.

(** A byte is rendered as two lower-case hexadecimal digits that denote it. *)
Lemma hexPair_shape (b : byte) :
  exists c1 c2,
    Spec.hexPair b = String c1 (String c2 EmptyString)
    /\ Spec.isLowerHex c1 = true /\ Spec.isLowerHex c2 = true
    /\ Spec.unhexPair c1 c2 = b.
Proof.
  assert (match Spec.hexPair b with
          | String c1 (String c2 EmptyString) =>
              Spec.isLowerHex c1 && Spec.isLowerHex c2
              && Byte.eqb (Spec.unhexPair c1 c2) b
          | _ => false
          end = true) as Hpair
    by (destruct b; vm_compute; reflexivity).
  destruct (Spec.hexPair b) as [|c1 [|c2 [|c3 rest]]]; try discriminate Hpair.
  apply andb_prop in Hpair as [[H1 H2]%andb_prop Hb].
  exists c1, c2. repeat split; [exact H1|exact H2|by apply Byte.byte_dec_bl].
Qed.

Lemma join_empty_cons (x : string) (l : list string) :
  Js.join "" (x :: l) = x +:+ Js.join "" l.
Proof. destruct l; simpl; [by rewrite app_empty_r|done]. Qed.

Lemma toHex_cons (b : byte) (bs : list byte) :
  Caching.toHex (b :: bs) = Spec.hexPair b +:+ Caching.toHex bs.
Proof. unfold Caching.toHex. simpl map. by rewrite join_empty_cons. Qed.

(** The key has two digits per byte of the digest. *)
Lemma toHex_length (bs : list byte) :
  String.length (Caching.toHex bs) = (2 * length bs)%nat.
Proof.
  induction bs as [|b bs IH]; [done|].
  rewrite toHex_cons.
  destruct (hexPair_shape b) as (c1 & c2 & -> & _).
  rewrite !app_String, app_empty_l. simpl. rewrite IH. lia.
Qed.

(** Every character of the key is a lower-case hexadecimal digit. *)
Lemma toHex_lowercase (bs : list byte) :
  Forall (fun c => Spec.isLowerHex c = true) (list_ascii_of_string (Caching.toHex bs)).
Proof.
  induction bs as [|b bs IH]; [constructor|].
  rewrite toHex_cons.
  destruct (hexPair_shape b) as (c1 & c2 & -> & H1 & H2 & _).
  rewrite !app_String, app_empty_l. simpl. by repeat constructor.
Qed.

(** The rendering loses nothing: equal keys come from equal digests. *)
Lemma toHex_inj (bs1 bs2 : list byte) :
  Caching.toHex bs1 = Caching.toHex bs2 -> bs1 = bs2.
Proof.
  revert bs2. induction bs1 as [|b1 bs1 IH]; intros [|b2 bs2]; rewrite ?toHex_cons.
  - done.
  - destruct (hexPair_shape b2) as (c1 & c2 & -> & _). discriminate.
  - destruct (hexPair_shape b1) as (c1 & c2 & -> & _). discriminate.
  - destruct (hexPair_shape b1) as (c1 & c2 & -> & _ & _ & <-).
    destruct (hexPair_shape b2) as (d1 & d2 & -> & _ & _ & <-).
    rewrite !app_String, !app_empty_l.
    intros Heq. injection Heq as -> -> Hrest. f_equal. by apply IH.
Qed.

(** Two lists of parts get the same key exactly when the digests of their
    concatenated bytes are the same; in particular two splits of one
    concatenation collide. *)
Lemma generateCacheKey_collision (parts1 parts2 : list Caching.KeyPart) (w : World) :
  Caching.generateCacheKey parts1 w = Caching.generateCacheKey parts2 w
  <-> subtle_digest "SHA-256" (flat_map Caching.partBytes parts1)
      = subtle_digest "SHA-256" (flat_map Caching.partBytes parts2).
Proof.
  rewrite !generateCacheKey_run. split.
  - intros Heq. injection Heq as Heq. by apply toHex_inj.
  - by intros ->.
Qed.

Lemma generateCacheKey_split (w : World) :
  Caching.generateCacheKey [Caching.KString "ab"; Caching.KString "c"] w
  = Caching.generateCacheKey [Caching.KString "a"; Caching.KString "bc"] w.
Proof. by apply generateCacheKey_collision. Qed.

End HexFacts.

(** ** The generation gateway ([generateAddonFiles]) *)

Section GatewayFacts.
Context `{Env} `{Json GenResult}.

Lemma partLabels_run (parts : list Part) (w : World) :
  forallb Spec.hasLabel parts = true ->
  GeminiService.partLabels parts w = (Normal (map Spec.label parts), w).
Proof.
  induction parts as [|p parts IH]; simpl; [done|].
  intros [Hp Hparts]%andb_prop.
  assert (GeminiService.partLabel p w = (Normal (Spec.label p), w)) as Hl.
  { destruct p as [[|c t]|m d]; done. }
  erewrite bind_normal by exact Hl.
  erewrite bind_normal by (apply IH; exact Hparts).
  reflexivity.
Qed.

Lemma generativeParts_labelled (uploadedFiles : list UploadedFile) :
  forallb Spec.hasLabel (FileConverter.filesToGenerativeParts uploadedFiles) = true.
Proof.
  unfold FileConverter.filesToGenerativeParts.
  induction uploadedFiles as [|uf rest IH]; simpl; [done|exact IH].
Qed.

Lemma smartPartsLoop_labelled (files : list UploadedFile) (parts : list Part)
  (binaryFilePaths : list string) :
  forallb Spec.hasLabel parts = true ->
  forallb Spec.hasLabel (GeminiService.smartPartsLoop files parts binaryFilePaths).1 = true.
Proof.
  revert parts binaryFilePaths.
  induction files as [|uf rest IH]; intros parts bins Hparts; simpl; [done|].
  destruct (GeminiService.isTextName _); apply IH; [|done].
  rewrite forallb_app, Hparts. reflexivity.
Qed.

Lemma smartParts_labelled (uploadedFiles : list UploadedFile) :
  forallb Spec.hasLabel (GeminiService.filesToSmartParts uploadedFiles) = true.
Proof.
  unfold GeminiService.filesToSmartParts.
  pose proof (smartPartsLoop_labelled uploadedFiles [] [] eq_refl) as Hloop.
  destruct (GeminiService.smartPartsLoop uploadedFiles [] []) as [parts bins].
  simpl in Hloop. destruct bins; [done|].
  rewrite forallb_app, Hloop. reflexivity.
Qed.

Lemma partsOf_labelled (useSmartParts : bool) (uploadedFiles : list UploadedFile) :
  forallb Spec.hasLabel (Spec.partsOf useSmartParts uploadedFiles) = true.
Proof.
  destruct useSmartParts; [apply smartParts_labelled|apply generativeParts_labelled].
Qed.

(** The key is derived without error or effect, and is [Spec.keyOf]. *)
Lemma cacheKeyOf_run (systemInstruction prompt : string) (parts : list Part) (w : World) :
  forallb Spec.hasLabel parts = true ->
  GeminiService.cacheKeyOf systemInstruction prompt parts w
  = (Normal (Spec.keyOf systemInstruction prompt parts), w).
Proof.
  intros Hparts. unfold GeminiService.cacheKeyOf.
  erewrite bind_normal by (apply partLabels_run; exact Hparts).
  rewrite generateCacheKey_run. simpl. by rewrite app_nil_r.
Qed.

(** One call of the collaborator: the request is recorded, the console may
    gain the two entries of a parsing failure, nothing else changes. *)
Lemma performSingleGeneration_run (systemInstruction prompt : string) (parts : list Part)
  (temperature : Q) (w : World) (request : Request) :
  request = mkRequest "gemini-2.5-pro" (TextPart prompt :: parts) systemInstruction
                      "application/json" temperature ->
  exists entries,
    GeminiService.performSingleGeneration systemInstruction prompt parts temperature w
    = (Spec.pass (requests w) request,
       mkWorld (storage w) (console w ++ entries) (requests w ++ [request]) (downloads w)).
Proof.
  intros ->.
  unfold GeminiService.performSingleGeneration, GeminiService.ai_generateContent, Spec.pass.
  set (request := mkRequest _ _ _ _ _). unfold mbind, js_bind.
  destruct (generateContent (requests w) request) as [text|].
  - unfold GeminiService.parseJsonResponse. js_unfold. unfold withLog.
    destruct (JSON_parse (GeminiService.cleanJsonTextOf text)) as [result|]; simpl.
    + exists []. by rewrite app_nil_r.
    + eexists [_; _]. rewrite <- app_assoc. reflexivity.
  - exists []. by rewrite app_nil_r.
Qed.

Lemma afterSet_requests (key : string) (data : GenResult) (w : World) :
  requests (Spec.afterSet key data w) = requests w.
Proof.
  unfold Spec.afterSet, sessionStorage_setItem.
  destruct (JSON_stringify data); [|done].
  destruct (accessible (storage w)); [|done].
  by destruct (usage _ <=? quota _)%N.
Qed.

(** The storage after [setInCache]: the item is there when the write was
    accepted, and the storage is as before otherwise. *)
Lemma afterSet_storage (key : string) (data : GenResult) (w : World) :
  storage (Spec.afterSet key data w)
  = match JSON_stringify data with
    | Some item =>
        if Spec.writable key data (storage w)
        then mkStorage (<[key := item]> (items (storage w))) true (quota (storage w))
        else storage w
    | None => storage w
    end.
Proof.
  unfold Spec.afterSet, Spec.writable, sessionStorage_setItem.
  destruct (JSON_stringify data); [|done].
  destruct (accessible (storage w)); [|done].
  by destruct (usage _ <=? quota _)%N.
Qed.

(** The two passes after a miss: how they complete, which requests they
    make, and that the only change to the storage is the final
    [setInCache] under the key handed in. *)
Lemma generateAndVerify_run (systemInstruction prompt : string) (parts : list Part)
  (key : string) (w : World) :
  exists entries,
    let w0 := mkWorld (storage w) (console w ++ entries)
                (requests w ++ Spec.requestsMade (requests w) systemInstruction prompt parts)
                (downloads w) in
    GeminiService.generateAndVerify systemInstruction prompt parts key w
    = (Spec.twoPasses (requests w) systemInstruction prompt parts,
       match Spec.twoPasses (requests w) systemInstruction prompt parts with
       | Normal result => Spec.afterSet key result w0
       | Throw _ => w0
       end).
Proof.
  unfold GeminiService.generateAndVerify, Spec.twoPasses, Spec.requestsMade.
  destruct (performSingleGeneration_run systemInstruction prompt parts (1 # 10)%Q w
              (Spec.firstRequest systemInstruction prompt parts) eq_refl) as [e1 H1].
  rewrite bind_run, H1. clear H1.
  destruct (Spec.pass (requests w) (Spec.firstRequest systemInstruction prompt parts))
    as [initialResult|e]; [|by exists e1].
  destruct (GeminiService.hasNoFiles initialResult) eqn:Hinit; [by exists e1|].
  rewrite bind_run, console_log_run. cbv beta iota. rewrite bind_run.
  match goal with
  | |- context [GeminiService.performSingleGeneration ?a ?b ?c ?d ?w0] =>
      destruct (performSingleGeneration_run a b c d w0
                  (Spec.secondRequest prompt initialResult) eq_refl) as [e2 H2]
  end.
  rewrite H2. clear H2. simpl.
  destruct (Spec.pass _ (Spec.secondRequest prompt initialResult)) as [verified|e].
  - rewrite bind_run, console_log_run. cbv beta iota.
    unfold GeminiService.hasNoFiles at 1. simpl.
    fold (GeminiService.hasNoFiles verified).
    destruct (GeminiService.hasNoFiles verified) eqn:Hver.
    + eexists. unfold throw, withLog. simpl.
      rewrite <- !app_assoc. reflexivity.
    + rewrite bind_run, setInCache_run.
      eexists. unfold mret, js_ret, withLog. simpl.
      rewrite <- !app_assoc. reflexivity.
  - eexists. rewrite <- !app_assoc. reflexivity.
Qed.

Lemma generateAddonFiles_hit (systemInstruction prompt : string)
  (uploadedFiles : list UploadedFile) (useSmartParts : bool) (w : World) (v : GenResult) :
  let key := Spec.keyOf systemInstruction prompt (Spec.partsOf useSmartParts uploadedFiles) in
  Spec.cached (storage w) key = Some v ->
  GeminiService.generateAddonFiles systemInstruction prompt uploadedFiles useSmartParts w
  = (Normal v, withLog w [Spec.hitEntry key]).
Proof.
  intros key Hhit. unfold GeminiService.generateAddonFiles.
  fold (Spec.partsOf useSmartParts uploadedFiles).
  erewrite bind_normal by (apply cacheKeyOf_run, partsOf_labelled).
  erewrite bind_normal by (apply getFromCache_hit; exact Hhit).
  reflexivity.
Qed.

Lemma generateAddonFiles_miss (systemInstruction prompt : string)
  (uploadedFiles : list UploadedFile) (useSmartParts : bool) (w : World) :
  let parts := Spec.partsOf useSmartParts uploadedFiles in
  let key := Spec.keyOf systemInstruction prompt parts in
  Spec.cached (T:=GenResult) (storage w) key = None ->
  exists entries,
    GeminiService.generateAddonFiles systemInstruction prompt uploadedFiles useSmartParts w
    = GeminiService.generateAndVerify systemInstruction prompt parts key (withLog w entries).
Proof.
  intros parts key Hmiss. unfold GeminiService.generateAddonFiles.
  fold (Spec.partsOf useSmartParts uploadedFiles). fold parts.
  erewrite bind_normal by (apply cacheKeyOf_run, partsOf_labelled).
  fold key.
  destruct (getFromCache_run (T:=GenResult) key w) as (entries & Hget & _).
  rewrite Hmiss in Hget.
  erewrite bind_normal by exact Hget.
  cbv beta iota. rewrite bind_run, console_log_run. cbv beta iota.
  rewrite withLog_app. eexists. reflexivity.
Qed.

(** How a cache miss completes and what it leaves behind. *)
Lemma generateAddonFiles_miss_run (systemInstruction prompt : string)
  (uploadedFiles : list UploadedFile) (useSmartParts : bool) (w : World) :
  let parts := Spec.partsOf useSmartParts uploadedFiles in
  let key := Spec.keyOf systemInstruction prompt parts in
  Spec.cached (T:=GenResult) (storage w) key = None ->
  exists entries,
    let w0 := mkWorld (storage w) (console w ++ entries)
                (requests w ++ Spec.requestsMade (requests w) systemInstruction prompt parts)
                (downloads w) in
    GeminiService.generateAddonFiles systemInstruction prompt uploadedFiles useSmartParts w
    = (Spec.twoPasses (requests w) systemInstruction prompt parts,
       match Spec.twoPasses (requests w) systemInstruction prompt parts with
       | Normal result => Spec.afterSet key result w0
       | Throw _ => w0
       end).
Proof.
  intros parts key Hmiss. subst parts key.
  destruct (generateAddonFiles_miss systemInstruction prompt uploadedFiles useSmartParts w Hmiss)
    as [e0 ->].
  destruct (generateAndVerify_run systemInstruction prompt
              (Spec.partsOf useSmartParts uploadedFiles)
              (Spec.keyOf systemInstruction prompt (Spec.partsOf useSmartParts uploadedFiles))
              (withLog w e0)) as [e1 Hrun].
  cbv zeta in Hrun. exists (e0 ++ e1). cbv zeta. rewrite Hrun.
  simpl. rewrite <- app_assoc. reflexivity.
Qed.

End GatewayFacts.

Section GatewayClaims.
Context `{Env} `{Json GenResult}.

(** C1 (as amended). A call whose key is already in the ResponseCache
    returns the stored value and makes no request to the collaborator.
    A cache miss that completes successfully hands its final result to
    [setInCache] under the key derived before generation; when that write is
    accepted (the result serializes, the storage can be reached and has
    room) and the stored text parses back to the result, a later call with
    the same instruction, prompt and inputs on that storage returns it and
    makes no request. *)
Theorem gateway_short_circuit_and_store (systemInstruction prompt : string)
  (uploadedFiles : list UploadedFile) (useSmartParts : bool) (w : World) :
  let key := Spec.keyOf systemInstruction prompt (Spec.partsOf useSmartParts uploadedFiles) in
  let invoke := GeminiService.generateAddonFiles systemInstruction prompt uploadedFiles
                  useSmartParts in
  (forall v, Spec.cached (storage w) key = Some v ->
     exists w', invoke w = (Normal v, w')
                /\ requests w' = requests w /\ storage w' = storage w)
  /\ (forall result w1,
        Spec.cached (T:=GenResult) (storage w) key = None ->
        invoke w = (Normal result, w1) ->
        (exists w0, w1 = Spec.afterSet key result w0 /\ storage w0 = storage w)
        /\ (forall item later,
              JSON_stringify result = Some item ->
              JSON_parse item = Some result ->
              Spec.writable key result (storage w) = true ->
              storage later = storage w1 ->
              exists w2, invoke later = (Normal result, w2)
                         /\ requests w2 = requests later)).
Proof.
  intros key invoke. split.
  - intros v Hhit. eexists. split; [apply generateAddonFiles_hit; exact Hhit|]. done.
  - intros result w1 Hmiss Hrun.
    destruct (generateAddonFiles_miss_run systemInstruction prompt uploadedFiles
                useSmartParts w Hmiss) as [entries Hrun'].
    cbv zeta in Hrun'. unfold invoke in Hrun. rewrite Hrun' in Hrun.
    injection Hrun as Hres Hw1. rewrite Hres in Hw1.
    split; [eexists; split; [symmetry; exact Hw1|done]|].
    intros item later Hitem Hback Hwritable Hlater.
    assert (Spec.cached (storage later) key = Some result) as Hhit.
    { rewrite Hlater, <- Hw1, afterSet_storage, Hitem. simpl. fold key. rewrite Hwritable.
      unfold Spec.cached. simpl. by rewrite lookup_insert_eq. }
    eexists. split; [apply generateAddonFiles_hit; exact Hhit|]. done.
Qed.

(** C2. On a cache miss the verification request is made exactly when the
    first pass returns at least one file. When the first pass fails, or
    returns no file, the gateway throws after the first request alone, in
    the second case with the error of the initial step. When it returns a
    file, the second request, at temperature 0, has been made by the time
    the gateway completes, however it completes; and a verification pass
    that returns no file makes the gateway throw an error of its own. *)
Theorem verification_pass_enforced (systemInstruction prompt : string)
  (uploadedFiles : list UploadedFile) (useSmartParts : bool) (w : World) :
  let parts := Spec.partsOf useSmartParts uploadedFiles in
  let key := Spec.keyOf systemInstruction prompt parts in
  let first := Spec.firstRequest systemInstruction prompt parts in
  let run := GeminiService.generateAddonFiles systemInstruction prompt uploadedFiles
               useSmartParts w in
  Spec.cached (T:=GenResult) (storage w) key = None ->
  match Spec.pass (requests w) first with
  | Throw e => run.1 = Throw e /\ requests run.2 = requests w ++ [first]
  | Normal initialResult =>
      let second := Spec.secondRequest prompt initialResult in
      if GeminiService.hasNoFiles initialResult
      then run.1 = Throw (JsError GeminiService.noInitialFilesMessage)
           /\ requests run.2 = requests w ++ [first]
      else requests run.2 = requests w ++ [first; second]
           /\ temperature second = 0%Q
           /\ (forall verified,
                 Spec.pass (requests w ++ [first]) second = Normal verified ->
                 GeminiService.hasNoFiles verified = true ->
                 run.1 = Throw (JsError GeminiService.noVerifiedFilesMessage))
  end
  /\ GeminiService.noVerifiedFilesMessage <> GeminiService.noInitialFilesMessage.
Proof.
  intros parts key first run Hmiss. split; [|done].
  destruct (generateAddonFiles_miss_run systemInstruction prompt uploadedFiles
              useSmartParts w Hmiss) as [entries Hrun].
  cbv zeta in Hrun. fold parts in Hrun. fold run in Hrun.
  unfold Spec.twoPasses, Spec.requestsMade in Hrun. fold first in Hrun.
  destruct (Spec.pass (requests w) first) as [initialResult|e].
  - cbv zeta. destruct (GeminiService.hasNoFiles initialResult).
    + by rewrite Hrun.
    + split; [|split; [done|]].
      * rewrite Hrun. simpl.
        destruct (Spec.pass _ _) as [verified|e]; [|done].
        destruct (GeminiService.hasNoFiles verified); [done|].
        by rewrite afterSet_requests.
      * intros verified Hpass Hempty. rewrite Hrun, Hpass, Hempty. done.
  - by rewrite Hrun.
Qed.

(** C3. The result of a successful cache miss takes its files from the
    verification pass, and its asset mappings and summary report from the
    first pass: what the verification pass returned in those two fields is
    not used. *)
Theorem verification_keeps_first_pass_fields (systemInstruction prompt : string)
  (uploadedFiles : list UploadedFile) (useSmartParts : bool) (w w' : World)
  (result : GenResult) :
  let parts := Spec.partsOf useSmartParts uploadedFiles in
  let key := Spec.keyOf systemInstruction prompt parts in
  let first := Spec.firstRequest systemInstruction prompt parts in
  Spec.cached (T:=GenResult) (storage w) key = None ->
  GeminiService.generateAddonFiles systemInstruction prompt uploadedFiles useSmartParts w
  = (Normal result, w') ->
  exists initialResult verified,
    Spec.pass (requests w) first = Normal initialResult
    /\ Spec.pass (requests w ++ [first]) (Spec.secondRequest prompt initialResult)
       = Normal verified
    /\ files result = files verified
    /\ assetMappings result = assetMappings initialResult
    /\ summaryReport result = summaryReport initialResult.
Proof.
  intros parts key first Hmiss Hrun.
  destruct (generateAddonFiles_miss_run systemInstruction prompt uploadedFiles
              useSmartParts w Hmiss) as [entries Hrun'].
  cbv zeta in Hrun'. rewrite Hrun in Hrun'. injection Hrun' as Hres _.
  unfold Spec.twoPasses in Hres. fold parts first in Hres.
  destruct (Spec.pass (requests w) first) as [initialResult|e]; [|discriminate Hres].
  destruct (GeminiService.hasNoFiles initialResult); [discriminate Hres|].
  destruct (Spec.pass _ _) as [verified|e] eqn:Hsecond; [|discriminate Hres].
  destruct (GeminiService.hasNoFiles verified); [discriminate Hres|].
  injection Hres as ->. by exists initialResult, verified.
Qed.

End GatewayClaims.

(** The gateway on the fixture: a first call on a fresh session, then the
    same call again. *)
Section GatewayExamples.

(** C1, the claim as stated fails: the session storage is full, the cache
    miss completes successfully, yet nothing is stored under the key, and
    the next call with the same instruction, prompt and inputs makes two
    requests more and returns another result. *)
Lemma gateway_store_can_fail :
  exists result w1,
    Spec.cached (T:=GenResult) (H:=Fixture.json) (storage Fixture.fullWorld) Fixture.key = None
    /\ Fixture.invoke Fixture.fullWorld = (Normal result, w1)
    /\ items (storage w1) !! Fixture.key = None
    /\ (Fixture.invoke w1).1 <> Normal result
    /\ length (requests (Fixture.invoke w1).2) = (length (requests w1) + 2)%nat.
Proof.
  exists Fixture.finalResult, (Fixture.invoke Fixture.fullWorld).2.
  split; [reflexivity|].
  split; [vm_compute; reflexivity|].
  split; [vm_compute; reflexivity|].
  split; [vm_compute; discriminate|vm_compute; reflexivity].
Qed.

(** C1 on a session with room: the second call returns the stored result
    and makes no request. *)
Lemma gateway_short_circuit_and_store_example :
  exists w1 w2,
    Fixture.invoke Fixture.freshWorld = (Normal Fixture.finalResult, w1)
    /\ Fixture.invoke w1 = (Normal Fixture.finalResult, w2)
    /\ requests w2 = requests w1.
Proof.
  destruct (@gateway_short_circuit_and_store Fixture.env Fixture.json
              Fixture.instruction Fixture.userPrompt [] false Fixture.freshWorld)
    as [_ Hstore].
  assert (Fixture.invoke Fixture.freshWorld
          = (Normal Fixture.finalResult, (Fixture.invoke Fixture.freshWorld).2)) as Hrun
    by (vm_compute; reflexivity).
  destruct (Hstore _ _ eq_refl Hrun) as [_ Hlater].
  destruct (Hlater "final" _ eq_refl eq_refl eq_refl eq_refl) as (w2 & Hagain & Hreq).
  exact (ex_intro _ _ (ex_intro _ w2 (conj Hrun (conj Hagain Hreq)))).
Defined.

(** C2 on the fixture: the first pass returns a file, and two requests
    have been made when the gateway completes, the second at temperature 0. *)
Lemma verification_pass_enforced_example :
  requests (Fixture.invoke Fixture.freshWorld).2
  = [Fixture.firstReq; @Spec.secondRequest Fixture.env Fixture.userPrompt Fixture.firstPass]
  /\ temperature (@Spec.secondRequest Fixture.env Fixture.userPrompt Fixture.firstPass) = 0%Q.
Proof.
  destruct (@verification_pass_enforced Fixture.env Fixture.json
              Fixture.instruction Fixture.userPrompt [] false Fixture.freshWorld eq_refl)
    as [Hpasses _].
  exact (conj (proj1 Hpasses) (proj1 (proj2 Hpasses))).
Defined.

(** C2 on two other services. When the first pass returns no file the
    gateway throws the error of the initial step after one request; when the
    verification pass returns no file it throws the error of the
    verification step after two. Nothing is stored in either case. *)
Lemma gateway_without_files_example :
  let initial := @GeminiService.generateAddonFiles Fixture.envEmptyInitial Fixture.json
                   Fixture.instruction Fixture.userPrompt [] false Fixture.freshWorld in
  let verification := @GeminiService.generateAddonFiles Fixture.envEmptyVerification
                        Fixture.json Fixture.instruction Fixture.userPrompt [] false
                        Fixture.freshWorld in
  initial.1 = Throw (JsError GeminiService.noInitialFilesMessage)
  /\ length (requests initial.2) = 1%nat
  /\ items (storage initial.2) = ∅
  /\ verification.1 = Throw (JsError GeminiService.noVerifiedFilesMessage)
  /\ length (requests verification.2) = 2%nat
  /\ items (storage verification.2) = ∅.
Proof. vm_compute. done. Qed.

(** C3 on the fixture: the verification pass answers with no asset mapping
    and a report of its own; the result keeps the mapping and the report of
    the first pass. *)
Lemma verification_keeps_first_pass_fields_example :
  exists initialResult verified,
    @Spec.pass Fixture.env Fixture.json (requests Fixture.freshWorld) Fixture.firstReq
    = Normal initialResult
    /\ @Spec.pass Fixture.env Fixture.json (requests Fixture.freshWorld ++ [Fixture.firstReq])
         (@Spec.secondRequest Fixture.env Fixture.userPrompt initialResult)
       = Normal verified
    /\ files Fixture.finalResult = files verified
    /\ assetMappings Fixture.finalResult = assetMappings initialResult
    /\ summaryReport Fixture.finalResult = summaryReport initialResult.
Proof.
  apply (@verification_keeps_first_pass_fields Fixture.env Fixture.json
           Fixture.instruction Fixture.userPrompt [] false Fixture.freshWorld
           (Fixture.invoke Fixture.freshWorld).2 Fixture.finalResult).
  - reflexivity.
  - vm_compute. reflexivity.
Defined.

End GatewayExamples.

(** ** Asset resolution and archive assembly ([downloadAddon]) *)

Section ListFacts.
Context {A : Type}.

Lemma find_filter_sub (p q : A -> bool) (l : list A) :
  (forall x, p x = true -> q x = true) ->
  List.find p (List.filter q l) = List.find p l.
Proof.
  intros Hsub. induction l as [|x l IH]; simpl; [done|].
  destruct (q x) eqn:Hq; simpl.
  - destruct (p x); [done|exact IH].
  - destruct (p x) eqn:Hp; [|exact IH].
    apply Hsub in Hp. congruence.
Qed.

Lemma head_filter_find (q : A -> bool) (l : list A) :
  head (List.filter q l) = List.find q l.
Proof.
  induction l as [|x l IH]; simpl; [done|].
  destruct (q x); [done|exact IH].
Qed.

Lemma find_none_filter (q : A -> bool) (l : list A) :
  List.find q l = None -> List.filter q l = [].
Proof.
  intros Hnone. rewrite <- head_filter_find in Hnone.
  by destruct (List.filter q l).
Qed.

Lemma find_app_first (p : A -> bool) (l k : list A) :
  List.find p (l ++ k)
  = match List.find p l with
    | Some x => Some x
    | None => List.find p k
    end.
Proof.
  induction l as [|x l IH]; simpl; [done|].
  destruct (p x); [done|exact IH].
Qed.

End ListFacts.

Section ResolverFacts.
Context `{Env}.

(** The loose choice of the code is steps 1 and 2 of the spec; the only
    entry it may log is the ambiguity warning. *)
Lemma findTargetFile_run (uploadedFiles : list UploadedFile) (m : AssetMapping) (w : World) :
  FileConverter.findTargetFile uploadedFiles m w
  = (Normal
       match List.find (Spec.nameIs (originalPath m)) uploadedFiles with
       | Some uf => Some (uf_file uf)
       | None => uf_file <$> List.find (Spec.nameEndsWith (originalPath m)) uploadedFiles
       end,
     withLog w (if Spec.ambiguous uploadedFiles (originalPath m)
                then [Spec.ambiguityWarning uploadedFiles m] else [])).
Proof.
  unfold FileConverter.findTargetFile, Spec.ambiguous, Spec.ambiguityWarning,
    FileConverter.looseMatchesOf.
  change (fun uf => Js.endsWith (file_name (uf_file uf)) (originalPath m))
    with (Spec.nameEndsWith (originalPath m)).
  change (fun uf => String.eqb (file_name (uf_file uf)) (originalPath m))
    with (Spec.nameIs (originalPath m)).
  rewrite (find_filter_sub (Spec.nameIs (originalPath m)) (Spec.nameEndsWith (originalPath m)))
    by (intros x; apply eqb_endsWith).
  rewrite <- (head_filter_find (Spec.nameEndsWith (originalPath m))).
  destruct (List.filter (Spec.nameEndsWith (originalPath m)) uploadedFiles)
    as [|first others] eqn:Hfilter.
  - assert (List.find (Spec.nameIs (originalPath m)) uploadedFiles = None) as ->.
    { rewrite <- (find_filter_sub _ (Spec.nameEndsWith (originalPath m)))
        by (intros x; apply eqb_endsWith).
      by rewrite Hfilter. }
    simpl. by rewrite withLog_nil.
  - destruct (List.find (Spec.nameIs (originalPath m)) uploadedFiles) as [exact|];
      cbv beta iota.
    + unfold mret, js_ret. by rewrite withLog_nil.
    + unfold mbind, js_bind.
      destruct (1 <? length (first :: others))%nat.
      * rewrite console_warn_run. reflexivity.
      * unfold mret, js_ret. by rewrite withLog_nil.
Qed.

Lemma readErrors_level (m : AssetMapping) (uploadedFiles : list UploadedFile) :
  Forall (fun entry => level entry = ErrorLevel) (Spec.readErrors m uploadedFiles).
Proof.
  unfold Spec.readErrors. apply Forall_forall.
  by intros entry (uf & -> & _)%list_elem_of_fmap.
Qed.

(** The fallback loop never throws: it writes the bytes the first input
    supplies, and logs an error for every container it passed over because
    it did not open or its candidate could not be extracted. *)
Lemma searchContainers_run (uploadedFiles : list UploadedFile) (m : AssetMapping)
  (zip : Archive) (w : World) :
  FileConverter.searchContainers uploadedFiles m zip w
  = (Normal
       match Spec.fallback uploadedFiles (originalPath m) with
       | Some (_, b) => (<[newPath m := Binary b]> zip, true)
       | None => (zip, false)
       end,
     withLog w (Spec.readErrors m uploadedFiles)).
Proof.
  revert w. unfold Spec.fallback, Spec.readErrors.
  induction uploadedFiles as [|uf rest IH]; intros w.
  - simpl. by rewrite withLog_nil.
  - cbn [FileConverter.searchContainers].
    destruct (FileConverter.isContainerName (file_name (uf_file uf))) eqn:Hname.
    2:{ assert (Spec.supplied (originalPath m) uf = None) as Hs
          by (unfold Spec.supplied, Spec.candidate, Spec.opened; by rewrite Hname).
        assert (Spec.unread (originalPath m) uf = false) as Hu
          by (unfold Spec.unread; by rewrite Hname).
        cbn [omap list_omap Spec.passedOver]. rewrite Hs. cbn [List.filter].
        rewrite Hu. apply IH. }
    rewrite bind_run. unfold tryCatch.
    destruct (JSZip_loadAsync (file_bytes (uf_file uf))) as [entries|] eqn:Hload.
    + unfold FileConverter.findAssetFile.
      change (fun file => negb (zip_dir file) && Js.endsWith (zip_name file) (originalPath m))
        with (Spec.entryMatches (originalPath m)).
      destruct (List.find (Spec.entryMatches (originalPath m)) entries) as [e|] eqn:Hfind.
      * destruct (zip_data e) as [b|] eqn:Hdata.
        -- assert (Spec.supplied (originalPath m) uf = Some (e, b)) as Hs
             by (unfold Spec.supplied, Spec.candidate, Spec.opened;
                 by rewrite Hname, Hload, Hfind, Hdata).
           cbn [omap list_omap Spec.passedOver]. rewrite Hs.
           simpl. by rewrite withLog_nil.
        -- assert (Spec.supplied (originalPath m) uf = None) as Hs
             by (unfold Spec.supplied, Spec.candidate, Spec.opened;
                 by rewrite Hname, Hload, Hfind, Hdata).
           assert (Spec.unread (originalPath m) uf = true) as Hu
             by (unfold Spec.unread; rewrite Hname, Hload, Hfind, Hdata; done).
           cbn [omap list_omap Spec.passedOver]. rewrite Hs. cbn [List.filter].
           rewrite Hu. unfold throw. rewrite bind_run, console_error_run. cbv beta iota.
           unfold mret at 1, js_ret at 1. cbv beta iota.
           rewrite IH, withLog_app. reflexivity.
      * assert (Spec.supplied (originalPath m) uf = None) as Hs
          by (unfold Spec.supplied, Spec.candidate, Spec.opened;
              by rewrite Hname, Hload, Hfind).
        assert (Spec.unread (originalPath m) uf = false) as Hu
          by (unfold Spec.unread; by rewrite Hname, Hload, Hfind).
        cbn [omap list_omap Spec.passedOver]. rewrite Hs. cbn [List.filter].
        rewrite Hu. unfold mret at 1, js_ret at 1. cbv beta iota. apply IH.
    + assert (Spec.supplied (originalPath m) uf = None) as Hs
        by (unfold Spec.supplied, Spec.candidate, Spec.opened; by rewrite Hname, Hload).
      assert (Spec.unread (originalPath m) uf = true) as Hu
        by (unfold Spec.unread; by rewrite Hname, Hload).
      cbn [omap list_omap Spec.passedOver]. rewrite Hs. cbn [List.filter].
      rewrite Hu. unfold throw. rewrite bind_run, console_error_run. cbv beta iota.
      unfold mret at 1, js_ret at 1. cbv beta iota.
      rewrite IH, withLog_app. reflexivity.
Qed.

(** One turn of the loop over the mappings: it never throws, the archive
    gains the resolved bytes at [newPath] or is left as it was, and the
    console gains the entries of the step that decided. *)
Lemma applyMapping_run (uploadedFiles : list UploadedFile) (zip : Archive)
  (m : AssetMapping) (w : World) :
  exists entries,
    FileConverter.applyMapping uploadedFiles zip m w
    = (Normal (Spec.relocated uploadedFiles zip m), withLog w entries)
    /\ match Spec.resolve uploadedFiles (originalPath m) with
       | Spec.Loose _ =>
           entries = if Spec.ambiguous uploadedFiles (originalPath m)
                     then [Spec.ambiguityWarning uploadedFiles m] else []
       | Spec.Entry _ _ => entries = Spec.readErrors m uploadedFiles
       | Spec.NotFound =>
           entries = Spec.readErrors m uploadedFiles ++ [Spec.notFoundWarning m]
       end.
Proof.
  unfold FileConverter.applyMapping, Spec.relocated, Spec.resolve.
  rewrite bind_run, findTargetFile_run.
  unfold Spec.ambiguous.
  destruct (List.find (Spec.nameIs (originalPath m)) uploadedFiles) as [exact|].
  { exists []. split; [|reflexivity]. cbv beta iota. rewrite withLog_nil. reflexivity. }
  destruct (List.find (Spec.nameEndsWith (originalPath m)) uploadedFiles)
    as [first|] eqn:Hsuffix.
  { eexists. split; reflexivity. }
  rewrite (find_none_filter _ _ Hsuffix). cbv beta iota.
  change (1 <? length (@nil UploadedFile))%nat with false. cbv beta iota.
  rewrite withLog_nil, bind_run.
  change (uf_file <$> None) with (@None File). cbv beta iota.
  rewrite searchContainers_run.
  destruct (Spec.fallback uploadedFiles (originalPath m)) as [[e b]|].
  - eexists. split; reflexivity.
  - eexists. split; [|reflexivity].
    cbv beta iota. rewrite bind_run, console_warn_run. cbv beta iota.
    rewrite withLog_app. reflexivity.
Qed.

End ResolverFacts.

Section AssemblyFacts.
Context `{Env}.

Lemma applyWrites_app (zip : Archive) (t1 t2 : list (string * Content)) :
  Spec.applyWrites zip (t1 ++ t2) = Spec.applyWrites (Spec.applyWrites zip t1) t2.
Proof. apply fold_left_app. Qed.

(** An entry of the archive holds the content of the last write to its
    path, and is untouched when no write targets it. *)
Lemma applyWrites_lookup (zip : Archive) (trace : list (string * Content)) (p : string) :
  Spec.applyWrites zip trace !! p
  = match Spec.lastWrite p trace with
    | Some c => Some c
    | None => zip !! p
    end.
Proof.
  revert zip. induction trace as [|[q c] rest IH]; intros zip; simpl; [done|].
  unfold Spec.applyWrites in *. simpl. rewrite IH.
  destruct (Spec.lastWrite p rest); [done|].
  destruct (String.eqb_spec q p) as [->|Hne].
  - apply lookup_insert_eq.
  - by apply lookup_insert_ne.
Qed.

Lemma addGeneratedFiles_writes (zip : Archive) (files : list GeneratedFile) :
  FileConverter.addGeneratedFiles zip files
  = Spec.applyWrites zip (map (fun f => (path f, Text (content f))) files).
Proof.
  revert zip. induction files as [|f files IH]; intros zip; simpl; [done|].
  unfold FileConverter.addGeneratedFiles, Spec.applyWrites in *. simpl. apply IH.
Qed.

Lemma relocated_writes (uploadedFiles : list UploadedFile) (zip : Archive)
  (assetMappings : list AssetMapping) :
  fold_left (Spec.relocated uploadedFiles) assetMappings zip
  = Spec.applyWrites zip (omap (Spec.relocationWrite uploadedFiles) assetMappings).
Proof.
  revert zip. induction assetMappings as [|m rest IH]; intros zip; simpl; [done|].
  rewrite IH. unfold Spec.relocated, Spec.relocationWrite.
  by destruct (Spec.resolvedBytes _).
Qed.

(** The loop over the mappings never throws; every unresolved mapping
    leaves its warning on the console. *)
Lemma applyMappings_run (uploadedFiles : list UploadedFile) (zip : Archive)
  (assetMappings : list AssetMapping) (w : World) :
  exists entries,
    FileConverter.applyMappings uploadedFiles zip assetMappings w
    = (Normal (fold_left (Spec.relocated uploadedFiles) assetMappings zip), withLog w entries)
    /\ (forall m, m ∈ assetMappings ->
                 Spec.resolve uploadedFiles (originalPath m) = Spec.NotFound ->
                 Spec.notFoundWarning m ∈ entries).
Proof.
  revert zip w. induction assetMappings as [|m rest IH]; intros zip w; simpl.
  - exists []. rewrite withLog_nil. split; [done|]. intros m Hm. by apply elem_of_nil in Hm.
  - destruct (applyMapping_run uploadedFiles zip m w) as (e1 & Hstep & Hkind).
    rewrite bind_run, Hstep.
    destruct (IH (Spec.relocated uploadedFiles zip m) (withLog w e1)) as (e2 & -> & Hwarn).
    exists (e1 ++ e2). rewrite withLog_app. split; [done|].
    intros m' [->|Hin]%elem_of_cons Hnone.
    + rewrite Hnone in Hkind. subst e1.
      apply elem_of_app. left. apply elem_of_app. right. by apply list_elem_of_singleton.
    + apply elem_of_app. right. by apply Hwarn.
Qed.

(** [downloadAddon] never throws: it triggers one download, named after
    the addon, of the archive generated from the writes. *)
Lemma downloadAddon_run (addonName : string) (files : list GeneratedFile)
  (uploadedFiles : list UploadedFile) (assetMappings : list AssetMapping) (w : World) :
  exists entries,
    FileConverter.downloadAddon addonName files uploadedFiles assetMappings w
    = (Normal tt,
       mkWorld (storage w) (console w ++ entries) (requests w)
         (downloads w ++ [mkDownload (addonName +:+ ".mcaddon")
                            (Spec.produced files uploadedFiles assetMappings)]))
    /\ (forall m, m ∈ assetMappings ->
                 Spec.resolve uploadedFiles (originalPath m) = Spec.NotFound ->
                 Spec.notFoundWarning m ∈ entries).
Proof.
  unfold FileConverter.downloadAddon.
  destruct (applyMappings_run uploadedFiles
              (FileConverter.addGeneratedFiles (∅ : Archive) files) assetMappings w)
    as (entries & Hloop & Hwarn).
  exists entries. split; [|exact Hwarn].
  rewrite bind_run, Hloop. cbv beta iota.
  rewrite relocated_writes, addGeneratedFiles_writes, <- applyWrites_app.
  reflexivity.
Qed.

End AssemblyFacts.

Section TraceFacts.

Lemma lastWrite_app (p : string) (t1 t2 : list (string * Content)) :
  Spec.lastWrite p (t1 ++ t2)
  = match Spec.lastWrite p t2 with
    | Some c => Some c
    | None => Spec.lastWrite p t1
    end.
Proof.
  induction t1 as [|[q c] t1 IH]; simpl.
  - by destruct (Spec.lastWrite p t2).
  - rewrite IH. by destruct (Spec.lastWrite p t2).
Qed.

Lemma lastWrite_none (p : string) (trace : list (string * Content)) :
  (forall q c, (q, c) ∈ trace -> q <> p) -> Spec.lastWrite p trace = None.
Proof.
  induction trace as [|[q c] rest IH]; intros Hnot; simpl; [done|].
  rewrite IH.
  - destruct (String.eqb_spec q p) as [->|]; [|done].
    exfalso. apply (Hnot p c); [left|done].
  - intros q' c' Hin. apply (Hnot q' c'). by right.
Qed.

Lemma lastWrite_some (p : string) (c : Content) (trace : list (string * Content)) :
  (p, c) ∈ trace -> is_Some (Spec.lastWrite p trace).
Proof.
  induction trace as [|[q c'] rest IH]; intros Hin.
  - by apply elem_of_nil in Hin.
  - simpl. apply elem_of_cons in Hin as [Heq|Hin].
    + injection Heq as <- <-. rewrite String.eqb_refl.
      destruct (Spec.lastWrite p rest); eauto.
    + destruct (IH Hin) as [c0 ->]. eauto.
Qed.

End TraceFacts.

Section AssemblyClaims.
Context `{Env}.

(** The archive generated holds, at every path but the empty one, the
    content of the last write to that path; nothing written under the
    empty name is part of it. *)
Lemma produced_lookup (files : list GeneratedFile) (uploadedFiles : list UploadedFile)
  (assetMappings : list AssetMapping) (p : string) :
  Spec.produced files uploadedFiles assetMappings !! p
  = if String.eqb p "" then None
    else Spec.lastWrite p (Spec.writes files uploadedFiles assetMappings).
Proof.
  unfold Spec.produced, FileConverter.generateAsync, Spec.assembled.
  destruct (String.eqb_spec p "") as [->|Hne].
  - apply lookup_delete_eq.
  - rewrite lookup_delete_ne by done.
    rewrite applyWrites_lookup, lookup_empty.
    by destruct (Spec.lastWrite p _).
Qed.

(** What one input supplies to the fallback, in the words of the source:
    it has a container name, it opens, and the first matching entry can be
    extracted. *)
Lemma supplied_some (m : AssetMapping) (uf : UploadedFile) (e : ZipObject) (b : list byte) :
  Spec.supplied (originalPath m) uf = Some (e, b)
  <-> FileConverter.isContainerName (file_name (uf_file uf)) = true
      /\ exists entries,
           JSZip_loadAsync (file_bytes (uf_file uf)) = Some entries
           /\ FileConverter.findAssetFile entries m = Some e
           /\ zip_data e = Some b.
Proof.
  unfold Spec.supplied, Spec.candidate, Spec.opened, FileConverter.findAssetFile.
  change (fun file => negb (zip_dir file) && Js.endsWith (zip_name file) (originalPath m))
    with (Spec.entryMatches (originalPath m)).
  destruct (FileConverter.isContainerName (file_name (uf_file uf))).
  2:{ split; [done|]. by intros [? _]. }
  destruct (JSZip_loadAsync (file_bytes (uf_file uf))) as [entries|].
  2:{ split; [done|]. by intros (_ & ? & ? & _). }
  split.
  - destruct (List.find _ entries) as [e'|] eqn:Hfind; [|done].
    destruct (zip_data e') as [b'|] eqn:Hdata; [|done].
    intros [= -> ->]. split; [done|]. by exists entries.
  - intros (_ & entries' & [= <-] & -> & ->). done.
Qed.

(** The fallback is supplied by the first input, in upload order, that
    supplies an entry. *)
Lemma fallback_first (uploadedFiles : list UploadedFile) (p : string)
  (e : ZipObject) (b : list byte) :
  Spec.fallback uploadedFiles p = Some (e, b)
  <-> exists before uf after,
        uploadedFiles = before ++ uf :: after
        /\ Forall (fun uf' => Spec.supplied p uf' = None) before
        /\ Spec.supplied p uf = Some (e, b).
Proof.
  unfold Spec.fallback.
  induction uploadedFiles as [|uf rest IH].
  - split; [done|]. intros (before & uf & after & Heq & _). by destruct before.
  - cbn [omap list_omap].
    destruct (Spec.supplied p uf) as [y|] eqn:Hs.
    + simpl. split.
      * intros [= ->]. exists [], uf, rest. by repeat split.
      * intros ([|x before] & uf' & after & Heq & Hbefore & Hs').
        -- injection Heq as <- _. congruence.
        -- injection Heq as <- _. apply Forall_cons in Hbefore as [Hx _]. congruence.
    + rewrite IH. split.
      * intros (before & uf' & after & -> & Hbefore & Hs').
        exists (uf :: before), uf', after. repeat split; [|done]. by constructor.
      * intros ([|x before] & uf' & after & Heq & Hbefore & Hs').
        -- injection Heq as <- _. congruence.
        -- injection Heq as <- ->. apply Forall_cons in Hbefore as [_ Hbefore].
           by exists before, uf', after.
Qed.

(** C6 (as amended). One relocation instruction is resolved in this order,
    and never fails: (1) the first loose input whose name is exactly
    [originalPath]; (2) otherwise the first loose input whose name ends with
    it, with a warning when several do; (3) otherwise the containers (.zip,
    .mcaddon, .mcpack) among the uploads are tried in upload order: in a
    container that opens, the first entry that is no directory and whose
    name ends with [originalPath] is taken, and supplies the bytes when it
    can be extracted; a container that does not open, or whose entry taken
    cannot be extracted, is logged as an error and passed over, no later
    entry of it being tried; (4) otherwise nothing is written and the
    not-found warning is logged. *)
Theorem asset_resolution_order (uploadedFiles : list UploadedFile) (zip : Archive)
  (m : AssetMapping) (w : World) :
  (exists zip' entries,
    FileConverter.applyMapping uploadedFiles zip m w = (Normal zip', withLog w entries)
    /\ match List.find (Spec.nameIs (originalPath m)) uploadedFiles with
       | Some exact =>
           zip' = <[newPath m := Binary (file_bytes (uf_file exact))]> zip /\ entries = []
       | None =>
           match List.filter (Spec.nameEndsWith (originalPath m)) uploadedFiles with
           | first :: others =>
               zip' = <[newPath m := Binary (file_bytes (uf_file first))]> zip
               /\ entries = match others with
                            | [] => []
                            | _ => [Spec.ambiguityWarning uploadedFiles m]
                            end
           | [] =>
               match Spec.fallback uploadedFiles (originalPath m) with
               | Some (assetFile, assetContent) =>
                   zip' = <[newPath m := Binary assetContent]> zip
                   /\ entries = Spec.readErrors m uploadedFiles
               | None =>
                   zip' = zip
                   /\ entries = Spec.readErrors m uploadedFiles ++ [Spec.notFoundWarning m]
               end
           end
       end)
  /\ (forall assetFile assetContent,
        Spec.fallback uploadedFiles (originalPath m) = Some (assetFile, assetContent)
        <-> exists before uf after entries,
              uploadedFiles = before ++ uf :: after
              /\ Forall (fun uf' => Spec.supplied (originalPath m) uf' = None) before
              /\ FileConverter.isContainerName (file_name (uf_file uf)) = true
              /\ JSZip_loadAsync (file_bytes (uf_file uf)) = Some entries
              /\ FileConverter.findAssetFile entries m = Some assetFile
              /\ zip_data assetFile = Some assetContent)
  /\ (forall uf,
        Spec.supplied (originalPath m) uf = None
        <-> FileConverter.isContainerName (file_name (uf_file uf)) = false
            \/ JSZip_loadAsync (file_bytes (uf_file uf)) = None
            \/ exists entries,
                 JSZip_loadAsync (file_bytes (uf_file uf)) = Some entries
                 /\ match FileConverter.findAssetFile entries m with
                    | Some assetFile => zip_data assetFile = None
                    | None => True
                    end)
  /\ Forall (fun entry => level entry = ErrorLevel) (Spec.readErrors m uploadedFiles).
Proof.
  split; [|split; [|split]].
  - destruct (applyMapping_run uploadedFiles zip m w) as (entries & Hrun & Hkind).
    exists (Spec.relocated uploadedFiles zip m), entries. split; [exact Hrun|].
    unfold Spec.relocated, Spec.resolve, Spec.ambiguous in *.
    destruct (List.find (Spec.nameIs (originalPath m)) uploadedFiles) as [exact|]; [done|].
    pose proof (head_filter_find (Spec.nameEndsWith (originalPath m)) uploadedFiles) as Hhead.
    destruct (List.filter (Spec.nameEndsWith (originalPath m)) uploadedFiles)
      as [|first others]; simpl in Hhead; rewrite <- Hhead in *; simpl in *.
    + by destruct (Spec.fallback uploadedFiles (originalPath m)) as [[assetFile assetContent]|].
    + split; [done|]. by destruct others.
  - intros assetFile assetContent. rewrite fallback_first. split.
    + intros (before & uf & after & -> & Hbefore & Hs).
      apply supplied_some in Hs as (Hname & entries & Hload & Hfind & Hdata).
      by exists before, uf, after, entries.
    + intros (before & uf & after & entries & -> & Hbefore & Hname & Hload & Hfind & Hdata).
      exists before, uf, after. repeat split; [done|].
      apply supplied_some. split; [done|]. by exists entries.
  - intros uf.
    unfold Spec.supplied, Spec.candidate, Spec.opened, FileConverter.findAssetFile.
    change (fun file => negb (zip_dir file) && Js.endsWith (zip_name file) (originalPath m))
      with (Spec.entryMatches (originalPath m)).
    destruct (FileConverter.isContainerName (file_name (uf_file uf))); [|by split; [left|]].
    destruct (JSZip_loadAsync (file_bytes (uf_file uf))) as [entries|];
      [|by split; [right; left|]].
    destruct (List.find (Spec.entryMatches (originalPath m)) entries) as [e|] eqn:Hfind.
    + destruct (zip_data e) as [b|] eqn:Hdata.
      * split; [done|]. intros [?|[?|(entries' & [= <-] & Hno)]]; try done.
        rewrite Hfind in Hno. congruence.
      * split; [|done]. intros _. right. right. exists entries. by rewrite Hfind.
    + split; [|done]. intros _. right. right. exists entries. by rewrite Hfind.
  - apply readErrors_level.
Qed.

(** The resolution of a mapping against a single upload that is a
    container, opens, and does not match by its own name. *)
Lemma applyMapping_single_container (uf : UploadedFile) (entries : list ZipObject)
  (m : AssetMapping) (zip : Archive) (w : World) :
  FileConverter.isContainerName (file_name (uf_file uf)) = true ->
  Js.endsWith (file_name (uf_file uf)) (originalPath m) = false ->
  JSZip_loadAsync (file_bytes (uf_file uf)) = Some entries ->
  Forall (fun e => is_Some (zip_data e)) entries ->
  FileConverter.applyMapping [uf] zip m w
  = match FileConverter.findAssetFile entries m with
    | Some e => (Normal (<[newPath m := Binary (default [] (zip_data e))]> zip), w)
    | None => (Normal zip, withLog w [Spec.notFoundWarning m])
    end.
Proof.
  intros Hname Hends Hload Hall.
  destruct (applyMapping_run [uf] zip m w) as (log & -> & Hkind).
  unfold Spec.relocated. revert Hkind.
  unfold Spec.resolve, Spec.fallback, Spec.readErrors.
  cbn [List.find omap list_omap Spec.passedOver].
  assert (Spec.nameIs (originalPath m) uf = false) as ->.
  { unfold Spec.nameIs. destruct (String.eqb_spec (file_name (uf_file uf)) (originalPath m))
      as [Heq|]; [|done].
    assert (Js.endsWith (file_name (uf_file uf)) (originalPath m) = true) as Hyes
      by (apply endsWith_suffix; exists ""; by rewrite Heq).
    congruence. }
  unfold Spec.nameEndsWith. rewrite Hends.
  unfold Spec.supplied, Spec.candidate, Spec.opened, FileConverter.findAssetFile.
  rewrite Hname, Hload.
  change (fun file => negb (zip_dir file) && Js.endsWith (zip_name file) (originalPath m))
    with (Spec.entryMatches (originalPath m)).
  destruct (List.find (Spec.entryMatches (originalPath m)) entries) as [e|] eqn:Hfind.
  - apply find_some in Hfind as [Hin _].
    apply list_elem_of_In in Hin.
    destruct (proj1 (Forall_forall _ _) Hall e Hin) as [b Hb]. rewrite Hb.
    simpl. intros ->. by rewrite withLog_nil.
  - cbn [head List.filter]. unfold Spec.unread. rewrite Hname, Hload, Hfind.
    simpl. by intros ->.
Qed.

(** C10. The suffix match is a raw string suffix: a name matches whenever
    it is some prefix, of any shape, followed by [originalPath]; no path
    separator is asked for at the boundary. This is the test the resolver
    applies to the loose inputs and to the entries of a container: an
    input named sword.png is taken for the original path word.png, the
    entry the container fallback resolves to is a non-directory entry whose
    name is a prefix followed by [originalPath], and its bytes are what the
    resolver writes; a container holding such an entry resolves the
    mapping, one holding none does not. *)
Theorem suffix_match_is_raw_string_suffix :
  (forall name originalPath : string,
      Js.endsWith name originalPath = true <-> exists prefix, name = prefix +:+ originalPath)
  /\ (forall uploadedFiles m uf,
        uf ∈ FileConverter.looseMatchesOf uploadedFiles m
        <-> uf ∈ uploadedFiles
            /\ exists prefix, file_name (uf_file uf) = prefix +:+ originalPath m)
  /\ (forall entries m,
        match FileConverter.findAssetFile entries m with
        | Some e => e ∈ entries /\ zip_dir e = false
                    /\ exists prefix, zip_name e = prefix +:+ originalPath m
        | None => forall e prefix, e ∈ entries -> zip_dir e = false ->
                                   zip_name e <> prefix +:+ originalPath m
        end)
  /\ (forall zip newPath w,
        FileConverter.applyMapping
          [mkUploadedFile (mkFile "sword.png" "image/png" [Byte.x0a]) asset] zip
          (mkAssetMapping "word.png" newPath) w
        = (Normal (<[newPath := Binary [Byte.x0a]]> zip), w))
  /\ (forall uploadedFiles m zip w assetFile assetContent,
        Spec.resolve uploadedFiles (originalPath m) = Spec.Entry assetFile assetContent ->
        zip_dir assetFile = false
        /\ (exists prefix, zip_name assetFile = prefix +:+ originalPath m)
        /\ zip_data assetFile = Some assetContent
        /\ (FileConverter.applyMapping uploadedFiles zip m w).1
           = Normal (<[newPath m := Binary assetContent]> zip))
  /\ (forall uf entries m zip w,
        FileConverter.isContainerName (file_name (uf_file uf)) = true ->
        Js.endsWith (file_name (uf_file uf)) (originalPath m) = false ->
        JSZip_loadAsync (file_bytes (uf_file uf)) = Some entries ->
        Forall (fun e => is_Some (zip_data e)) entries ->
        ((exists e prefix, e ∈ entries /\ zip_dir e = false
                           /\ zip_name e = prefix +:+ originalPath m) ->
         exists e prefix assetContent,
           e ∈ entries /\ zip_dir e = false
           /\ zip_name e = prefix +:+ originalPath m
           /\ zip_data e = Some assetContent
           /\ FileConverter.applyMapping [uf] zip m w
              = (Normal (<[newPath m := Binary assetContent]> zip), w))
        /\ ((forall e prefix, e ∈ entries -> zip_dir e = false ->
                              zip_name e <> prefix +:+ originalPath m) ->
            FileConverter.applyMapping [uf] zip m w
            = (Normal zip, withLog w [Spec.notFoundWarning m]))).
Proof.
  assert (forall entries m,
        match FileConverter.findAssetFile entries m with
        | Some e => e ∈ entries /\ zip_dir e = false
                    /\ exists prefix, zip_name e = prefix +:+ originalPath m
        | None => forall e prefix, e ∈ entries -> zip_dir e = false ->
                                   zip_name e <> prefix +:+ originalPath m
        end) as Hentry.
  { intros entries m. unfold FileConverter.findAssetFile.
    destruct (List.find _ entries) as [e|] eqn:Hfind.
    + apply find_some in Hfind as [Hin [Hdir Hends]%andb_prop].
      rewrite list_elem_of_In. apply negb_true_iff in Hdir.
      by apply endsWith_suffix in Hends.
    + intros e prefix Hin Hdir Hname.
      apply list_elem_of_In in Hin.
      pose proof (find_none _ _ Hfind e Hin) as Hno. simpl in Hno.
      rewrite Hdir in Hno. simpl in Hno.
      assert (Js.endsWith (zip_name e) (originalPath m) = true) as Hends
        by (apply endsWith_suffix; eauto).
      congruence. }
  split; [exact endsWith_suffix|]. split; [|split; [exact Hentry|split; [|split]]].
  - intros uploadedFiles m uf. unfold FileConverter.looseMatchesOf.
    rewrite !list_elem_of_In, filter_In, endsWith_suffix. tauto.
  - intros zip newPath w.
    destruct (applyMapping_run
                [mkUploadedFile (mkFile "sword.png" "image/png" [Byte.x0a]) asset] zip
                (mkAssetMapping "word.png" newPath) w) as (entries & -> & Hkind).
    vm_compute in Hkind. subst entries. by rewrite withLog_nil.
  - intros uploadedFiles m zip w assetFile assetContent Hres.
    destruct (applyMapping_run uploadedFiles zip m w) as (log & Hrun & _).
    rewrite Hrun. unfold Spec.relocated. rewrite Hres. cbn [Spec.resolvedBytes fst].
    assert (Spec.fallback uploadedFiles (originalPath m) = Some (assetFile, assetContent))
      as Hfall.
    { unfold Spec.resolve in Hres.
      destruct (List.find (Spec.nameIs _) uploadedFiles); [done|].
      destruct (List.find (Spec.nameEndsWith _) uploadedFiles); [done|].
      destruct (Spec.fallback uploadedFiles (originalPath m)) as [[e b]|]; [|done].
      by injection Hres as -> ->. }
    apply fallback_first in Hfall as (before & uf & after & _ & _ & Hs).
    apply supplied_some in Hs as (_ & entries & _ & Hfind & Hdata).
    specialize (Hentry entries m). rewrite Hfind in Hentry.
    destruct Hentry as (_ & Hdir & Hprefix). done.
  - intros uf entries m zip w Hname Hends Hload Hall.
    rewrite (applyMapping_single_container uf entries m zip w Hname Hends Hload Hall).
    specialize (Hentry entries m).
    destruct (FileConverter.findAssetFile entries m) as [e|] eqn:Hfind.
    + destruct Hentry as (Hin & Hdir & prefix & Hprefix). split.
      * intros _.
        destruct (proj1 (Forall_forall _ _) Hall e Hin) as [b Hb].
        exists e, prefix, b. rewrite Hb. done.
      * intros Hno. exfalso. by apply (Hno e prefix).
    + split; [|done].
      intros (e & prefix & Hin & Hdir & Hprefix). exfalso. by apply (Hentry e prefix).
Qed.

Lemma writes_skip (files : list GeneratedFile) (uploadedFiles : list UploadedFile)
  (ms1 ms2 : list AssetMapping) (m : AssetMapping) :
  Spec.resolve uploadedFiles (originalPath m) = Spec.NotFound ->
  Spec.writes files uploadedFiles (ms1 ++ m :: ms2)
  = Spec.writes files uploadedFiles (ms1 ++ ms2).
Proof.
  intros Hnone. unfold Spec.writes. f_equal.
  rewrite !omap_app. f_equal. simpl.
  unfold Spec.relocationWrite at 1. by rewrite Hnone.
Qed.

Lemma relocation_writes_elsewhere (uploadedFiles : list UploadedFile)
  (ms : list AssetMapping) (p : string) :
  (forall m, m ∈ ms -> newPath m = p ->
             Spec.resolve uploadedFiles (originalPath m) = Spec.NotFound) ->
  Spec.lastWrite p (omap (Spec.relocationWrite uploadedFiles) ms) = None.
Proof.
  intros Hnone. apply lastWrite_none. intros q c Hin ->.
  apply list_elem_of_omap in Hin as (m & Hm & Hwrite).
  unfold Spec.relocationWrite in Hwrite.
  destruct (Spec.resolvedBytes (Spec.resolve uploadedFiles (originalPath m))) as [b|] eqn:Hb;
    [|discriminate Hwrite].
  simpl in Hwrite. injection Hwrite as Hp _.
  rewrite (Hnone m Hm Hp) in Hb. discriminate Hb.
Qed.

(** C7 (as amended). Archive assembly never throws, whatever resolves: it
    completes, and the archive it hands to the download has an entry at the
    path of every generated file whose path is not empty, holding the text
    of that file verbatim unless a later write replaced it (a later
    generated file with the same path, or a relocation to that path that
    resolves); nothing written under the empty path is in the archive. A
    relocation whose original path matches nothing is skipped: the archive
    is the one produced without it, and its warning is on the console. *)
Theorem unresolvable_relocation_is_skipped (addonName : string) (files : list GeneratedFile)
  (uploadedFiles : list UploadedFile) (assetMappings : list AssetMapping) (w : World) :
  exists entries zip,
    FileConverter.downloadAddon addonName files uploadedFiles assetMappings w
    = (Normal tt,
       mkWorld (storage w) (console w ++ entries) (requests w)
               (downloads w ++ [mkDownload (addonName +:+ ".mcaddon") zip]))
    /\ (forall f, f ∈ files -> path f <> "" -> is_Some (zip !! path f))
    /\ (forall fs1 f fs2,
          files = fs1 ++ f :: fs2 ->
          path f <> "" ->
          (forall g, g ∈ fs2 -> path g <> path f) ->
          (forall m, m ∈ assetMappings -> newPath m = path f ->
                     Spec.resolve uploadedFiles (originalPath m) = Spec.NotFound) ->
          zip !! path f = Some (Text (content f)))
    /\ zip !! "" = None
    /\ (forall ms1 m ms2,
          assetMappings = ms1 ++ m :: ms2 ->
          Spec.resolve uploadedFiles (originalPath m) = Spec.NotFound ->
          Spec.notFoundWarning m ∈ entries
          /\ zip = Spec.produced files uploadedFiles (ms1 ++ ms2)).
Proof.
  destruct (downloadAddon_run addonName files uploadedFiles assetMappings w)
    as (entries & Hrun & Hwarn).
  exists entries, (Spec.produced files uploadedFiles assetMappings).
  split; [exact Hrun|]. split; [|split; [|split]].
  - intros f Hf Hpath. rewrite produced_lookup.
    apply String.eqb_neq in Hpath. rewrite Hpath.
    apply (lastWrite_some _ (Text (content f))).
    unfold Spec.writes. apply elem_of_app. left.
    apply (list_elem_of_fmap_2 (fun f => (path f, Text (content f)))). exact Hf.
  - intros fs1 f fs2 -> Hpath Hlater Hunresolved.
    rewrite produced_lookup. apply String.eqb_neq in Hpath. rewrite Hpath.
    unfold Spec.writes.
    rewrite lastWrite_app, relocation_writes_elsewhere by exact Hunresolved.
    rewrite map_app, lastWrite_app. simpl.
    rewrite lastWrite_none.
    + by rewrite String.eqb_refl.
    + intros q c Hin ->.
      apply (list_elem_of_fmap (fun f => (path f, Text (content f)))) in Hin
        as (g & Heq & Hg).
      injection Heq as Hq _. by apply (Hlater g Hg).
  - by rewrite produced_lookup.
  - intros ms1 m ms2 -> Hnone. split.
    + apply Hwarn; [|exact Hnone]. apply elem_of_app. right. by left.
    + unfold Spec.produced, Spec.assembled. by rewrite writes_skip.
Qed.

(** C8 (as amended). The archive holds, at every path that is not empty,
    the content of the last write to that path in the fixed application
    order: the generated files first, in their order, then the relocations
    that resolve, in theirs. So the bytes of a resolved relocation are what
    the archive holds at its new path, when that path is not empty,
    whatever generated file has that path, unless a later relocation to the
    same path resolves too. Nothing written under the empty path is in the
    archive. *)
Theorem later_write_wins (addonName : string) (files : list GeneratedFile)
  (uploadedFiles : list UploadedFile) (assetMappings : list AssetMapping) (w : World) :
  exists entries zip,
    FileConverter.downloadAddon addonName files uploadedFiles assetMappings w
    = (Normal tt,
       mkWorld (storage w) (console w ++ entries) (requests w)
               (downloads w ++ [mkDownload (addonName +:+ ".mcaddon") zip]))
    /\ (forall p, p <> "" ->
                  zip !! p = Spec.lastWrite p (Spec.writes files uploadedFiles assetMappings))
    /\ zip !! "" = None
    /\ (forall ms1 m ms2 b,
          assetMappings = ms1 ++ m :: ms2 ->
          newPath m <> "" ->
          Spec.resolvedBytes (Spec.resolve uploadedFiles (originalPath m)) = Some b ->
          (forall m', m' ∈ ms2 -> newPath m' = newPath m ->
                      Spec.resolve uploadedFiles (originalPath m') = Spec.NotFound) ->
          zip !! newPath m = Some (Binary b)).
Proof.
  destruct (downloadAddon_run addonName files uploadedFiles assetMappings w)
    as (entries & Hrun & _).
  exists entries, (Spec.produced files uploadedFiles assetMappings).
  split; [exact Hrun|]. split; [|split].
  - intros p Hp%String.eqb_neq. by rewrite produced_lookup, Hp.
  - by rewrite produced_lookup.
  - intros ms1 m ms2 b -> Hp%String.eqb_neq Hb Hlater.
    rewrite produced_lookup, Hp. unfold Spec.writes.
    rewrite lastWrite_app, omap_app, lastWrite_app. simpl.
    unfold Spec.relocationWrite at 1. rewrite Hb. simpl.
    rewrite relocation_writes_elsewhere by exact Hlater.
    by rewrite String.eqb_refl.
Qed.

End AssemblyClaims.

Section AssemblyExamples.

(** C6, the claim as stated fails: no upload matches by name, the one
    container opens and its first entry that is no directory and whose name
    ends with sword.png is textures/sword.png, which cannot be extracted;
    it supplies no bytes, the later entry models/sword.png is not tried,
    and the relocation ends as not found, after the error of the read. *)
Lemma unextractable_entry_is_not_found :
  List.find (Spec.nameIs "sword.png") Fixture.damagedUploads = None
  /\ List.filter (Spec.nameEndsWith "sword.png") Fixture.damagedUploads = []
  /\ @Spec.opened Fixture.envDamaged (mkUploadedFile Fixture.damagedFile addon_file)
     = Some Fixture.damagedEntries
  /\ FileConverter.findAssetFile Fixture.damagedEntries Fixture.swordMapping
     = Some (mkZipObject "textures/sword.png" false None)
  /\ @FileConverter.applyMapping Fixture.envDamaged Fixture.damagedUploads ∅
       Fixture.swordMapping Fixture.freshWorld
     = (Normal ∅,
        withLog Fixture.freshWorld
          [Spec.readError Fixture.swordMapping (mkUploadedFile Fixture.damagedFile addon_file);
           Spec.notFoundWarning Fixture.swordMapping]).
Proof. repeat split; vm_compute; reflexivity. Qed.

(** C7, the claim as stated fails, in two ways. One relocation matches
    nothing, the other resolves and targets the path of the generated file:
    the archive holds the bytes of the asset at that path, not the generated
    text. And a generated file whose path is empty has no entry in the
    archive produced, with or without a collision. *)
Lemma generated_file_can_be_replaced :
  @Spec.resolve Fixture.env Fixture.uploads "missing.png" = Spec.NotFound
  /\ (exists w' zip,
      @FileConverter.downloadAddon Fixture.env "ruby" [Fixture.generatedA] Fixture.uploads
        Fixture.collidingMappings Fixture.freshWorld = (Normal tt, w')
      /\ downloads w' = [mkDownload "ruby.mcaddon" zip]
      /\ zip !! path Fixture.generatedA = Some (Binary (file_bytes Fixture.swordFile))
      /\ zip !! path Fixture.generatedA <> Some (Text (content Fixture.generatedA)))
  /\ (exists w' zip,
      @FileConverter.downloadAddon Fixture.env "ruby" [Fixture.generatedUnnamed]
        Fixture.uploads [mkAssetMapping "missing.png" "textures/missing.png"]
        Fixture.freshWorld = (Normal tt, w')
      /\ downloads w' = [mkDownload "ruby.mcaddon" zip]
      /\ zip !! path Fixture.generatedUnnamed = None).
Proof.
  split; [reflexivity|]. split.
  - exists (@FileConverter.downloadAddon Fixture.env "ruby" [Fixture.generatedA]
              Fixture.uploads Fixture.collidingMappings Fixture.freshWorld).2,
           (@Spec.produced Fixture.env [Fixture.generatedA] Fixture.uploads
              Fixture.collidingMappings).
    split; [vm_compute; reflexivity|].
    split; [vm_compute; reflexivity|].
    split; [vm_compute; reflexivity|vm_compute; discriminate].
  - exists (@FileConverter.downloadAddon Fixture.env "ruby" [Fixture.generatedUnnamed]
              Fixture.uploads [mkAssetMapping "missing.png" "textures/missing.png"]
              Fixture.freshWorld).2,
           (@Spec.produced Fixture.env [Fixture.generatedUnnamed] Fixture.uploads
              [mkAssetMapping "missing.png" "textures/missing.png"]).
    split; [vm_compute; reflexivity|].
    split; vm_compute; reflexivity.
Qed.

(** C7 on the same uploads without the collision: the generated file is in
    the archive verbatim and the unresolved relocation left its warning. *)
Lemma unresolvable_relocation_is_skipped_example :
  exists entries zip,
    @FileConverter.downloadAddon Fixture.env "ruby" [Fixture.generatedA] Fixture.uploads
      [mkAssetMapping "missing.png" "textures/missing.png"] Fixture.freshWorld
    = (Normal tt, mkWorld (storage Fixture.freshWorld) (console Fixture.freshWorld ++ entries)
                          (requests Fixture.freshWorld)
                          (downloads Fixture.freshWorld ++ [mkDownload "ruby.mcaddon" zip]))
    /\ zip !! "a.json" = Some (Text "A")
    /\ Spec.notFoundWarning (mkAssetMapping "missing.png" "textures/missing.png") ∈ entries.
Proof.
  destruct (@unresolvable_relocation_is_skipped Fixture.env "ruby" [Fixture.generatedA]
              Fixture.uploads [mkAssetMapping "missing.png" "textures/missing.png"]
              Fixture.freshWorld) as (entries & zip & Hrun & _ & Hverbatim & _ & Hskip).
  exists entries, zip. split; [exact Hrun|]. split.
  - apply (Hverbatim [] Fixture.generatedA [] eq_refl).
    + discriminate.
    + intros g Hg. by apply elem_of_nil in Hg.
    + intros m Hm _. apply list_elem_of_singleton in Hm as ->. reflexivity.
  - apply (Hskip [] _ [] eq_refl eq_refl).
Defined.

(** C8, the claim as stated fails: a generated file and a relocation that
    resolves both target the empty path; the archive produced has no entry
    at that path, and no entry at all. *)
Lemma write_at_empty_path_is_left_out :
  @Spec.resolve Fixture.env Fixture.uploads "sword.png" = Spec.Loose Fixture.swordFile
  /\ exists w' zip,
      @FileConverter.downloadAddon Fixture.env "ruby" [Fixture.generatedUnnamed]
        Fixture.uploads [mkAssetMapping "sword.png" (path Fixture.generatedUnnamed)]
        Fixture.freshWorld = (Normal tt, w')
      /\ downloads w' = [mkDownload "ruby.mcaddon" zip]
      /\ zip !! path Fixture.generatedUnnamed = None
      /\ zip = ∅.
Proof.
  split; [reflexivity|].
  exists (@FileConverter.downloadAddon Fixture.env "ruby" [Fixture.generatedUnnamed]
            Fixture.uploads [mkAssetMapping "sword.png" (path Fixture.generatedUnnamed)]
            Fixture.freshWorld).2,
         (@Spec.produced Fixture.env [Fixture.generatedUnnamed] Fixture.uploads
            [mkAssetMapping "sword.png" (path Fixture.generatedUnnamed)]).
  split; [vm_compute; reflexivity|].
  split; [vm_compute; reflexivity|].
  split; vm_compute; reflexivity.
Qed.

(** C8 on the fixture: the relocated asset replaces the generated text. *)
Lemma later_write_wins_example :
  exists entries zip,
    @FileConverter.downloadAddon Fixture.env "ruby" [Fixture.generatedA] Fixture.uploads
      Fixture.collidingMappings Fixture.freshWorld
    = (Normal tt, mkWorld (storage Fixture.freshWorld) (console Fixture.freshWorld ++ entries)
                          (requests Fixture.freshWorld)
                          (downloads Fixture.freshWorld ++ [mkDownload "ruby.mcaddon" zip]))
    /\ zip !! "a.json" = Some (Binary (file_bytes Fixture.swordFile)).
Proof.
  destruct (@later_write_wins Fixture.env "ruby" [Fixture.generatedA] Fixture.uploads
              Fixture.collidingMappings Fixture.freshWorld)
    as (entries & zip & Hrun & _ & _ & Hwins).
  exists entries, zip. split; [exact Hrun|].
  apply (Hwins [mkAssetMapping "missing.png" "textures/missing.png"]
               (mkAssetMapping "sword.png" "a.json") [] _ eq_refl).
  - discriminate.
  - reflexivity.
  - intros m' Hm'. by apply elem_of_nil in Hm'.
Defined.

(** C6 on loose inputs: a longer internal path resolves a short original
    path; with two candidates the first is taken and the warning is logged;
    an exact name is preferred to an earlier suffix match. *)
Lemma loose_resolution_example :
  let icon := mkUploadedFile Fixture.iconFile asset in
  let other := mkUploadedFile (mkFile "ui/icon.png" "image/png" [Byte.x0c]) asset in
  let exact := mkUploadedFile (mkFile "icon.png" "image/png" [Byte.x0d]) asset in
  let m := mkAssetMapping "icon.png" "rp/pack_icon.png" in
  let archive (b : byte) : Archive := {[ "rp/pack_icon.png" := Binary [b] ]} in
  @FileConverter.applyMapping Fixture.env [icon] ∅ m Fixture.freshWorld
  = (Normal (archive Byte.x0b), Fixture.freshWorld)
  /\ @FileConverter.applyMapping Fixture.env [icon; other] ∅ m Fixture.freshWorld
     = (Normal (archive Byte.x0b),
        withLog Fixture.freshWorld [Spec.ambiguityWarning [icon; other] m])
  /\ @FileConverter.applyMapping Fixture.env [icon; other; exact] ∅ m Fixture.freshWorld
     = (Normal (archive Byte.x0d), Fixture.freshWorld).
Proof. repeat split; vm_compute; reflexivity. Qed.

(** C6 and C10 on a container: the upload is recognised by its name,
    whatever its case, and the entry textures/sword.png is taken for the
    original path word.png. *)
Lemma suffix_match_is_raw_string_suffix_example :
  @FileConverter.applyMapping Fixture.env [mkUploadedFile Fixture.packFile addon_file] ∅
    (mkAssetMapping "word.png" "textures/items/word.png") Fixture.freshWorld
  = (Normal {[ "textures/items/word.png" := Binary [Byte.x01; Byte.x02] ]}, Fixture.freshWorld).
Proof.
  destruct (@suffix_match_is_raw_string_suffix Fixture.env)
    as (_ & _ & _ & _ & _ & Hcontainer).
  destruct (Hcontainer (mkUploadedFile Fixture.packFile addon_file) Fixture.containerEntries
              (mkAssetMapping "word.png" "textures/items/word.png") ∅ Fixture.freshWorld
              eq_refl eq_refl eq_refl) as [Hyes _].
  { repeat constructor; eexists; reflexivity. }
  destruct Hyes as (e & prefix & assetContent & Hin & Hdir & Hprefix & Hdata & Hrun).
  { exists (mkZipObject "textures/sword.png" false (Some [Byte.x01; Byte.x02])), "textures/s".
    split; [|split; reflexivity]. right. left. }
  rewrite Hrun. f_equal. f_equal.
  apply elem_of_cons in Hin as [->|Hin]; [discriminate Hdir|].
  apply list_elem_of_singleton in Hin as ->.
  injection Hdata as <-. reflexivity.
Defined.

End AssemblyExamples.

(** ** The download name ([downloadMcaddonFromZips], [downloadAddon]) *)

Section FilenameFacts.

(** Among the characters of the class, the only white space is the space. *)
Lemma nameChar_whiteSpace (c : ascii) :
  FileConverter.isNameChar c = true -> Js.isWhiteSpace c = Spec.isSpace c.
Proof. destruct c as [[] [] [] [] [] [] [] []]; vm_compute; congruence. Qed.

Lemma removeOutside_filter (class : ascii -> bool) (s : string) :
  Js.removeOutside class s
  = string_of_list_ascii (List.filter class (list_ascii_of_string s)).
Proof.
  induction s as [|c s IH]; simpl; [done|].
  destruct (class c); simpl; by rewrite IH.
Qed.

Lemma dropSpaces_app (a b : list ascii) :
  Spec.dropSpaces (a ++ b)
  = if forallb Spec.isSpace a then Spec.dropSpaces b else Spec.dropSpaces a ++ b.
Proof.
  induction a as [|c a IH]; simpl; [done|].
  destruct (Spec.isSpace c); simpl; [exact IH|done].
Qed.

Lemma dropSpaces_nil (l : list ascii) :
  forallb Spec.isSpace l = true -> Spec.dropSpaces l = [].
Proof.
  induction l as [|c l IH]; simpl; [done|].
  destruct (Spec.isSpace c); simpl; [exact IH|done].
Qed.

Lemma dropSpaces_cons (l : list ascii) :
  forallb Spec.isSpace l = false -> Spec.dropSpaces l <> [].
Proof.
  induction l as [|c l IH]; simpl; [done|].
  destruct (Spec.isSpace c); simpl; [exact IH|done].
Qed.

Lemma dropSpaces_suffix (l : list ascii) (P : ascii -> Prop) :
  Forall P l -> Forall P (Spec.dropSpaces l).
Proof.
  induction 1 as [|c l Hc Hl IH]; simpl; [constructor|].
  destruct (Spec.isSpace c); [exact IH|by constructor].
Qed.

Lemma trimStart_spaces (s : string) :
  Forall (fun c => FileConverter.isNameChar c = true) (list_ascii_of_string s) ->
  Js.trimStart s = string_of_list_ascii (Spec.dropSpaces (list_ascii_of_string s)).
Proof.
  induction s as [|c s IH]; simpl; [done|].
  intros Hall. apply Forall_cons in Hall as [Hc Hs].
  rewrite (nameChar_whiteSpace c Hc).
  destruct (Spec.isSpace c); [by apply IH|].
  simpl. by rewrite string_of_list_ascii_of_string.
Qed.

Lemma trimEnd_spaces (s : string) :
  Forall (fun c => FileConverter.isNameChar c = true) (list_ascii_of_string s) ->
  Js.trimEnd s
  = string_of_list_ascii (rev (Spec.dropSpaces (rev (list_ascii_of_string s)))).
Proof.
  induction s as [|c s IH]; simpl; [done|].
  intros Hall. apply Forall_cons in Hall as [Hc Hs].
  rewrite (IH Hs), (nameChar_whiteSpace c Hc), dropSpaces_app. simpl.
  destruct (forallb Spec.isSpace (rev (list_ascii_of_string s))) eqn:Hspaces.
  - rewrite (dropSpaces_nil _ Hspaces). simpl. by destruct (Spec.isSpace c).
  - pose proof (dropSpaces_cons _ Hspaces) as Hne.
    rewrite rev_app_distr. simpl.
    destruct (rev (Spec.dropSpaces (rev (list_ascii_of_string s)))) as [|d kept] eqn:Hrev;
      [|done].
    exfalso. apply Hne. apply (f_equal (@rev ascii)) in Hrev.
    by rewrite rev_involutive in Hrev.
Qed.

(** What the code keeps of a name is the stripped name of the spec with
    the spaces at both ends removed. *)
Lemma trim_stripped (addonName : string) :
  Js.trim (Js.removeOutside FileConverter.isNameChar addonName)
  = Spec.trimSpaces (Spec.strippedName addonName).
Proof.
  unfold Js.trim, Spec.trimSpaces, Spec.strippedName.
  rewrite removeOutside_filter.
  set (kept := List.filter FileConverter.isNameChar (list_ascii_of_string addonName)).
  assert (Forall (fun c => FileConverter.isNameChar c = true) kept) as Hkept.
  { apply Forall_forall. intros c Hc%list_elem_of_In. by apply filter_In in Hc as [_ Hc]. }
  rewrite trimStart_spaces by (by rewrite list_ascii_of_string_of_list_ascii).
  rewrite trimEnd_spaces;
    rewrite !list_ascii_of_string_of_list_ascii; [done|].
  by apply dropSpaces_suffix.
Qed.

End FilenameFacts.

Section FilenameClaims.

(** C9 (as amended). For every addon name, [downloadMcaddonFromZips]
    triggers its download under the name with every character outside
    [A-Za-z0-9_ -] stripped and the spaces at both ends removed, or under
    the default name addon when nothing is left, followed by .mcaddon. *)
Theorem zips_download_filename (addonName : string) (rpFile bpFile : option File)
  (w : World) :
  exists zip,
    FileConverter.downloadMcaddonFromZips addonName rpFile bpFile w
    = (Normal tt,
       mkWorld (storage w) (console w) (requests w)
         (downloads w
          ++ [mkDownload
                ((if String.eqb (Spec.trimSpaces (Spec.strippedName addonName)) ""
                  then "addon"
                  else Spec.trimSpaces (Spec.strippedName addonName)) +:+ ".mcaddon")
                zip])).
Proof.
  eexists. unfold FileConverter.downloadMcaddonFromZips, FileConverter.triggerDownload,
    FileConverter.safeAddonName.
  rewrite trim_stripped. reflexivity.
Qed.

(** C9, the claim as stated fails at the name [" my:addon"]: the spec's
    words give [" myaddon.mcaddon"]; [downloadMcaddonFromZips] also removes
    the leading space, and [downloadAddon] strips nothing. *)
Lemma filename_is_not_the_stripped_name :
  Spec.sanitizedFilename Fixture.rawName = " myaddon.mcaddon"
  /\ Fixture.downloadNames
       (FileConverter.downloadMcaddonFromZips Fixture.rawName None None Fixture.freshWorld)
     = ["myaddon.mcaddon"]
  /\ Fixture.downloadNames
       (@FileConverter.downloadAddon Fixture.env Fixture.rawName [] [] [] Fixture.freshWorld)
     = [" my:addon.mcaddon"]
  /\ Fixture.downloadNames
       (FileConverter.downloadMcaddonFromZips Fixture.rawName None None Fixture.freshWorld)
     <> [Spec.sanitizedFilename Fixture.rawName]
  /\ Fixture.downloadNames
       (@FileConverter.downloadAddon Fixture.env Fixture.rawName [] [] [] Fixture.freshWorld)
     <> [Spec.sanitizedFilename Fixture.rawName].
Proof.
  split; [reflexivity|]. split; [reflexivity|]. split; [reflexivity|].
  split; vm_compute; discriminate.
Qed.

End FilenameClaims.

(** ** White space at the ends of a string ([trim]) *)

Section TrimFacts.

Lemma app_assoc_string (a b c : string) : (a +:+ b) +:+ c = a +:+ (b +:+ c).
Proof. induction a as [|x a IH]; [done|]. rewrite !app_String. by rewrite IH. Qed.

Lemma list_ascii_app (a b : string) :
  list_ascii_of_string (a +:+ b) = list_ascii_of_string a ++ list_ascii_of_string b.
Proof. induction a as [|x a IH]; [done|]. rewrite app_String. simpl. by rewrite IH. Qed.

Lemma allWhite_app (a b : string) : Derived.allWhite (a +:+ b) = Derived.allWhite a && Derived.allWhite b.
Proof. unfold Derived.allWhite. by rewrite list_ascii_app, forallb_app. Qed.

Lemma trimStart_white (l s : string) :
  Derived.allWhite l = true -> Js.trimStart (l +:+ s) = Js.trimStart s.
Proof.
  induction l as [|c l IH]; [done|]. rewrite app_String. unfold Derived.allWhite. simpl.
  intros [Hc Hl]%andb_prop. rewrite Hc. by apply IH.
Qed.

Lemma trimStart_split (s : string) :
  exists l, s = l +:+ Js.trimStart s /\ Derived.allWhite l = true.
Proof.
  induction s as [|c s (l & Hs & Hl)]; [by exists ""|]. simpl.
  destruct (Js.isWhiteSpace c) eqn:Hc.
  - exists (String c l). rewrite app_String, <- Hs. split; [done|].
    unfold Derived.allWhite in *. simpl. by rewrite Hc.
  - by exists "".
Qed.

Lemma trimEnd_all_white (r : string) : Derived.allWhite r = true -> Js.trimEnd r = "".
Proof.
  induction r as [|c r IH]; [done|]. unfold Derived.allWhite. simpl.
  intros [Hc Hr]%andb_prop. rewrite (IH Hr). by rewrite Hc.
Qed.

Lemma trimEnd_white (s r : string) :
  Derived.allWhite r = true -> Js.trimEnd (s +:+ r) = Js.trimEnd s.
Proof.
  intros Hr. induction s as [|c s IH]; [by apply trimEnd_all_white|].
  rewrite app_String. simpl. by rewrite IH.
Qed.

Lemma trimEnd_split (s : string) :
  exists r, s = Js.trimEnd s +:+ r /\ Derived.allWhite r = true.
Proof.
  induction s as [|c s (r & Hs & Hr)]; [by exists ""|]. simpl.
  destruct (Js.trimEnd s) as [|d t] eqn:Ht.
  - rewrite app_empty_l in Hs. subst r.
    destruct (Js.isWhiteSpace c) eqn:Hc.
    + exists (String c s). split; [done|]. unfold Derived.allWhite in *. simpl. by rewrite Hc.
    + by exists s.
  - exists r. by rewrite app_String, <- Hs.
Qed.

(** A string that ends with a code unit that is no white space is left as
    it is by [trimEnd]. *)
Lemma trimEnd_fixed (t : string) (c : ascii) :
  Js.isWhiteSpace c = false ->
  Js.trimEnd (t +:+ String c "") = t +:+ String c "".
Proof.
  intros Hc. induction t as [|a t IH]; simpl.
  - rewrite app_empty_l. simpl. by rewrite Hc.
  - rewrite app_String. simpl. rewrite IH.
    by destruct t.
Qed.

(** What [trimEnd] keeps does not end with white space. *)
Lemma trimEnd_ends (s : string) :
  Js.trimEnd s = "" \/ exists t c, Js.trimEnd s = t +:+ String c "" /\ Js.isWhiteSpace c = false.
Proof.
  induction s as [|a s IH]; [by left|]. simpl.
  destruct (Js.trimEnd s) as [|d u] eqn:Hu.
  - destruct (Js.isWhiteSpace a) eqn:Ha; [by left|].
    right. by exists "", a.
  - right. destruct IH as [|(t & c & Ht & Hc)]; [done|].
    exists (String a t), c. by rewrite Ht.
Qed.

Lemma trimEnd_idem (s : string) : Js.trimEnd (Js.trimEnd s) = Js.trimEnd s.
Proof.
  destruct (trimEnd_ends s) as [->|(t & c & -> & Hc)]; [done|]. by apply trimEnd_fixed.
Qed.

(** [trimEnd] keeps the first code unit of a string that starts with one
    that is no white space. *)
Lemma trimEnd_head (c : ascii) (s : string) :
  Js.isWhiteSpace c = false -> exists t, Js.trimEnd (String c s) = String c t.
Proof.
  intros Hc. simpl. destruct (Js.trimEnd s) as [|d u]; rewrite ?Hc; eauto.
Qed.

Lemma trimStart_head (c : ascii) (s : string) :
  Js.isWhiteSpace c = false -> Js.trimStart (String c s) = String c s.
Proof. intros Hc. simpl. by rewrite Hc. Qed.

Lemma trimStart_starts (s : string) :
  Js.trimStart s = "" \/ exists c t, Js.trimStart s = String c t /\ Js.isWhiteSpace c = false.
Proof.
  induction s as [|a s IH]; [by left|]. simpl.
  destruct (Js.isWhiteSpace a) eqn:Ha; [done|]. right. eauto.
Qed.

(** The three pieces of a string: white space, what [trim] keeps, white
    space. *)
Lemma trim_split (s : string) :
  exists l r, s = l +:+ Js.trim s +:+ r /\ Derived.allWhite l = true /\ Derived.allWhite r = true.
Proof.
  destruct (trimStart_split s) as (l & Hs & Hl).
  destruct (trimEnd_split (Js.trimStart s)) as (r & Ht & Hr).
  exists l, r. unfold Js.trim. by rewrite <- Ht, <- Hs.
Qed.

(** What [trim] keeps has no white space at either end. *)
Lemma trim_starts (s : string) :
  Js.trim s = "" \/ exists c t, Js.trim s = String c t /\ Js.isWhiteSpace c = false.
Proof.
  unfold Js.trim.
  destruct (trimStart_starts s) as [->|(c & t & -> & Hc)]; [by left|].
  right. destruct (trimEnd_head c t Hc) as [u ->]. eauto.
Qed.

Lemma trim_ends (s : string) :
  Js.trim s = "" \/ exists t c, Js.trim s = t +:+ String c "" /\ Js.isWhiteSpace c = false.
Proof. apply trimEnd_ends. Qed.

(** A core without white space at its ends is what [trim] keeps of it
    padded with white space. *)
Lemma trim_padded (l core r : string) (c d : ascii) (t u : string) :
  Derived.allWhite l = true -> Derived.allWhite r = true ->
  core = String c t -> Js.isWhiteSpace c = false ->
  core = u +:+ String d "" -> Js.isWhiteSpace d = false ->
  Js.trim (l +:+ core +:+ r) = core.
Proof.
  intros Hl Hr Hc Hcw Hd Hdw. unfold Js.trim.
  rewrite trimStart_white by done.
  rewrite Hc, app_String, trimStart_head by done.
  rewrite <- app_String, <- Hc.
  rewrite trimEnd_white by done.
  rewrite Hd. by apply trimEnd_fixed.
Qed.

Lemma trim_idem (s : string) : Js.trim (Js.trim s) = Js.trim s.
Proof.
  destruct (trim_starts s) as [Hs|(c & t & Hc & Hcw)]; [by rewrite Hs|].
  destruct (trim_ends s) as [Hs|(u & d & Hd & Hdw)]; [by rewrite Hs|].
  pose proof (trim_padded "" (Js.trim s) "" c d t u eq_refl eq_refl Hc Hcw Hd Hdw) as Hp.
  by rewrite app_empty_l, app_empty_r in Hp.
Qed.

End TrimFacts.

(** ** The response cache: round trip and locality *)

Section CacheExtras.
Context {T : Type} `{Json T}.

Lemma afterSet_storage_at (key : string) (data : T) (w : World) :
  storage (Spec.afterSet key data w)
  = match JSON_stringify data with
    | Some item =>
        if Spec.writable key data (storage w)
        then mkStorage (<[key := item]> (items (storage w))) true (quota (storage w))
        else storage w
    | None => storage w
    end.
Proof.
  unfold Spec.afterSet, Spec.writable, sessionStorage_setItem.
  destruct (JSON_stringify data); [|done].
  destruct (accessible (storage w)); [|done].
  by destruct (usage _ <=? quota _)%N.
Qed.

(** [setInCache] touches the storage and the console only. *)
Lemma afterSet_frame (key : string) (data : T) (w : World) :
  requests (Spec.afterSet key data w) = requests w
  /\ downloads (Spec.afterSet key data w) = downloads w.
Proof.
  unfold Spec.afterSet, sessionStorage_setItem.
  destruct (JSON_stringify data); [|done].
  destruct (accessible (storage w)); [|done].
  by destruct (usage _ <=? quota _)%N.
Qed.

Lemma afterSet_console (key : string) (data : T) (w : World) :
  console (Spec.afterSet key data w)
  = console w ++ (if Spec.writable key data (storage w) then [] else [Spec.setError key]).
Proof.
  unfold Spec.afterSet, Spec.writable, sessionStorage_setItem.
  destruct (JSON_stringify data); [|done].
  destruct (accessible (storage w)); [|done].
  destruct (usage _ <=? quota _)%N; simpl; [by rewrite app_nil_r|done].
Qed.

(** X1. Round trip of the response cache. When the value serializes, the
    storage accepts the write and the serialized text parses back to the
    value, [getFromCache] after [setInCache] under the same key returns the
    value, whatever was stored under the key before; neither call logs
    anything or touches the requests. *)
Theorem cache_round_trip (key : string) (data : T) (item : string) (w : World) :
  JSON_stringify data = Some item ->
  JSON_parse item = Some data ->
  Spec.writable key data (storage w) = true ->
  exists w',
    Caching.setInCache key data w = (Normal tt, w')
    /\ Caching.getFromCache key w' = (Normal (Some data), w')
    /\ console w' = console w /\ requests w' = requests w.
Proof.
  intros Hitem Hparse Hroom.
  exists (Spec.afterSet key data w). split; [apply setInCache_run|].
  split; [|split; [|apply afterSet_frame]].
  - apply getFromCache_hit. unfold Spec.cached.
    rewrite afterSet_storage_at, Hitem, Hroom. simpl.
    by rewrite lookup_insert_eq.
  - by rewrite afterSet_console, Hroom, app_nil_r.
Qed.

End CacheExtras.

Section CacheLocality.
Context {T U : Type} `{Json T} `{Json U}.

(** X2. A write is local to its key. Whatever [setInCache] does under one
    key, accepted or refused, [getFromCache] under any other key returns
    what it returned before, at any type. *)
Theorem cache_write_is_local (key other : string) (data : T) (w : World) :
  other <> key ->
  exists w',
    Caching.setInCache key data w = (Normal tt, w')
    /\ (Caching.getFromCache (T:=U) other w').1 = (Caching.getFromCache (T:=U) other w).1.
Proof.
  intros Hother.
  exists (Spec.afterSet key data w). split; [apply setInCache_run|].
  destruct (getFromCache_run (T:=U) other (Spec.afterSet key data w)) as (e1 & -> & _).
  destruct (getFromCache_run (T:=U) other w) as (e2 & -> & _).
  simpl. f_equal. unfold Spec.cached.
  rewrite afterSet_storage_at.
  destruct (JSON_stringify data) as [item|] eqn:Hitem; [|done].
  destruct (Spec.writable key data (storage w)) eqn:Hroom; [|done].
  unfold Spec.writable in Hroom. rewrite Hitem in Hroom.
  apply andb_prop in Hroom as [-> _]. simpl.
  by rewrite lookup_insert_ne.
Qed.

End CacheLocality.

Section CacheExtrasExamples.

(** X1 on the fixture: a result stored on a fresh session is read back. *)
Lemma cache_round_trip_example :
  exists w',
    Caching.setInCache (H:=Fixture.json) "k" Fixture.firstPass Fixture.freshWorld = (Normal tt, w')
    /\ Caching.getFromCache (H:=Fixture.json) "k" w' = (Normal (Some Fixture.firstPass), w')
    /\ console w' = console Fixture.freshWorld /\ requests w' = requests Fixture.freshWorld.
Proof.
  apply (cache_round_trip (H:=Fixture.json) "k" Fixture.firstPass "first" Fixture.freshWorld).
  - reflexivity.
  - reflexivity.
  - vm_compute. reflexivity.
Defined.

(** X2 on the fixture: a summary stored under one key leaves the lookup of
    a generation result under another key as it was. *)
Lemma cache_write_is_local_example :
  exists w',
    Caching.setInCache (H:=ToolFixture.summaryJson) "k" "A pack with one sword."
      Fixture.freshWorld = (Normal tt, w')
    /\ (Caching.getFromCache (H:=Fixture.json) "other" w').1
       = (Caching.getFromCache (H:=Fixture.json) "other" Fixture.freshWorld).1.
Proof.
  apply (cache_write_is_local (H:=ToolFixture.summaryJson) (H0:=Fixture.json) "k" "other"
           "A pack with one sword." Fixture.freshWorld).
  discriminate.
Defined.

End CacheExtrasExamples.

(** ** The key deriver: shape of the key, boundaries of the parts *)

Section KeyExtras.
Context `{Env}.

Lemma encode_app (s t : string) :
  Caching.TextEncoder_encode (s +:+ t)
  = Caching.TextEncoder_encode s ++ Caching.TextEncoder_encode t.
Proof.
  induction s as [|c s IH]; [done|]. rewrite app_String. simpl. by rewrite IH, app_assoc.
Qed.

(** X3. [generateCacheKey] never throws and has no effect, whatever the
    parts: the buffer it allocates has room for every part. The key has two
    characters per byte of the digest, each a lower-case hexadecimal
    digit. *)
Theorem cache_key_is_hex_of_digest (parts : list Caching.KeyPart) (w : World) :
  exists key,
    Caching.generateCacheKey parts w = (Normal key, w)
    /\ String.length key
       = (2 * length (subtle_digest "SHA-256" (flat_map Caching.partBytes parts)))%nat
    /\ Forall (fun c => Spec.isLowerHex c = true) (list_ascii_of_string key).
Proof.
  eexists. split; [apply generateCacheKey_run|].
  split; [apply toHex_length|apply toHex_lowercase].
Qed.

(** X4. The key does not record where one part ends and the next begins,
    nor whether a part was a string or a buffer: a string split in two, a
    string handed over as the buffer of its UTF-8 bytes, and an empty
    string left out all give the same key. For the gateway, text moved from
    the end of the instruction to the start of the prompt gives the same
    key. *)
Theorem cache_key_ignores_part_boundaries (s t : string) (before rest : list Caching.KeyPart)
  (systemInstruction prompt : string) (parts : list Part) (w : World) :
  Caching.generateCacheKey (before ++ Caching.KString (s +:+ t) :: rest) w
  = Caching.generateCacheKey (before ++ Caching.KString s :: Caching.KString t :: rest) w
  /\ Caching.generateCacheKey (before ++ Caching.KString s :: rest) w
     = Caching.generateCacheKey
         (before ++ Caching.KBuffer (Caching.TextEncoder_encode s) :: rest) w
  /\ Caching.generateCacheKey (before ++ Caching.KString "" :: rest) w
     = Caching.generateCacheKey (before ++ rest) w
  /\ GeminiService.cacheKeyOf (systemInstruction +:+ s) prompt parts w
     = GeminiService.cacheKeyOf systemInstruction (s +:+ prompt) parts w.
Proof.
  repeat split.
  - rewrite !generateCacheKey_run, !flat_map_app. simpl.
    by rewrite encode_app, <- !app_assoc.
  - by rewrite !generateCacheKey_run, !flat_map_app.
  - by rewrite !generateCacheKey_run, !flat_map_app.
  - unfold GeminiService.cacheKeyOf. rewrite !bind_run.
    destruct (GeminiService.partLabels parts w) as [[labels|e] w']; [|done].
    rewrite !generateCacheKey_run. simpl.
    by rewrite !encode_app, <- !app_assoc.
Qed.

End KeyExtras.

(** ** The response parser: the Markdown fence *)

Section FenceFacts.
Context `{Json GenResult}.

Lemma substring_before (b t : string) :
  String.substring 0 (String.length b) (b +:+ t) = b.
Proof.
  induction b as [|c b IH]; [rewrite app_empty_l; by destruct t|].
  rewrite app_String. simpl. by rewrite IH.
Qed.

Lemma stripJsonFence_fenced (s : string) :
  GeminiService.stripJsonFence ("```json" +:+ s) = s.
Proof.
  unfold GeminiService.stripJsonFence, Js.startsWith.
  rewrite !app_String, app_empty_l. simpl.
  replace (String.prefix "" s) with true by (by destruct s).
  rewrite Nat.sub_0_r. apply substring_whole.
Qed.

Lemma stripClosingFence_fenced (s : string) :
  GeminiService.stripClosingFence (s +:+ "```") = s.
Proof.
  unfold GeminiService.stripClosingFence.
  replace (Js.endsWith (s +:+ "```") "```") with true
    by (symmetry; apply endsWith_suffix; by exists s).
  rewrite length_app_string. simpl String.length.
  rewrite Nat.add_sub. apply substring_before.
Qed.

(** X5. A response wrapped in a Markdown fence is unwrapped: for a response
    made of white space, the opening fence with the json tag, a body, the
    closing fence and white space, the text handed to the JSON parser is
    the body trimmed, and [parseJsonResponse] completes as the parser does
    on it. *)
Theorem fenced_response_is_unwrapped (l body r : string) (w : World) :
  Derived.allWhite l = true ->
  Derived.allWhite r = true ->
  let response := l +:+ ("```json" +:+ body +:+ "```") +:+ r in
  GeminiService.cleanJsonTextOf response = Js.trim body
  /\ (GeminiService.parseJsonResponse response w).1
     = match JSON_parse (Js.trim body) with
       | Some result => Normal result
       | None => Throw (JsError GeminiService.unparseableMessage)
       end.
Proof.
  intros Hl Hr response.
  assert (GeminiService.cleanJsonTextOf response = Js.trim body) as Hclean.
  { unfold GeminiService.cleanJsonTextOf, response.
    erewrite (trim_padded l _ r "`"%char "`"%char
                ("``json" +:+ body +:+ "```") ("```json" +:+ body +:+ "``")); try done.
    - by rewrite stripJsonFence_fenced, stripClosingFence_fenced.
    - rewrite !app_assoc_string. do 2 f_equal. }
  split; [exact Hclean|].
  unfold GeminiService.parseJsonResponse. js_unfold. rewrite Hclean.
  by destruct (JSON_parse (Js.trim body)).
Qed.

End FenceFacts.

Section FenceExamples.

(** X5 on the fixture: the text of the first pass, fenced and padded. *)
Lemma fenced_response_is_unwrapped_example :
  let response := " " +:+ ("```json" +:+ (Js.lf +:+ "first" +:+ Js.lf) +:+ "```") +:+ Js.lf in
  GeminiService.cleanJsonTextOf response = Js.trim (Js.lf +:+ "first" +:+ Js.lf)
  /\ (GeminiService.parseJsonResponse (H:=Fixture.json) response Fixture.freshWorld).1
     = match JSON_parse (Json:=Fixture.json) (Js.trim (Js.lf +:+ "first" +:+ Js.lf)) with
       | Some result => Normal result
       | None => Throw (JsError GeminiService.unparseableMessage)
       end.
Proof.
  apply (fenced_response_is_unwrapped (H:=Fixture.json) " " (Js.lf +:+ "first" +:+ Js.lf) Js.lf
           Fixture.freshWorld); reflexivity.
Defined.

End FenceExamples.

(** ** The parts sent with a request and the fingerprint of the uploads *)

Section PartsFacts.
Context `{Env} `{Json GenResult}.

Lemma smartPartsLoop_closed (files : list UploadedFile) (parts : list Part)
  (binaryFilePaths : list string) :
  GeminiService.smartPartsLoop files parts binaryFilePaths
  = (parts ++ map Derived.textPartOf (List.filter Derived.isText files),
     binaryFilePaths ++ FileConverter.fileNames (List.filter Derived.isBinary files)).
Proof.
  revert parts binaryFilePaths. unfold FileConverter.fileNames.
  induction files as [|uf rest IH]; intros parts bins; simpl.
  - by rewrite !app_nil_r.
  - unfold Derived.isBinary at 1.
    destruct (Derived.isText uf) eqn:Htext; unfold Derived.isText in Htext;
      rewrite Htext, IH; simpl; by rewrite <- app_assoc.
Qed.

Lemma filesToSmartParts_closed (files : list UploadedFile) :
  GeminiService.filesToSmartParts files
  = map Derived.textPartOf (List.filter Derived.isText files)
    ++ (if bool_decide (List.filter Derived.isBinary files = []) then []
        else [Derived.binaryListing
                (FileConverter.fileNames (List.filter Derived.isBinary files))]).
Proof.
  unfold GeminiService.filesToSmartParts. rewrite smartPartsLoop_closed. simpl.
  destruct (List.filter Derived.isBinary files); simpl; [by rewrite app_nil_r|done].
Qed.

(** X6. [filesToSmartParts] sends text only: one part per text file with
    its name and content, in upload order, then, when some file is no text
    file, one part that lists the names of those files. No part carries
    inline data, and the part count is the number of text files, plus one
    when there is another file. *)
Theorem smart_parts_are_text_only (files : list UploadedFile) :
  let texts := List.filter Derived.isText files in
  let binaries := List.filter Derived.isBinary files in
  GeminiService.filesToSmartParts files
  = map Derived.textPartOf texts
    ++ (if bool_decide (binaries = []) then []
        else [Derived.binaryListing (FileConverter.fileNames binaries)])
  /\ Forall (fun p => exists text, p = TextPart text) (GeminiService.filesToSmartParts files)
  /\ length (GeminiService.filesToSmartParts files)
     = (length texts + if bool_decide (binaries = []) then 0 else 1)%nat.
Proof.
  intros texts binaries. rewrite filesToSmartParts_closed. fold texts binaries.
  split; [done|]. split.
  - apply Forall_app. split.
    + apply Forall_forall. intros p (uf & -> & _)%list_elem_of_fmap. eexists. reflexivity.
    + destruct (bool_decide (binaries = [])); repeat constructor. eexists. reflexivity.
  - rewrite length_app, length_map. by destruct (bool_decide (binaries = [])).
Qed.

Lemma generativeParts_labels (uploadedFiles : list UploadedFile) :
  map Spec.label (FileConverter.filesToGenerativeParts uploadedFiles)
  = flat_map (fun nt =>
      [ "This is the content of the file: " +:+ nt.1;
        if String.eqb nt.2 "" then "application/octet-stream" else nt.2 ])
      (map Derived.nameAndType uploadedFiles).
Proof.
  unfold FileConverter.filesToGenerativeParts.
  induction uploadedFiles as [|uf rest IH]; simpl; [done|]. by rewrite IH.
Qed.

(** X7. With inline parts ([useSmartParts] false) the key records the names
    and MIME types of the uploads, not their bytes: when a result is cached
    for some uploads, a call with uploads that have the same names and
    types, whatever their content, returns that result, makes no request
    and leaves the storage as it is. *)
Theorem inline_uploads_hit_whatever_their_bytes (systemInstruction prompt : string)
  (cachedFor uploadedFiles : list UploadedFile) (w : World) (v : GenResult) :
  map Derived.nameAndType uploadedFiles = map Derived.nameAndType cachedFor ->
  Spec.cached (storage w) (Spec.keyOf systemInstruction prompt (Spec.partsOf false cachedFor))
  = Some v ->
  exists w',
    GeminiService.generateAddonFiles systemInstruction prompt uploadedFiles false w
    = (Normal v, w')
    /\ requests w' = requests w /\ storage w' = storage w.
Proof.
  intros Hsame Hhit.
  assert (Spec.keyOf systemInstruction prompt (Spec.partsOf false uploadedFiles)
          = Spec.keyOf systemInstruction prompt (Spec.partsOf false cachedFor)) as Hkey.
  { unfold Spec.keyOf, Spec.partsOf. by rewrite !generativeParts_labels, Hsame. }
  rewrite <- Hkey in Hhit.
  eexists. split; [by apply generateAddonFiles_hit|done].
Qed.

(** X8. Whatever a call of the gateway does, it triggers no download and
    makes at most two requests, appended to the earlier ones; and a call
    that throws leaves the storage as it was: nothing is cached for a
    generation that failed. *)
Theorem gateway_failure_stores_nothing (systemInstruction prompt : string)
  (uploadedFiles : list UploadedFile) (useSmartParts : bool) (w : World) :
  let run := GeminiService.generateAddonFiles systemInstruction prompt uploadedFiles
               useSmartParts w in
  downloads run.2 = downloads w
  /\ (exists made, requests run.2 = requests w ++ made /\ (length made <= 2)%nat)
  /\ (forall e, run.1 = Throw e -> storage run.2 = storage w).
Proof.
  intros run. subst run.
  destruct (Spec.cached (T:=GenResult) (storage w)
              (Spec.keyOf systemInstruction prompt (Spec.partsOf useSmartParts uploadedFiles)))
    as [v|] eqn:Hcached.
  - rewrite (generateAddonFiles_hit _ _ _ _ _ _ Hcached). simpl.
    split; [done|]. split; [|done]. exists []. rewrite app_nil_r. split; [done|simpl; lia].
  - destruct (generateAddonFiles_miss_run systemInstruction prompt uploadedFiles useSmartParts
                w Hcached) as [entries Hrun].
    cbv zeta in Hrun. rewrite Hrun. clear Hrun. simpl.
    assert (length (Spec.requestsMade (requests w) systemInstruction prompt
                      (Spec.partsOf useSmartParts uploadedFiles)) <= 2)%nat as Hmade.
    { unfold Spec.requestsMade.
      destruct (Spec.pass _ _) as [r|]; [destruct (GeminiService.hasNoFiles r)|]; simpl; lia. }
    destruct (Spec.twoPasses _ _ _ _) as [result|e] eqn:Hpasses.
    + destruct (afterSet_frame (T:=GenResult) (Spec.keyOf systemInstruction prompt
                  (Spec.partsOf useSmartParts uploadedFiles)) result
                  (mkWorld (storage w) (console w ++ entries)
                     (requests w ++ Spec.requestsMade (requests w) systemInstruction prompt
                                      (Spec.partsOf useSmartParts uploadedFiles))
                     (downloads w))) as [Hreq Hdown].
      rewrite Hreq, Hdown. simpl. split; [done|]. split; [eauto|done].
    + simpl. split; [done|]. split; [eauto|done].
Qed.

End PartsFacts.

Section PartsExamples.

(** X7 on the fixture: a result cached for an upload named sword.png is
    returned for another image of that name. *)
Lemma inline_uploads_hit_whatever_their_bytes_example :
  let key := @Spec.keyOf Fixture.env Fixture.instruction Fixture.userPrompt
               (@Spec.partsOf Fixture.env false Fixture.uploads) in
  let w := mkWorld (mkStorage {[ key := "final" ]} true 5242880) [] [] [] in
  exists w',
    @GeminiService.generateAddonFiles Fixture.env Fixture.json Fixture.instruction
      Fixture.userPrompt
      [mkUploadedFile (mkFile "sword.png" "image/png" [Byte.xff; Byte.xfe]) asset] false w
    = (Normal Fixture.finalResult, w')
    /\ requests w' = requests w /\ storage w' = storage w.
Proof.
  intros key w.
  apply (@inline_uploads_hit_whatever_their_bytes Fixture.env Fixture.json Fixture.instruction
           Fixture.userPrompt Fixture.uploads
           [mkUploadedFile (mkFile "sword.png" "image/png" [Byte.xff; Byte.xfe]) asset]
           w Fixture.finalResult).
  - reflexivity.
  - vm_compute. reflexivity.
Defined.

End PartsExamples.

(** ** Extraction before generation ([processAndUnzipFiles]) *)

Section UnzipFacts.
Context `{Env}.

(** The inner loop pushes the entries up to the first that cannot be
    extracted, and throws there. *)
Lemma pushEntries_run (entries : list ZipObject) (processedFiles : list UploadedFile) :
  Tools.pushEntries entries processedFiles
  = (if Derived.intact entries then Normal tt
     else Throw (JsError "Corrupted zip: the entry cannot be read"),
     processedFiles ++ Derived.pushed entries).
Proof.
  revert processedFiles.
  induction entries as [|e entries IH]; intros processed.
  - simpl. by rewrite app_nil_r.
  - cbn [Tools.pushEntries Derived.pushed Derived.intact forallb].
    unfold Derived.extracts at 1.
    destruct (zip_dir e); [exact (IH processed)|].
    destruct (zip_data e) as [blob|]; simpl.
    + rewrite IH. by rewrite <- app_assoc.
    + by rewrite app_nil_r.
Qed.

Lemma unzipLoop_run (uploadedFiles processedFiles : list UploadedFile) (w : World) :
  Tools.unzipLoop uploadedFiles processedFiles w
  = (Normal (processedFiles ++ flat_map Derived.expanded uploadedFiles),
     withLog w (map Derived.unzipError (List.filter Derived.unreadable uploadedFiles))).
Proof.
  revert processedFiles w.
  induction uploadedFiles as [|uf rest IH]; intros processed w.
  - simpl. by rewrite app_nil_r, withLog_nil.
  - cbn [Tools.unzipLoop flat_map List.filter].
    unfold Tools.unzipInto, Derived.expanded at 1, Spec.opened, Derived.unreadable at 1.
    destruct (FileConverter.isContainerName (file_name (uf_file uf))).
    + destruct (JSZip_loadAsync (file_bytes (uf_file uf))) as [entries|].
      * rewrite pushEntries_run.
        destruct (Derived.intact entries); simpl.
        -- rewrite IH, app_nil_r. by rewrite <- app_assoc.
        -- rewrite bind_run, console_error_run. cbv beta iota.
           rewrite IH, withLog_app. by rewrite <- !app_assoc.
      * simpl. rewrite bind_run, console_error_run. cbv beta iota.
        rewrite IH, withLog_app. by rewrite <- app_assoc.
    + simpl. rewrite IH. by rewrite <- app_assoc.
Qed.

Lemma processAndUnzipFiles_run (uploadedFiles : list UploadedFile) (w : World) :
  Tools.processAndUnzipFiles uploadedFiles w
  = (Normal (flat_map Derived.expanded uploadedFiles),
     withLog w (map Derived.unzipError (List.filter Derived.unreadable uploadedFiles))).
Proof. apply unzipLoop_run. Qed.

(** The files pushed for the entries of a container come from entries
    that are no directory and can be extracted. *)
Lemma pushed_entry (entries : list ZipObject) (f : UploadedFile) :
  f ∈ Derived.pushed entries ->
  exists e blob, e ∈ entries /\ zip_dir e = false /\ zip_data e = Some blob
                 /\ f = Tools.entryFile e blob.
Proof.
  induction entries as [|e entries IH]; simpl; [by intros ?%elem_of_nil|].
  destruct (zip_dir e) eqn:Hdir.
  - intros (e' & blob & Hin & Hrest)%IH. exists e', blob. split; [by right|done].
  - destruct (zip_data e) as [blob|] eqn:Hdata; [|by intros ?%elem_of_nil].
    intros [->|Hin]%elem_of_cons.
    + exists e, blob. split; [by left|done].
    + destruct (IH Hin) as (e' & blob' & Hin' & Hrest).
      exists e', blob'. split; [by right|done].
Qed.

(** For a container every entry of which can be extracted, they are all
    the entries that are no directory. *)
Lemma pushed_intact (entries : list ZipObject) :
  Derived.intact entries = true ->
  Derived.pushed entries
  = map (fun e => Tools.entryFile e (default [] (zip_data e)))
        (List.filter (fun e => negb (zip_dir e)) entries).
Proof.
  induction entries as [|e entries IH]; [done|].
  cbn [Derived.intact forallb Derived.pushed List.filter].
  unfold Derived.extracts at 1.
  destruct (zip_dir e); simpl; [exact IH|].
  destruct (zip_data e) as [blob|]; simpl; [|done].
  intros Hrest. by rewrite (IH Hrest).
Qed.

(** Up to the first entry that cannot be extracted. *)
Lemma pushed_until (before after : list ZipObject) (e : ZipObject) :
  Derived.intact before = true -> zip_dir e = false -> zip_data e = None ->
  Derived.pushed (before ++ e :: after) = Derived.pushed before
  /\ Derived.intact (before ++ e :: after) = false.
Proof.
  intros Hbefore Hdir Hdata.
  induction before as [|x before IH].
  - simpl. unfold Derived.extracts. by rewrite Hdir, Hdata.
  - revert Hbefore. cbn [app Derived.intact forallb Derived.pushed].
    unfold Derived.extracts at 1 3.
    destruct (zip_dir x); simpl.
    + intros Hrest. exact (IH Hrest).
    + destruct (zip_data x) as [blob|]; simpl; [|done].
      intros Hrest. destruct (IH Hrest) as [-> Hno]. done.
Qed.

Lemma forallb_not_all {A} (p : A -> bool) (l : list A) :
  forallb p l = false -> exists x, x ∈ l /\ p x = false.
Proof.
  induction l as [|x l IH]; simpl; [done|].
  destruct (p x) eqn:Hx; simpl.
  - intros (y & Hy & Hbad)%IH. exists y. split; [by right|done].
  - intros _. exists x. split; [by left|done].
Qed.

(** X9. [processAndUnzipFiles] never throws and touches nothing but the
    console; the order of the uploads is kept. Every upload that has no
    container name, or that does not open, is in the result as it was. A
    container that opens and whose entries can all be extracted is replaced
    by its entries that are no directory, as files of kind addon_file named
    by their internal path. A container that opens with an entry that is no
    directory and cannot be extracted yields the files of the entries before
    that one, followed by the container itself. No directory entry becomes
    a file. Each container that does not open, or that holds an entry that
    cannot be extracted, leaves one error on the console. When no upload
    has a container name the result is the uploads and nothing is logged. *)
Theorem unzip_keeps_what_it_cannot_open (uploadedFiles : list UploadedFile) (w : World) :
  exists files errors,
    Tools.processAndUnzipFiles uploadedFiles w = (Normal files, withLog w errors)
    /\ files = flat_map Derived.expanded uploadedFiles
    /\ errors = map Derived.unzipError (List.filter Derived.unreadable uploadedFiles)
    /\ (forall uf, Spec.opened uf = None -> Derived.expanded uf = [uf])
    /\ (forall uf entries,
          Spec.opened uf = Some entries -> Derived.intact entries = true ->
          Derived.expanded uf
          = map (fun e => Tools.entryFile e (default [] (zip_data e)))
                (List.filter (fun e => negb (zip_dir e)) entries))
    /\ (forall uf before e after,
          Spec.opened uf = Some (before ++ e :: after) ->
          Derived.intact before = true -> zip_dir e = false -> zip_data e = None ->
          Derived.expanded uf
          = map (fun e => Tools.entryFile e (default [] (zip_data e)))
                (List.filter (fun e => negb (zip_dir e)) before) ++ [uf])
    /\ (forall uf,
          Derived.unreadable uf = true
          <-> FileConverter.isContainerName (file_name (uf_file uf)) = true
              /\ (Spec.opened uf = None
                  \/ exists entries e,
                       Spec.opened uf = Some entries /\ e ∈ entries
                       /\ zip_dir e = false /\ zip_data e = None))
    /\ (forall f, f ∈ files ->
          (f ∈ uploadedFiles
           /\ (Spec.opened f = None
               \/ exists entries, Spec.opened f = Some entries
                                  /\ Derived.intact entries = false))
          \/ exists uf entries e blob,
               uf ∈ uploadedFiles /\ Spec.opened uf = Some entries /\ e ∈ entries
               /\ zip_dir e = false /\ zip_data e = Some blob
               /\ f = mkUploadedFile (mkFile (zip_name e) "" blob) addon_file)
    /\ (Forall (fun uf => FileConverter.isContainerName (file_name (uf_file uf)) = false)
               uploadedFiles ->
        files = uploadedFiles /\ errors = []).
Proof.
  eexists _, _. split; [apply processAndUnzipFiles_run|].
  split; [done|]. split; [done|]. split; [|split; [|split; [|split; [|split]]]].
  - intros uf Hopen. unfold Derived.expanded. by rewrite Hopen.
  - intros uf entries Hopen Hintact. unfold Derived.expanded.
    rewrite Hopen, Hintact, app_nil_r. by apply pushed_intact.
  - intros uf before e after Hopen Hbefore Hdir Hdata. unfold Derived.expanded.
    rewrite Hopen.
    destruct (pushed_until before after e Hbefore Hdir Hdata) as [-> ->].
    by rewrite (pushed_intact before Hbefore).
  - intros uf. unfold Derived.unreadable, Spec.opened.
    destruct (FileConverter.isContainerName (file_name (uf_file uf))); simpl.
    2:{ split; [done|]. by intros [? _]. }
    destruct (JSZip_loadAsync (file_bytes (uf_file uf))) as [entries|].
    2:{ split; [|done]. intros _. split; [done|]. by left. }
    rewrite negb_true_iff. unfold Derived.intact. split.
    + intros Hno. split; [done|]. right.
      apply forallb_not_all in Hno as (e & He & Hbad).
      unfold Derived.extracts in Hbad. apply orb_false_iff in Hbad as [Hdir Hdata].
      exists entries, e. split; [done|]. split; [done|]. split; [done|].
      by destruct (zip_data e).
    + intros (_ & [?|(entries' & e & [= <-] & He & Hdir & Hdata)]); [done|].
      destruct (forallb Derived.extracts entries) eqn:Hall; [|done].
      rewrite forallb_forall in Hall. apply list_elem_of_In in He.
      specialize (Hall e He). unfold Derived.extracts in Hall.
      by rewrite Hdir, Hdata in Hall.
  - intros f (uf & Huf & Hf)%list_elem_of_In%in_flat_map.
    apply list_elem_of_In in Huf, Hf. unfold Derived.expanded in Hf.
    destruct (Spec.opened uf) as [entries|] eqn:Hopen.
    + apply elem_of_app in Hf as [Hf|Hf].
      * right. apply pushed_entry in Hf as (e & blob & He & Hdir & Hdata & ->).
        by exists uf, entries, e, blob.
      * left. destruct (Derived.intact entries) eqn:Hintact; [by apply elem_of_nil in Hf|].
        apply list_elem_of_singleton in Hf as ->. split; [done|]. right. by exists entries.
    + left. apply list_elem_of_singleton in Hf as ->. split; [done|by left].
  - intros Hplain. induction Hplain as [|uf rest Huf Hrest [IH1 IH2]]; [done|]. simpl.
    unfold Derived.expanded at 1, Spec.opened, Derived.unreadable at 1.
    rewrite Huf. simpl. by rewrite IH1, IH2.
Qed.

End UnzipFacts.

(** ** Extraction before generation, then assembly *)

Section PreUnzipFacts.
Context `{Env}.

(** Among the files pushed for the entries of a container all of which can
    be extracted, the first whose name ends with the path is the entry the
    fallback takes. *)
Lemma find_pushed (originalPath : string) (entries : list ZipObject) :
  Derived.intact entries = true ->
  List.find (Spec.nameEndsWith originalPath) (Derived.pushed entries)
  = match List.find (Spec.entryMatches originalPath) entries with
    | Some e =>
        match zip_data e with
        | Some b => Some (Tools.entryFile e b)
        | None => None
        end
    | None => None
    end.
Proof.
  induction entries as [|e entries IH]; [done|].
  cbn [Derived.intact forallb Derived.pushed List.find].
  unfold Derived.extracts at 1, Spec.entryMatches at 1.
  destruct (zip_dir e); simpl; [exact IH|].
  destruct (zip_data e) as [blob|] eqn:Hdata; simpl; [|done].
  intros Hrest. unfold Spec.nameEndsWith at 1. simpl.
  destruct (Js.endsWith (zip_name e) originalPath); [by rewrite Hdata|].
  exact (IH Hrest).
Qed.

(** Among the extracted uploads, the first whose name ends with the path
    is the entry the fallback is supplied, when no upload matched by itself
    and every container that opens can be extracted whole. *)
Lemma find_suffix_expanded (originalPath : string) (uploadedFiles : list UploadedFile) :
  Derived.allIntact uploadedFiles = true ->
  List.find (Spec.nameEndsWith originalPath) uploadedFiles = None ->
  List.find (Spec.nameEndsWith originalPath) (flat_map Derived.expanded uploadedFiles)
  = (fun supplied => Tools.entryFile supplied.1 supplied.2)
    <$> Spec.fallback uploadedFiles originalPath.
Proof.
  unfold Spec.fallback.
  induction uploadedFiles as [|uf rest IH]; [done|].
  cbn [Derived.allIntact forallb List.find flat_map omap list_omap].
  intros [Huf Hall]%andb_prop.
  destruct (Spec.nameEndsWith originalPath uf) eqn:Hname; [done|]. intros Hrest.
  rewrite find_app_first, (IH Hall Hrest).
  assert (Spec.supplied originalPath uf
          = match Spec.opened uf with
            | Some entries =>
                match List.find (Spec.entryMatches originalPath) entries with
                | Some e =>
                    match zip_data e with
                    | Some b => Some (e, b)
                    | None => None
                    end
                | None => None
                end
            | None => None
            end) as ->
    by (unfold Spec.supplied, Spec.candidate; by destruct (Spec.opened uf)).
  unfold Derived.expanded.
  destruct (Spec.opened uf) as [entries|].
  - rewrite Huf, app_nil_r, (find_pushed _ _ Huf).
    destruct (List.find (Spec.entryMatches originalPath) entries) as [e|]; [|done].
    by destruct (zip_data e).
  - simpl. by rewrite Hname.
Qed.

(** X10. Extraction makes the fallback of the assembly unnecessary, when
    every entry of every container that opens can be extracted. When a
    relocation is resolved by the fallback on the uploads as given (no
    upload matches by its name, an entry of a container does), then on the
    uploads extracted by [processAndUnzipFiles] it is resolved among the
    loose inputs, by a file whose name ends with the original path; and
    unless one of the extracted files has exactly the original path as its
    name, the bytes written at the new path are those of the same entry. *)
Theorem extracted_uploads_resolve_loose (uploadedFiles files : list UploadedFile)
  (m : AssetMapping) (e : ZipObject) (b : list byte) (zip : Archive) (w w1 w2 : World) :
  Tools.processAndUnzipFiles uploadedFiles w = (Normal files, w1) ->
  Derived.allIntact uploadedFiles = true ->
  Spec.resolve uploadedFiles (originalPath m) = Spec.Entry e b ->
  zip_data e = Some b
  /\ (exists f, Spec.resolve files (originalPath m) = Spec.Loose f
                /\ Js.endsWith (file_name f) (originalPath m) = true)
  /\ (List.find (Spec.nameIs (originalPath m)) files = None ->
      exists warnings,
        FileConverter.applyMapping files zip m w2
        = (Normal (<[newPath m := Binary b]> zip), withLog w2 warnings)
        /\ (FileConverter.applyMapping uploadedFiles zip m w2).1
           = Normal (<[newPath m := Binary b]> zip)).
Proof.
  rewrite processAndUnzipFiles_run. intros Hfiles Hintact Hentry.
  injection Hfiles as <- _.
  assert (List.find (Spec.nameEndsWith (originalPath m)) uploadedFiles = None
          /\ Spec.fallback uploadedFiles (originalPath m) = Some (e, b)) as [Hloose Hfound].
  { unfold Spec.resolve in Hentry.
    destruct (List.find (Spec.nameIs (originalPath m)) uploadedFiles); [done|].
    destruct (List.find (Spec.nameEndsWith (originalPath m)) uploadedFiles); [done|].
    destruct (Spec.fallback uploadedFiles (originalPath m)) as [[e' b']|]; [|done].
    by injection Hentry as -> ->. }
  pose proof (find_suffix_expanded (originalPath m) uploadedFiles Hintact Hloose) as Hsuffix.
  rewrite Hfound in Hsuffix. simpl in Hsuffix.
  split; [|split].
  - apply fallback_first in Hfound as (before & uf & after & _ & _ & Hs).
    by apply supplied_some in Hs as (_ & entries & _ & _ & Hdata).
  - unfold Spec.resolve. rewrite Hsuffix.
    destruct (List.find (Spec.nameIs (originalPath m)) (flat_map Derived.expanded uploadedFiles))
      as [exact|] eqn:Hexact.
    + eexists. split; [done|].
      apply find_some in Hexact as [_ Hname]. by apply eqb_endsWith.
    + eexists. split; [done|].
      apply find_some in Hsuffix as [_ Hname]. exact Hname.
  - intros Hexact.
    destruct (applyMapping_run (flat_map Derived.expanded uploadedFiles) zip m w2)
      as (warnings & Hrun & _).
    destruct (applyMapping_run uploadedFiles zip m w2) as (entries & Hgiven & _).
    exists warnings. rewrite Hrun, Hgiven. unfold Spec.relocated.
    rewrite Hentry. unfold Spec.resolve. rewrite Hexact, Hsuffix. done.
Qed.

End PreUnzipFacts.

Section PreUnzipExamples.

(** X10 on the fixture: the container holds textures/sword.png; the
    relocation of sword.png is resolved inside the container on the uploads
    as given, and by the extracted file after extraction. *)
Lemma extracted_uploads_resolve_loose_example :
  let m := mkAssetMapping "sword.png" "textures/items/sword.png" in
  let e := mkZipObject "textures/sword.png" false (Some [Byte.x01; Byte.x02]) in
  let files := [mkUploadedFile (mkFile "textures/sword.png" "" [Byte.x01; Byte.x02])
                  addon_file] in
  zip_data e = Some [Byte.x01; Byte.x02]
  /\ (exists f, @Spec.resolve Fixture.env files (originalPath m) = Spec.Loose f
                /\ Js.endsWith (file_name f) (originalPath m) = true)
  /\ (List.find (Spec.nameIs (originalPath m)) files = None ->
      exists warnings,
        @FileConverter.applyMapping Fixture.env files ∅ m Fixture.freshWorld
        = (Normal (<[newPath m := Binary [Byte.x01; Byte.x02]]> ∅),
           withLog Fixture.freshWorld warnings)
        /\ (@FileConverter.applyMapping Fixture.env
              [mkUploadedFile Fixture.packFile addon_file] ∅ m Fixture.freshWorld).1
           = Normal (<[newPath m := Binary [Byte.x01; Byte.x02]]> ∅)).
Proof.
  intros m e files.
  apply (@extracted_uploads_resolve_loose Fixture.env
           [mkUploadedFile Fixture.packFile addon_file] files m e [Byte.x01; Byte.x02] ∅
           Fixture.freshWorld Fixture.freshWorld Fixture.freshWorld).
  - reflexivity.
  - reflexivity.
  - reflexivity.
Defined.

(** On a container whose first matching entry cannot be extracted, the
    extraction keeps the container itself and logs one error. *)
Lemma damaged_container_is_kept :
  @Tools.processAndUnzipFiles Fixture.envDamaged Fixture.damagedUploads Fixture.freshWorld
  = (Normal Fixture.damagedUploads,
     withLog Fixture.freshWorld
       [Derived.unzipError (mkUploadedFile Fixture.damagedFile addon_file)]).
Proof. vm_compute. reflexivity. Qed.

End PreUnzipExamples.

(** ** The tools: [devAddon] *)

Section ParseFacts.

Lemma parseJsonResponseAs_run {T} `{Json T} (text : string) (w : World) :
  exists entries,
    Tools.parseJsonResponseAs (T:=T) text w
    = (match JSON_parse (GeminiService.cleanJsonTextOf text) with
       | Some result => Normal result
       | None => Throw (JsError GeminiService.unparseableMessage)
       end, withLog w entries).
Proof.
  unfold Tools.parseJsonResponseAs. js_unfold.
  destruct (JSON_parse (GeminiService.cleanJsonTextOf text)).
  - exists []. by rewrite withLog_nil.
  - eexists. rewrite !withLog_app. reflexivity.
Qed.

(** A value cached at the type [T] is the same value when the cache is
    read as [T] or [null]; where nothing is cached at the type [T], what is
    read is absent or [null]. *)
Lemma cached_nullable_some {T} `{Json T} (st : Storage) (key : string) (v : T) :
  Spec.cached (T:=T) st key = Some v ->
  Spec.cached (H:=Tools.nullable) st key = Some (Some v).
Proof.
  unfold Spec.cached. destruct (accessible st); [|done].
  destruct (items st !! key) as [text|]; [|done]. simpl. by intros ->.
Qed.


End ParseFacts.

Section DevFacts.
Context `{Env} `{Tools.Texts} `{Json GenResult}.

Lemma bind_assoc {A B C} (m : Js A) (f : A -> Js B) (g : B -> Js C) (w : World) :
  (m ≫= (fun a => f a ≫= g)) w = ((m ≫= f) ≫= g) w.
Proof. unfold mbind, js_bind. by destruct (m w) as [[a|e] w']. Qed.

Lemma devAddon_hit (instruction : string) (existingFiles : list GeneratedFile) (w : World)
  (v : GenResult) :
  Spec.cached (storage w) (Derived.devKey instruction existingFiles) = Some v ->
  Tools.devAddon instruction existingFiles w
  = (Normal (Tools.mkDevResult (files v) []),
     withLog w [Derived.devHit (Derived.devKey instruction existingFiles)]).
Proof.
  intros Hhit. unfold Tools.devAddon.
  rewrite bind_run, generateCacheKey_run. simpl flat_map. rewrite app_nil_r.
  fold (Derived.devContents existingFiles). fold (Derived.devKey instruction existingFiles).
  erewrite bind_normal
    by (apply (getFromCache_hit (H:=Tools.nullable)), cached_nullable_some; exact Hhit).
  reflexivity.
Qed.


(** X11. A hit of [devAddon] returns the cached files and no asset
    mapping, whatever mappings were cached with them; it makes no request
    and changes nothing but the console. *)
Theorem dev_hit_drops_asset_mappings (instruction : string)
  (existingFiles : list GeneratedFile) (w : World) (v : GenResult) :
  Spec.cached (storage w) (Derived.devKey instruction existingFiles) = Some v ->
  exists w',
    Tools.devAddon instruction existingFiles w
    = (Normal (Tools.mkDevResult (files v) []), w')
    /\ requests w' = requests w /\ storage w' = storage w /\ downloads w' = downloads w.
Proof.
  intros Hhit. eexists. split; [by apply devAddon_hit|done].
Qed.


End DevFacts.

Section DevExamples.

(** X11 on the fixture: the cached result carries a mapping, the value
    returned does not. *)
Lemma dev_hit_drops_asset_mappings_example :
  let key := @Derived.devKey Fixture.env ToolFixture.texts "Rename the sword"
               [Fixture.manifest] in
  let w := mkWorld (mkStorage {[ key := "final" ]} true 5242880) [] [] [] in
  exists w',
    @Tools.devAddon Fixture.env ToolFixture.texts Fixture.json "Rename the sword"
      [Fixture.manifest] w
    = (Normal (Tools.mkDevResult (files Fixture.finalResult) []), w')
    /\ requests w' = requests w /\ storage w' = storage w /\ downloads w' = downloads w.
Proof.
  intros key w.
  apply (@dev_hit_drops_asset_mappings Fixture.env ToolFixture.texts Fixture.json
           "Rename the sword" [Fixture.manifest] w Fixture.finalResult).
  vm_compute. reflexivity.
Defined.


(** X12 on a service that answers with the text of [null]: that text is
    stored under the key, and the call throws. *)
Lemma dev_null_response_is_stored :
  let key := @Derived.devKey Fixture.envNull ToolFixture.texts "Rename the sword"
               [Fixture.manifest] in
  let run := @Tools.devAddon Fixture.envNull ToolFixture.texts Fixture.json
               "Rename the sword" [Fixture.manifest] Fixture.freshWorld in
  run.1 = Throw (TypeError Tools.nullFilesMessage)
  /\ items (storage run.2) !! key = Some "null"
  /\ length (requests run.2) = 1%nat.
Proof. repeat split; vm_compute; reflexivity. Qed.

End DevExamples.

(** ** The tools: [generateFunction] and [summarizeAddon] *)

Section FunctionFacts.
Context `{Env} `{Tools.Texts} `{Json GenResult}.

(** X13. [generateFunction] makes exactly one request, at temperature 0.1
    and with the prompt as its only part, and never a verification request;
    it neither reads nor writes the session storage. It throws what the
    generation throws, throws an error of its own when the response holds
    no file, and otherwise returns the files of the response: it never
    returns an empty list. *)
Theorem function_writer_single_pass (prompt functionName : string) (w : World) :
  let request := Derived.functionRequest prompt functionName in
  let run := Tools.generateFunction prompt functionName w in
  requests run.2 = requests w ++ [request]
  /\ storage run.2 = storage w /\ downloads run.2 = downloads w
  /\ run.1 = match Spec.pass (requests w) request with
             | Throw e => Throw e
             | Normal result =>
                 if GeminiService.hasNoFiles result
                 then Throw (JsError Tools.noFunctionMessage)
                 else Normal (GeminiService.filesOf result)
             end
  /\ run.1 <> Normal [].
Proof.
  intros request run. subst run. unfold Tools.generateFunction.
  rewrite bind_run.
  destruct (performSingleGeneration_run (Tools.functionSystemInstruction functionName)
              (Tools.functionPromptOf prompt functionName) [] (1 # 10)%Q w request eq_refl)
    as [entries ->].
  destruct (Spec.pass (requests w) request) as [result|e]; [|done].
  unfold GeminiService.hasNoFiles, GeminiService.filesOf.
  destruct (files result) as [[|f fs]|]; done.
Qed.

End FunctionFacts.

Section SummaryFacts.
Context `{Env} `{Tools.Texts} `{Json string}.

Lemma summaryKey_run (files : list UploadedFile) (w : World) :
  Caching.generateCacheKey
    (Caching.KString Tools.summarizeSystemInstruction :: Caching.KString "summarize"
     :: map (fun f => Caching.KBuffer (file_bytes (uf_file f))) files) w
  = (Normal (Derived.summaryKey files), w).
Proof.
  rewrite generateCacheKey_run. unfold Derived.summaryKey.
  assert (flat_map Caching.partBytes
            (map (fun f => Caching.KBuffer (file_bytes (uf_file f))) files)
          = Derived.bytesOf files) as Hbytes.
  { unfold Derived.bytesOf. induction files as [|f files IH]; simpl; [done|]. by rewrite IH. }
  change (flat_map Caching.partBytes (?a :: ?b :: ?rest))
    with (Caching.partBytes a ++ Caching.partBytes b ++ flat_map Caching.partBytes rest).
  by rewrite Hbytes.
Qed.

Lemma summarizeAddon_hit (uploadedFiles : list UploadedFile) (w : World) (c : ascii)
  (summary : string) :
  let files := flat_map Derived.expanded uploadedFiles in
  let w1 := withLog w (map Derived.unzipError (List.filter Derived.unreadable uploadedFiles)) in
  Spec.cached (storage w) (Derived.summaryKey files) = Some (String c summary) ->
  Tools.summarizeAddon uploadedFiles w
  = (Normal (String c summary), withLog w1 [Derived.summaryHit (Derived.summaryKey files)]).
Proof.
  intros files w1 Hhit. unfold Tools.summarizeAddon.
  rewrite bind_run, processAndUnzipFiles_run. fold files w1.
  rewrite bind_run, summaryKey_run.
  erewrite bind_normal by (apply getFromCache_hit; exact Hhit).
  reflexivity.
Qed.

Lemma summarizeAddon_miss (uploadedFiles : list UploadedFile) (w : World) :
  let files := flat_map Derived.expanded uploadedFiles in
  let key := Derived.summaryKey files in
  let request := Derived.summaryRequest files in
  Spec.cached (storage w) key = None \/ Spec.cached (storage w) key = Some "" ->
  exists entries,
    let w0 := mkWorld (storage w) (console w ++ entries) (requests w ++ [request])
                      (downloads w) in
    Tools.summarizeAddon uploadedFiles w
    = match generateContent (requests w) request with
      | Some text => (Normal text, Spec.afterSet key text w0)
      | None => (Throw ServiceError, w0)
      end.
Proof.
  intros files key request Hmiss. unfold Tools.summarizeAddon.
  rewrite bind_run, processAndUnzipFiles_run. fold files.
  rewrite bind_run, summaryKey_run. fold key.
  set (w1 := withLog w _).
  destruct (getFromCache_run (T:=string) key w1) as (e0 & Hget & _).
  rewrite bind_run, Hget. clear Hget. change (storage w1) with (storage w).
  subst w1. rewrite withLog_app.
  destruct (Spec.cached (storage w) key) as [[|c s]|] eqn:Hcached;
    [|exfalso; by destruct Hmiss|];
    (rewrite bind_run, console_log_run; cbv beta iota; rewrite withLog_app;
     rewrite bind_run; unfold GeminiService.ai_generateContent at 1;
     fold (Derived.summaryRequest files); fold request; simpl requests;
     destruct (generateContent (requests w) request) as [text|];
     [ rewrite bind_run, setInCache_run; unfold mret, js_ret, withLog; simpl;
       eexists; reflexivity
     | unfold withLog; simpl; eexists; reflexivity ]).
Qed.

(** X14. The key of a summary is made of the bytes of the extracted files
    alone, concatenated: neither the names of the files nor where one file
    ends and the next begins are recorded. When a summary that is not empty
    is cached for some uploads, [summarizeAddon] on uploads with the same
    concatenated bytes returns it, makes no request and leaves the storage
    as it is. *)
Theorem summary_is_keyed_by_bytes_alone (cachedFor uploadedFiles : list UploadedFile)
  (w : World) (summary : string) :
  Derived.bytesOf (flat_map Derived.expanded uploadedFiles)
  = Derived.bytesOf (flat_map Derived.expanded cachedFor) ->
  summary <> "" ->
  Spec.cached (storage w) (Derived.summaryKey (flat_map Derived.expanded cachedFor))
  = Some summary ->
  exists w',
    Tools.summarizeAddon uploadedFiles w = (Normal summary, w')
    /\ requests w' = requests w /\ storage w' = storage w.
Proof.
  intros Hbytes Hne Hhit.
  assert (Derived.summaryKey (flat_map Derived.expanded uploadedFiles)
          = Derived.summaryKey (flat_map Derived.expanded cachedFor)) as Hkey
    by (unfold Derived.summaryKey; by rewrite Hbytes).
  rewrite <- Hkey in Hhit.
  destruct summary as [|c summary]; [done|].
  eexists. split; [by apply summarizeAddon_hit|done].
Qed.

(** X15. When nothing is cached for the uploads, and also when the cached
    summary is the empty string, [summarizeAddon] makes exactly one
    request, at temperature 0.3 and with no response type, whose parts are
    the text parts of the extracted files. The summary is the text of the
    response as it is, handed to [setInCache] under the key; when the
    service fails the error is thrown and nothing is stored. *)
Theorem summary_miss_single_request (uploadedFiles : list UploadedFile) (w : World) :
  let files := flat_map Derived.expanded uploadedFiles in
  let key := Derived.summaryKey files in
  let request := Derived.summaryRequest files in
  let run := Tools.summarizeAddon uploadedFiles w in
  Spec.cached (storage w) key = None \/ Spec.cached (storage w) key = Some "" ->
  requests run.2 = requests w ++ [request]
  /\ temperature request = (3 # 10)%Q /\ responseMimeType request = ""
  /\ match generateContent (requests w) request with
     | Some text =>
         run.1 = Normal text
         /\ exists w0, run.2 = Spec.afterSet key text w0 /\ storage w0 = storage w
     | None => run.1 = Throw ServiceError /\ storage run.2 = storage w
     end.
Proof.
  intros files key request run Hmiss. subst run.
  destruct (summarizeAddon_miss uploadedFiles w Hmiss) as [entries Hrun].
  cbv zeta in Hrun. fold files key request in Hrun. rewrite Hrun. clear Hrun.
  destruct (generateContent (requests w) request) as [text|]; simpl.
  - split; [by destruct (afterSet_frame (T:=string) key text
                           (mkWorld (storage w) (console w ++ entries)
                              (requests w ++ [request]) (downloads w)))|].
    split; [done|]. split; [done|]. split; [done|]. eexists. split; [done|]. done.
  - done.
Qed.

End SummaryFacts.

Section SummaryExamples.

(** X14 on the fixture: a summary cached for one file is returned for a
    file of another name with the same bytes. *)
Lemma summary_is_keyed_by_bytes_alone_example :
  let cachedFor := [mkUploadedFile (mkFile "a.json" "" [Byte.x7b; Byte.x7d]) addon_file] in
  let renamed := [mkUploadedFile (mkFile "b.txt" "" [Byte.x7b; Byte.x7d]) addon_file] in
  let key := @Derived.summaryKey Fixture.env ToolFixture.texts
               (flat_map (@Derived.expanded Fixture.env) cachedFor) in
  let w := mkWorld (mkStorage {[ key := "s" ]} true 5242880) [] [] [] in
  exists w',
    @Tools.summarizeAddon Fixture.env ToolFixture.texts ToolFixture.summaryJson renamed w
    = (Normal "A pack with one sword.", w')
    /\ requests w' = requests w /\ storage w' = storage w.
Proof.
  intros cachedFor renamed key w.
  apply (@summary_is_keyed_by_bytes_alone Fixture.env ToolFixture.texts ToolFixture.summaryJson
           cachedFor renamed w "A pack with one sword.").
  - reflexivity.
  - discriminate.
  - vm_compute. reflexivity.
Defined.

(** X15 on the fixture: the empty summary is cached, and a request is made
    all the same. *)
Lemma summary_miss_single_request_example :
  let uploads := [mkUploadedFile (mkFile "a.json" "" [Byte.x7b; Byte.x7d]) addon_file] in
  let files := flat_map (@Derived.expanded Fixture.env) uploads in
  let key := @Derived.summaryKey Fixture.env ToolFixture.texts files in
  let request := @Derived.summaryRequest Fixture.env ToolFixture.texts files in
  let w := mkWorld (mkStorage {[ key := "e" ]} true 5242880) [] [] [] in
  let run := @Tools.summarizeAddon Fixture.env ToolFixture.texts ToolFixture.summaryJson
               uploads w in
  requests run.2 = requests w ++ [request]
  /\ temperature request = (3 # 10)%Q /\ responseMimeType request = ""
  /\ match @generateContent Fixture.env (requests w) request with
     | Some text =>
         run.1 = Normal text
         /\ exists w0, run.2 = Spec.afterSet (H:=ToolFixture.summaryJson) key text w0
                       /\ storage w0 = storage w
     | None => run.1 = Throw ServiceError /\ storage run.2 = storage w
     end.
Proof.
  intros uploads files key request w run.
  apply (@summary_miss_single_request Fixture.env ToolFixture.texts ToolFixture.summaryJson
           uploads w).
  right. vm_compute. reflexivity.
Defined.

End SummaryExamples.

(** ** The tools: [combineAddons] and [fixAddon] *)

Section ToolFacts.
Context `{Env} `{Tools.Texts} `{Json GenResult}.


Lemma fixAddon_run (problem : string) (uploadedFiles : list UploadedFile) (w : World) :
  let files := flat_map Derived.expanded uploadedFiles in
  Tools.fixAddon problem uploadedFiles w
  = match GeminiService.generateAddonFiles Tools.fixSystemInstruction
            (Tools.fixPromptOf problem) files true (Derived.afterUnzip uploadedFiles w) with
    | (Normal result, w') => (Normal (Derived.addonResultOf result ""), w')
    | (Throw e, w') => (Throw e, w')
    end.
Proof.
  intros files. unfold Tools.fixAddon.
  rewrite bind_run, processAndUnzipFiles_run. fold files. reflexivity.
Qed.


Lemma smartParts_same (files1 files2 : list UploadedFile) :
  map Derived.textPartOf (List.filter Derived.isText files1)
  = map Derived.textPartOf (List.filter Derived.isText files2) ->
  FileConverter.fileNames (List.filter Derived.isBinary files1)
  = FileConverter.fileNames (List.filter Derived.isBinary files2) ->
  GeminiService.filesToSmartParts files1 = GeminiService.filesToSmartParts files2.
Proof.
  intros Htexts Hnames. rewrite !filesToSmartParts_closed, Htexts, Hnames.
  f_equal.
  assert (bool_decide (List.filter Derived.isBinary files1 = [])
          = bool_decide (List.filter Derived.isBinary files2 = [])) as ->; [|done].
  unfold FileConverter.fileNames in Hnames.
  destruct (List.filter Derived.isBinary files1), (List.filter Derived.isBinary files2); done.
Qed.

(** X17. With text parts the key records the names and contents of the text
    files and the names of the other files, not the bytes of those. When a
    result is cached for some uploads, [fixAddon] with the same problem on
    uploads that, once extracted, have the same text parts and the same
    names of other files, whatever the bytes of those, returns the cached
    result, makes no request and leaves the storage as it is. *)
Theorem fix_hit_ignores_binary_bytes (problem : string)
  (cachedFor uploadedFiles : list UploadedFile) (w : World) (v : GenResult) :
  let given := flat_map Derived.expanded uploadedFiles in
  let before := flat_map Derived.expanded cachedFor in
  map Derived.textPartOf (List.filter Derived.isText given)
  = map Derived.textPartOf (List.filter Derived.isText before) ->
  FileConverter.fileNames (List.filter Derived.isBinary given)
  = FileConverter.fileNames (List.filter Derived.isBinary before) ->
  Spec.cached (storage w)
    (Spec.keyOf Tools.fixSystemInstruction (Tools.fixPromptOf problem)
                (GeminiService.filesToSmartParts before)) = Some v ->
  exists w',
    Tools.fixAddon problem uploadedFiles w = (Normal (Derived.addonResultOf v ""), w')
    /\ requests w' = requests w /\ storage w' = storage w.
Proof.
  intros given before Htexts Hnames Hhit.
  rewrite <- (smartParts_same given before Htexts Hnames) in Hhit.
  rewrite fixAddon_run. fold given.
  rewrite (generateAddonFiles_hit Tools.fixSystemInstruction (Tools.fixPromptOf problem)
             given true (Derived.afterUnzip uploadedFiles w) v Hhit).
  eexists. split; [done|done].
Qed.

End ToolFacts.

Section ToolExamples.

(** X17 on the fixture: a result cached for a manifest and a texture is
    returned when the texture has other bytes. *)
Lemma fix_hit_ignores_binary_bytes_example :
  let manifest := mkUploadedFile (mkFile "manifest.json" "application/json" [Byte.x7b; Byte.x7d])
                                 addon_file in
  let cachedFor := [manifest; mkUploadedFile Fixture.swordFile asset] in
  let uploads := [manifest; mkUploadedFile (mkFile "sword.png" "image/png" [Byte.xff]) asset] in
  let key := @Spec.keyOf Fixture.env (@Tools.fixSystemInstruction ToolFixture.texts)
               (Tools.fixPromptOf "The sword is invisible")
               (@GeminiService.filesToSmartParts Fixture.env
                  (flat_map (@Derived.expanded Fixture.env) cachedFor)) in
  let w := mkWorld (mkStorage {[ key := "final" ]} true 5242880) [] [] [] in
  exists w',
    @Tools.fixAddon Fixture.env ToolFixture.texts Fixture.json "The sword is invisible"
      uploads w
    = (Normal (Derived.addonResultOf Fixture.finalResult ""), w')
    /\ requests w' = requests w /\ storage w' = storage w.
Proof.
  intros manifest cachedFor uploads key w.
  apply (@fix_hit_ignores_binary_bytes Fixture.env ToolFixture.texts Fixture.json
           "The sword is invisible" cachedFor uploads w Fixture.finalResult).
  - reflexivity.
  - reflexivity.
  - vm_compute. reflexivity.
Defined.

End ToolExamples.

(** ** The archives: what they hold, and the sanitized name *)

Section ArchiveFacts.
Context `{Env}.





(** X19. A relocation whose original path is empty matches every upload:
    unless an upload has the empty name, the first upload is written at
    the new path, with the ambiguity warning when there are several. *)
Theorem empty_original_path_takes_first_upload (first : UploadedFile)
  (others : list UploadedFile) (newPath : string) (zip : Archive) (w : World) :
  Forall (fun uf => file_name (uf_file uf) <> "") (first :: others) ->
  let m := mkAssetMapping "" newPath in
  FileConverter.applyMapping (first :: others) zip m w
  = (Normal (<[newPath := Binary (file_bytes (uf_file first))]> zip),
     withLog w (match others with
                | [] => []
                | _ => [Spec.ambiguityWarning (first :: others) m]
                end)).
Proof.
  intros Hnames m.
  assert (List.find (Spec.nameIs "") (first :: others) = None) as Hexact.
  { induction Hnames as [|uf l Huf _ IH]; simpl; [done|].
    unfold Spec.nameIs at 1. by destruct (String.eqb_spec (file_name (uf_file uf)) ""). }
  assert (forall uf, Spec.nameEndsWith "" uf = true) as Hends.
  { intros uf. apply endsWith_suffix. exists (file_name (uf_file uf)).
    by rewrite app_empty_r. }
  assert (forall l, List.filter (Spec.nameEndsWith "") l = l) as Hall.
  { intros l. induction l as [|uf l IH]; simpl; [done|]. by rewrite Hends, IH. }
  assert (Spec.resolve (first :: others) "" = Spec.Loose (uf_file first)) as Hres.
  { unfold Spec.resolve. rewrite Hexact. simpl. by rewrite Hends. }
  assert (Spec.ambiguous (first :: others) "" = negb (bool_decide (others = []))) as Hamb.
  { unfold Spec.ambiguous. rewrite Hexact, Hall. by destruct others. }
  destruct (applyMapping_run (first :: others) zip m w) as (entries & -> & Hentries).
  simpl originalPath in Hentries. rewrite Hres, Hamb in Hentries. subst entries.
  unfold Spec.relocated. simpl originalPath. rewrite Hres. simpl.
  by destruct others.
Qed.

End ArchiveFacts.

Section ZipsFacts.

Lemma addRawFile_lookup (rpFile bpFile : option File) (p : string) :
  FileConverter.addRawFile (FileConverter.addRawFile ∅ rpFile) bpFile !! p
  = match Derived.packAt p bpFile with
    | Some c => Some c
    | None => Derived.packAt p rpFile
    end.
Proof.
  unfold FileConverter.addRawFile, Derived.packAt.
  destruct bpFile as [bp|], rpFile as [rp|];
    repeat match goal with
           | |- context [String.eqb ?a ?b] => destruct (String.eqb_spec a b) as [->|]
           end;
    rewrite ?lookup_insert_eq, ?lookup_insert_ne, ?lookup_empty by done;
    rewrite ?lookup_insert_eq, ?lookup_insert_ne, ?lookup_empty by done; done.
Qed.

(** X20. [downloadMcaddonFromZips] never throws, triggers exactly one
    download and touches nothing else. The archive holds each pack whole,
    under the name of its file: the pack is neither opened nor merged.
    When both packs have the same file name, only the behavior pack is in
    the archive; with no pack at all an empty archive is downloaded. *)
Theorem zips_archive_holds_packs_whole (addonName : string) (rpFile bpFile : option File)
  (w : World) :
  exists name zip,
    FileConverter.downloadMcaddonFromZips addonName rpFile bpFile w
    = (Normal tt,
       mkWorld (storage w) (console w) (requests w) (downloads w ++ [mkDownload name zip]))
    /\ (forall p, zip !! p = match Derived.packAt p bpFile with
                             | Some c => Some c
                             | None => Derived.packAt p rpFile
                             end)
    /\ (rpFile = None -> bpFile = None -> zip = ∅).
Proof.
  eexists _, _. split; [reflexivity|]. split; [apply addRawFile_lookup|]. by intros -> ->.
Qed.

Lemma removeOutside_id (class : ascii -> bool) (s : string) :
  Forall (fun c => class c = true) (list_ascii_of_string s) ->
  Js.removeOutside class s = s.
Proof.
  induction s as [|c s IH]; simpl; [done|].
  intros [Hc Hs]%Forall_cons. by rewrite Hc, IH.
Qed.

Lemma removeOutside_class (class : ascii -> bool) (s : string) :
  Forall (fun c => class c = true) (list_ascii_of_string (Js.removeOutside class s)).
Proof.
  induction s as [|c s IH]; simpl; [constructor|].
  destruct (class c) eqn:Hc; [|done]. by constructor.
Qed.

(** What [trim] keeps is part of the string. *)
Lemma trim_Forall (P : ascii -> Prop) (s : string) :
  Forall P (list_ascii_of_string s) -> Forall P (list_ascii_of_string (Js.trim s)).
Proof.
  destruct (trim_split s) as (l & r & Hs & _). intros Hall.
  rewrite Hs, !list_ascii_app, !Forall_app in Hall. tauto.
Qed.

(** X21. The sanitized name is safe and stable: whatever the name given,
    [safeAddonName] is not empty, holds only characters of the class
    [A-Za-z0-9_ -], has no white space at either end, and is left as it is
    when sanitized again. *)
Theorem safe_name_is_stable (addonName : string) :
  let safe := FileConverter.safeAddonName addonName in
  safe <> ""
  /\ Forall (fun c => FileConverter.isNameChar c = true) (list_ascii_of_string safe)
  /\ Js.trim safe = safe
  /\ FileConverter.safeAddonName safe = safe.
Proof.
  intros safe.
  set (kept := Js.trim (Js.removeOutside FileConverter.isNameChar addonName)).
  assert (safe = "addon" \/ (safe = kept /\ kept <> "")) as [->|[-> Hkept]].
  { unfold safe, FileConverter.safeAddonName. fold kept.
    destruct (String.eqb_spec kept ""); auto. }
  - split; [done|]. split; [by repeat constructor|]. by split.
  - assert (Forall (fun c => FileConverter.isNameChar c = true) (list_ascii_of_string kept))
      as Hclass by apply trim_Forall, removeOutside_class.
    assert (Js.trim kept = kept) as Htrim by apply trim_idem.
    split; [done|]. split; [done|]. split; [done|].
    unfold FileConverter.safeAddonName.
    rewrite (removeOutside_id _ _ Hclass), Htrim.
    by destruct (String.eqb_spec kept "").
Qed.

End ZipsFacts.

Section ArchiveExamples.

(** X19 on the fixture: two uploads, an empty original path. *)
Lemma empty_original_path_takes_first_upload_example :
  let first := mkUploadedFile Fixture.swordFile asset in
  let others := [mkUploadedFile Fixture.iconFile asset] in
  let m := mkAssetMapping "" "textures/unknown.png" in
  @FileConverter.applyMapping Fixture.env (first :: others) ∅ m Fixture.freshWorld
  = (Normal (<["textures/unknown.png" := Binary (file_bytes (uf_file first))]> ∅),
     withLog Fixture.freshWorld [Spec.ambiguityWarning (first :: others) m]).
Proof.
  intros first others m.
  apply (@empty_original_path_takes_first_upload Fixture.env first others
           "textures/unknown.png" ∅ Fixture.freshWorld).
  repeat constructor; discriminate.
Defined.

End ArchiveExamples.

(** ** The converter ([handleConvert]) *)

Section ConverterFacts.

Lemma removeOutside_app (class : ascii -> bool) (s t : string) :
  Js.removeOutside class (s +:+ t) = Js.removeOutside class s +:+ Js.removeOutside class t.
Proof.
  induction s as [|c s IH]; [done|]. rewrite app_String. simpl.
  destruct (class c); [rewrite app_String|]; by rewrite IH.
Qed.

Lemma removeOutside_white (class : ascii -> bool) (s : string) :
  Derived.allWhite s = true -> Derived.allWhite (Js.removeOutside class s) = true.
Proof.
  unfold Derived.allWhite. induction s as [|c s IH]; simpl; [done|].
  intros [Hc Hs]%andb_prop. destruct (class c); simpl; [rewrite Hc|]; by apply IH.
Qed.

(** A name the converter accepts is sanitized to itself, trimmed. *)
Lemma valid_name_is_safe (addonName : string) :
  McaddonConverter.validAddonName addonName = true ->
  FileConverter.safeAddonName addonName = Js.trim addonName.
Proof.
  unfold McaddonConverter.validAddonName.
  intros [Hne Hclass]%andb_prop.
  apply negb_true_iff, String.eqb_neq in Hne.
  assert (Forall (fun c => FileConverter.isNameChar c = true)
                 (list_ascii_of_string (Js.trim addonName))) as Hall.
  { apply Forall_forall. intros c Hc%list_elem_of_In.
    by apply (proj1 (forallb_forall _ _) Hclass). }
  destruct (trim_split addonName) as (l & r & Hsplit & Hl & Hr).
  destruct (trim_starts addonName) as [|(c & t & Hc & Hcw)]; [done|].
  destruct (trim_ends addonName) as [|(u & d & Hd & Hdw)]; [done|].
  unfold FileConverter.safeAddonName.
  remember (Js.trim addonName) as kept eqn:Hkept. clear Hkept.
  rewrite Hsplit, !removeOutside_app, (removeOutside_id _ _ Hall).
  rewrite (trim_padded _ kept _ c d t u) by auto using removeOutside_white.
  by destruct (String.eqb_spec kept "").
Qed.

Lemma convert_run (addonName : string) (rpFile bpFile : option File)
  (raised : list McaddonConverter.Notification) (w : World) :
  McaddonConverter.convert addonName rpFile bpFile raised w
  = (Normal (raised ++ [McaddonConverter.mkNotification McaddonConverter.success
                          (addonName +:+ ".mcaddon has been downloaded.")]),
     mkWorld (storage w) (console w) (requests w)
       (downloads w
        ++ [mkDownload (FileConverter.safeAddonName addonName +:+ ".mcaddon")
              (FileConverter.addRawFile (FileConverter.addRawFile ∅ rpFile) bpFile)])).
Proof. reflexivity. Qed.

(** The packs the loop picks are uploaded files, and a pack already picked
    is kept. *)
Lemma pickPacks_picks (uploadedFiles : list File) (rpFile bpFile : option File) :
  let picked := McaddonConverter.pickPacks uploadedFiles rpFile bpFile in
  (forall f, picked.1 = Some f -> rpFile = Some f \/ f ∈ uploadedFiles)
  /\ (forall f, picked.2 = Some f -> bpFile = Some f \/ f ∈ uploadedFiles).
Proof.
  revert rpFile bpFile.
  induction uploadedFiles as [|file rest IH]; intros rpFile bpFile; simpl; [auto|].
  assert (forall (picked kept : option File) (f : File),
             (picked = Some f -> kept = Some f \/ f ∈ rest) ->
             kept = Some file \/ kept = rpFile ->
             picked = Some f -> rpFile = Some f \/ f ∈ file :: rest) as Hrp.
  { intros picked kept f Hpicked Hkept Hf. rewrite elem_of_cons.
    destruct (Hpicked Hf) as [Hk|Hk]; [|by auto].
    destruct Hkept as [Hkept|Hkept]; rewrite Hkept in Hk; [|by auto].
    injection Hk as <-. auto. }
  assert (forall (picked kept : option File) (f : File),
             (picked = Some f -> kept = Some f \/ f ∈ rest) ->
             kept = Some file \/ kept = bpFile ->
             picked = Some f -> bpFile = Some f \/ f ∈ file :: rest) as Hbp.
  { intros picked kept f Hpicked Hkept Hf. rewrite elem_of_cons.
    destruct (Hpicked Hf) as [Hk|Hk]; [|by auto].
    destruct Hkept as [Hkept|Hkept]; rewrite Hkept in Hk; [|by auto].
    injection Hk as <-. auto. }
  destruct (_ && McaddonConverter.isNull rpFile).
  - destruct (IH (Some file) bpFile) as [H1 H2]. split; intros f; eauto.
  - destruct (_ && McaddonConverter.isNull bpFile).
    + destruct (IH rpFile (Some file)) as [H1 H2]. split; intros f; eauto.
    + destruct (IH rpFile bpFile) as [H1 H2]. split; intros f; eauto.
Qed.

(** How [handleConvert] completes: with the notifications alone, or with a
    download of the packs picked. *)
Lemma handleConvert_run (addonName : string) (uploadedFiles : list File) (w : World) :
  (exists message,
      McaddonConverter.handleConvert addonName uploadedFiles w
      = (Normal [McaddonConverter.mkNotification McaddonConverter.error message], w)
      /\ (uploadedFiles = [] \/ McaddonConverter.validAddonName addonName = false
          \/ McaddonConverter.pickPacks uploadedFiles None None = (None, None)))
  \/ (exists rpFile bpFile raised,
        McaddonConverter.handleConvert addonName uploadedFiles w
        = McaddonConverter.convert addonName rpFile bpFile raised w
        /\ McaddonConverter.validAddonName addonName = true
        /\ uploadedFiles <> []
        /\ (rpFile <> None \/ bpFile <> None)
        /\ (forall f, rpFile = Some f \/ bpFile = Some f -> f ∈ uploadedFiles)).
Proof.
  unfold McaddonConverter.handleConvert.
  destruct uploadedFiles as [|first others]; [left; eauto|].
  destruct (McaddonConverter.validAddonName addonName) eqn:Hvalid; simpl negb; cbv iota;
    [|left; eauto].
  pose proof (pickPacks_picks (first :: others) None None) as [Hrp Hbp].
  destruct (McaddonConverter.pickPacks (first :: others) None None) as [rpFile bpFile] eqn:Hpick.
  simpl in Hrp, Hbp.
  assert (forall f, rpFile = Some f \/ bpFile = Some f -> f ∈ first :: others) as Hin.
  { intros f [Hf|Hf]; [apply Hrp in Hf|apply Hbp in Hf]; by destruct Hf. }
  destruct rpFile as [rp|], bpFile as [bp|], others as [|second others];
    try (right; eexists _, _, _; split; [reflexivity|]; split; [done|]; split; [done|];
         split; [by auto|exact Hin]).
  - right. eexists _, _, _. split; [reflexivity|]. split; [done|]. split; [done|].
    split; [by left|].
    intros f [[= <-]|[=]]. apply elem_of_cons. by left.
  - left. eauto.
Qed.

(** X22. [handleConvert] never throws and touches neither the storage, the
    console nor the requests. Either it raises a single error notification
    and downloads nothing, which is what it does without a file and with a
    name that, trimmed, is empty or has a character outside
    [A-Za-z0-9_ -]; or it triggers exactly one download, named by the
    addon name trimmed of white space followed by .mcaddon, and its last
    notification is the success message, which quotes the name as typed. *)
Theorem convert_downloads_under_trimmed_name (addonName : string)
  (uploadedFiles : list File) (w : World) :
  exists raised w',
    McaddonConverter.handleConvert addonName uploadedFiles w = (Normal raised, w')
    /\ storage w' = storage w /\ console w' = console w /\ requests w' = requests w
    /\ ((downloads w' = downloads w
         /\ exists message,
              raised = [McaddonConverter.mkNotification McaddonConverter.error message])
        \/ (exists zip,
              downloads w'
              = downloads w ++ [mkDownload (Js.trim addonName +:+ ".mcaddon") zip]
              /\ last raised
                 = Some (McaddonConverter.mkNotification McaddonConverter.success
                           (addonName +:+ ".mcaddon has been downloaded."))))
    /\ (uploadedFiles = [] \/ McaddonConverter.validAddonName addonName = false ->
        downloads w' = downloads w).
Proof.
  destruct (handleConvert_run addonName uploadedFiles w)
    as [(message & Hrun & Hwhy)|(rpFile & bpFile & raised & Hrun & Hvalid & Hfiles & _)].
  - eexists _, _. split; [exact Hrun|]. repeat split; eauto.
  - rewrite convert_run, (valid_name_is_safe _ Hvalid) in Hrun.
    eexists _, _. split; [exact Hrun|]. simpl. repeat split.
    + right. eexists. split; [done|]. by rewrite last_snoc.
    + intros [->|Hinvalid]; [done|congruence].
Qed.

(** X23. The archive [handleConvert] downloads is never empty and holds
    uploaded files only: every entry is one of the files chosen, whole,
    under the name of that file. *)
Theorem convert_archive_holds_uploads (addonName : string) (uploadedFiles : list File)
  (w w' : World) (raised : list McaddonConverter.Notification) (name : string)
  (zip : Archive) :
  McaddonConverter.handleConvert addonName uploadedFiles w = (Normal raised, w') ->
  downloads w' = downloads w ++ [mkDownload name zip] ->
  zip <> ∅
  /\ forall p c, zip !! p = Some c ->
                 exists f, f ∈ uploadedFiles /\ file_name f = p /\ c = Binary (file_bytes f).
Proof.
  intros Hrun Hdown.
  destruct (handleConvert_run addonName uploadedFiles w)
    as [(message & Hrun' & _)|(rpFile & bpFile & raised' & Hrun' & _ & _ & Hsome & Hin)];
    rewrite Hrun' in Hrun.
  - injection Hrun as _ <-. apply (f_equal length) in Hdown.
    rewrite length_app in Hdown. simpl in Hdown. lia.
  - rewrite convert_run in Hrun. injection Hrun as _ <-. simpl in Hdown.
    apply app_inv_head in Hdown. injection Hdown as _ <-.
    split.
    + destruct bpFile as [bp|]; simpl; [apply insert_non_empty|].
      destruct rpFile as [rp|]; simpl; [apply insert_non_empty|]. by destruct Hsome.
    + intros p c. rewrite addRawFile_lookup. unfold Derived.packAt.
      destruct bpFile as [bp|], rpFile as [rp|];
        repeat match goal with
               | |- context [String.eqb ?a ?b] => destruct (String.eqb_spec a b) as [<-|]
               end;
        intros [= <-]; refine (ex_intro _ _ (conj _ (conj eq_refl eq_refl)));
        apply Hin; auto.
Qed.

End ConverterFacts.

Section ConverterExamples.

(** X23 on one pack: the archive holds the file chosen, whole. *)
Lemma convert_archive_holds_uploads_example :
  let pack := mkFile "my_rp.zip" "application/zip" Fixture.containerBytes in
  let zip : Archive := <["my_rp.zip" := Binary Fixture.containerBytes]> ∅ in
  zip <> ∅
  /\ forall p c, zip !! p = Some c ->
                 exists f, f ∈ [pack] /\ file_name f = p /\ c = Binary (file_bytes f).
Proof.
  intros pack zip.
  apply (convert_archive_holds_uploads " My Pack" [pack] Fixture.freshWorld
           (mkWorld (storage Fixture.freshWorld) [] [] [mkDownload "My Pack.mcaddon" zip])
           [McaddonConverter.mkNotification McaddonConverter.success
              " My Pack.mcaddon has been downloaded."]
           "My Pack.mcaddon" zip).
  - vm_compute. reflexivity.
  - reflexivity.
Defined.

End ConverterExamples.

(** ** The entry point of the creators ([initiateAddonGeneration]) *)

Section CreatorFacts.
Context {Plan : Type} `{Tools.Truthy Plan} `{Env} `{Tools.CreatorTexts}
  `{Json (Tools.UnifiedResult Plan)} `{Json GenResult}.

(** X24. [initiateAddonGeneration] neither reads nor writes the session
    storage, and triggers no download. Its first request is made at
    temperature 0.1. A first response that is [null] makes the call throw
    the error of reading a property of [null], after that one request.
    When the first response carries a plan that is truthy, the plan is
    returned after that single request, whatever files the response
    carries with it. Without such a plan (none, or a falsy one), the
    verification request, at temperature 0, is made exactly when the
    response holds a file, and the value returned takes its files from the
    verification pass and its asset mappings and report from the first;
    with neither plan nor file the call throws an error of its own after
    the first request. *)
Theorem creation_returns_plan_or_verified_files (prompt addonName description : string)
  (uploadedFiles : list UploadedFile) (w : World) :
  let first := Derived.creatorRequest prompt addonName description uploadedFiles in
  let run := Tools.initiateAddonGeneration (Plan:=Plan) prompt addonName description
               uploadedFiles w in
  storage run.2 = storage w /\ downloads run.2 = downloads w
  /\ temperature first = (1 # 10)%Q
  /\ match @Derived.passAs (option (Tools.UnifiedResult Plan)) _ Tools.nullable
             (requests w) first with
     | Throw e => run.1 = Throw e /\ requests run.2 = requests w ++ [first]
     | Normal None =>
         run.1 = Throw (TypeError Tools.nullPlanMessage)
         /\ requests run.2 = requests w ++ [first]
     | Normal (Some initialResult) =>
         match Tools.truthyPlan initialResult, Tools.unified_files initialResult with
         | Some plan, _ =>
             run.1 = Normal (Tools.PlanOnly plan) /\ requests run.2 = requests w ++ [first]
         | None, Some (file :: others) =>
             let second := Derived.creatorVerification prompt (file :: others) in
             requests run.2 = requests w ++ [first; second]
             /\ temperature second = 0%Q
             /\ run.1 = match Spec.pass (requests w ++ [first]) second with
                        | Throw e => Throw e
                        | Normal verified =>
                            if GeminiService.hasNoFiles verified
                            then Throw (JsError GeminiService.noVerifiedFilesMessage)
                            else Normal (Tools.Generated
                                           (Tools.mkAddonResult (files verified)
                                              (default [] (Tools.unified_assetMappings
                                                             initialResult))
                                              (Tools.reportOr (Tools.unified_summaryReport
                                                                 initialResult) "")))
                        end
         | None, _ =>
             run.1 = Throw (JsError Tools.unexpectedResponseMessage)
             /\ requests run.2 = requests w ++ [first]
         end
     end
  /\ (forall initialResult plan,
        Tools.truthyPlan initialResult = Some plan
        <-> Tools.unified_plan initialResult = Some plan /\ Tools.truthy plan = true).
Proof.
  intros first run.
  assert (exists entries,
             run = match @Derived.passAs (option (Tools.UnifiedResult Plan)) _ Tools.nullable
                           (requests w) first with
                   | Throw e =>
                       (Throw e, mkWorld (storage w) (console w ++ entries)
                                   (requests w ++ [first]) (downloads w))
                   | Normal None =>
                       (Throw (TypeError Tools.nullPlanMessage),
                        mkWorld (storage w) (console w ++ entries)
                          (requests w ++ [first]) (downloads w))
                   | Normal (Some initialResult) =>
                       match Tools.truthyPlan initialResult,
                             Tools.unified_files initialResult with
                       | Some plan, _ =>
                           (Normal (Tools.PlanOnly plan),
                            mkWorld (storage w) (console w ++ entries)
                              (requests w ++ [first]) (downloads w))
                       | None, Some (file :: others) =>
                           let second := Derived.creatorVerification prompt (file :: others) in
                           (match Spec.pass (requests w ++ [first]) second with
                            | Throw e => Throw e
                            | Normal verified =>
                                if GeminiService.hasNoFiles verified
                                then Throw (JsError GeminiService.noVerifiedFilesMessage)
                                else Normal (Tools.Generated
                                               (Tools.mkAddonResult (files verified)
                                                  (default [] (Tools.unified_assetMappings
                                                                 initialResult))
                                                  (Tools.reportOr (Tools.unified_summaryReport
                                                                     initialResult) "")))
                            end,
                            mkWorld (storage w) (console w ++ entries)
                              (requests w ++ [first; second]) (downloads w))
                       | None, _ =>
                           (Throw (JsError Tools.unexpectedResponseMessage),
                            mkWorld (storage w) (console w ++ entries)
                              (requests w ++ [first]) (downloads w))
                       end
                   end) as [entries Hrun].
  { subst run. unfold Tools.initiateAddonGeneration.
    fold (Derived.creatorRequest prompt addonName description uploadedFiles). fold first.
    rewrite bind_run. unfold GeminiService.ai_generateContent at 1, Derived.passAs.
    destruct (generateContent (requests w) first) as [text|];
      [|exists []; by rewrite app_nil_r].
    rewrite bind_run.
    match goal with
    | |- context [@Tools.parseJsonResponseAs ?T ?codec text ?w1] =>
        destruct (@parseJsonResponseAs_run T codec text w1) as [e1 ->]
    end.
    destruct (JSON_parse (GeminiService.cleanJsonTextOf text))
      as [[initialResult|]|]; [|by exists e1|by exists e1].
    destruct (Tools.truthyPlan initialResult) as [plan|]; [by exists e1|].
    destruct (Tools.unified_files initialResult) as [[|file others]|];
      [by exists e1| |by exists e1].
    rewrite bind_run, console_log_run. cbv beta iota. rewrite bind_run.
    match goal with
    | |- context [GeminiService.performSingleGeneration ?a ?b ?c ?d ?w0] =>
        destruct (performSingleGeneration_run a b c d w0
                    (Derived.creatorVerification prompt (file :: others)) eq_refl)
          as [e2 ->]
    end.
    simpl requests.
    destruct (Spec.pass (requests w ++ [first])
                (Derived.creatorVerification prompt (file :: others))) as [verified|e].
    - rewrite bind_run, console_log_run. cbv beta iota.
      unfold GeminiService.hasNoFiles. simpl files.
      destruct (files verified) as [[|kept more]|]; unfold throw, mret, js_ret, withLog;
        simpl; eexists; rewrite <- !app_assoc; reflexivity.
    - unfold withLog. simpl. eexists. rewrite <- !app_assoc. reflexivity. }
  rewrite Hrun. clear Hrun run.
  split; [|split; [|split; [|split]]].
  - destruct (Derived.passAs (requests w) first) as [[initialResult|]|e]; [|done|done].
    destruct (Tools.truthyPlan initialResult) as [plan|]; [done|].
    by destruct (Tools.unified_files initialResult) as [[|file others]|].
  - destruct (Derived.passAs (requests w) first) as [[initialResult|]|e]; [|done|done].
    destruct (Tools.truthyPlan initialResult) as [plan|]; [done|].
    by destruct (Tools.unified_files initialResult) as [[|file others]|].
  - done.
  - destruct (Derived.passAs (requests w) first) as [[initialResult|]|e]; [|done|done].
    destruct (Tools.truthyPlan initialResult) as [plan|]; [done|].
    by destruct (Tools.unified_files initialResult) as [[|file others]|].
  - intros initialResult plan. unfold Tools.truthyPlan.
    destruct (Tools.unified_plan initialResult) as [plan'|].
    + destruct (Tools.truthy plan') eqn:Htruthy.
      * split; [by intros [= <-]|]. by intros [[= <-] _].
      * split; [done|]. intros [[= <-] ?]. congruence.
    + split; [done|]. by intros [? _].
Qed.

End CreatorFacts.

Section CreatorExamples.

(** X24 on the fixture: the first response carries a plan and a file; the
    plan is returned after one request. *)
Lemma creation_returns_plan_example :
  let run := @Tools.initiateAddonGeneration string ToolFixture.truthyString Fixture.env
               ToolFixture.creatorTexts ToolFixture.unifiedJson Fixture.json
               "A ruby sword" "Ruby" "A sword." [] Fixture.freshWorld in
  run.1 = Normal (Tools.PlanOnly "three items, one entity")
  /\ length (requests run.2) = 1%nat.
Proof. split; vm_compute; reflexivity. Qed.

(** X24 on a first response whose plan is the empty string, with a file:
    the plan is falsy, the verification request is made and the verified
    files are returned. *)
Lemma creation_ignores_falsy_plan_example :
  let run := @Tools.initiateAddonGeneration string ToolFixture.truthyString
               Fixture.envSecond ToolFixture.creatorTexts ToolFixture.unifiedJson
               Fixture.json "A ruby sword" "Ruby" "A sword." [] Fixture.freshWorld in
  run.1 = Normal (Tools.Generated (Tools.mkAddonResult (Some [Fixture.manifestFixed]) [] ""))
  /\ length (requests run.2) = 2%nat.
Proof. split; vm_compute; reflexivity. Qed.

(** X24 on a first response that is [null]. *)
Lemma creation_null_response_example :
  let run := @Tools.initiateAddonGeneration string ToolFixture.truthyString
               Fixture.envNull ToolFixture.creatorTexts ToolFixture.unifiedJson
               Fixture.json "A ruby sword" "Ruby" "A sword." [] Fixture.freshWorld in
  run.1 = Throw (TypeError Tools.nullPlanMessage)
  /\ length (requests run.2) = 1%nat.
Proof. split; vm_compute; reflexivity. Qed.

End CreatorExamples.

(** ** The converter: which packs it picks *)

Section PickFacts.

Lemma pickPacks_closed (uploadedFiles : list File) (rpFile bpFile : option File) :
  McaddonConverter.pickPacks uploadedFiles rpFile bpFile
  = match rpFile with
    | Some _ =>
        (rpFile, match bpFile with
                 | Some _ => bpFile
                 | None => List.find Derived.isBehaviorName uploadedFiles
                 end)
    | None =>
        (List.find Derived.isResourceName uploadedFiles,
         match bpFile with
         | Some _ => bpFile
         | None => List.find Derived.isBehaviorName
                     (Derived.withoutFirst Derived.isResourceName uploadedFiles)
         end)
    end.
Proof.
  revert rpFile bpFile.
  induction uploadedFiles as [|file rest IH]; intros rpFile bpFile.
  - by destruct rpFile, bpFile.
  - cbn [McaddonConverter.pickPacks Derived.withoutFirst List.find].
    change (McaddonConverter.includes (Js.toLowerCase (file_name file)) "rp"
            || McaddonConverter.includes (Js.toLowerCase (file_name file)) "resource")
      with (Derived.isResourceName file).
    change (McaddonConverter.includes (Js.toLowerCase (file_name file)) "bp"
            || McaddonConverter.includes (Js.toLowerCase (file_name file)) "behavior")
      with (Derived.isBehaviorName file).
    destruct (Derived.isResourceName file) eqn:Hr, (Derived.isBehaviorName file) eqn:Hb,
      rpFile as [rp|], bpFile as [bp|];
      cbn [andb McaddonConverter.isNull List.find Derived.withoutFirst];
      rewrite ?Hr, ?Hb; cbn [List.find Derived.withoutFirst]; rewrite ?Hr, ?Hb;
      rewrite IH; reflexivity.
Qed.

(** X25. The packs [handleConvert] hands to the download: the resource
    pack is the first uploaded file whose name, in lower case, contains rp
    or resource; the behavior pack is the first file whose name contains
    bp or behavior among the others. So a file that matches both is taken
    as the resource pack, and every further match is left out. When the
    name is accepted and a pack is found, the archive downloaded holds
    these two files and nothing else. *)
Theorem convert_picks_first_matching_packs (addonName : string) (uploadedFiles : list File)
  (w : World) :
  let rpFile := List.find Derived.isResourceName uploadedFiles in
  let bpFile := List.find Derived.isBehaviorName
                  (Derived.withoutFirst Derived.isResourceName uploadedFiles) in
  McaddonConverter.pickPacks uploadedFiles None None = (rpFile, bpFile)
  /\ (McaddonConverter.validAddonName addonName = true ->
      rpFile <> None \/ bpFile <> None ->
      downloads (McaddonConverter.handleConvert addonName uploadedFiles w).2
      = downloads w
        ++ [mkDownload (Js.trim addonName +:+ ".mcaddon")
              (FileConverter.addRawFile (FileConverter.addRawFile ∅ rpFile) bpFile)]).
Proof.
  intros rpFile bpFile.
  assert (McaddonConverter.pickPacks uploadedFiles None None = (rpFile, bpFile)) as Hpick
    by apply pickPacks_closed.
  split; [exact Hpick|].
  intros Hvalid Hfound. unfold McaddonConverter.handleConvert.
  destruct uploadedFiles as [|first others]; [by destruct Hfound|].
  rewrite Hvalid, Hpick.
  destruct rpFile as [rp|], bpFile as [bp|], others as [|second others];
    try (by destruct Hfound);
    cbn [negb]; cbv beta iota; rewrite convert_run, (valid_name_is_safe _ Hvalid);
    reflexivity.
Qed.

End PickFacts.

(** ** [devAddon]: the key and the boundaries of the files *)

Section DevKeyFacts.
Context `{Env} `{Tools.Texts} `{Json GenResult}.

Lemma join_cons_cons (sep x y : string) (l : list string) :
  Js.join sep (x :: y :: l) = x +:+ sep +:+ Js.join sep (y :: l).
Proof. reflexivity. Qed.

Lemma devContents_merged (f g : GeneratedFile) (rest : list GeneratedFile) :
  Derived.devContents (Derived.merged f g :: rest) = Derived.devContents (f :: g :: rest).
Proof.
  unfold Derived.devContents, Derived.merged. simpl map.
  rewrite join_cons_cons.
  destruct rest as [|h rest]; simpl map.
  - simpl Js.join. by rewrite !app_assoc_string.
  - rewrite !join_cons_cons. by rewrite !app_assoc_string.
Qed.

(** X26. The key of [devAddon] does not record where one file ends and the
    next begins: two files and the single file that has the path of the
    first and, as its content, the content of the first, the separator and
    the second as [devAddon] writes it, get the same key. When a result is
    cached for the two files, [devAddon] with the same instruction on the
    single file returns its files and makes no request. *)
Theorem dev_key_does_not_separate_files (instruction : string) (f g : GeneratedFile)
  (rest : list GeneratedFile) (w : World) (v : GenResult) :
  Spec.cached (storage w) (Derived.devKey instruction (f :: g :: rest)) = Some v ->
  exists w',
    Tools.devAddon instruction (Derived.merged f g :: rest) w
    = (Normal (Tools.mkDevResult (files v) []), w')
    /\ requests w' = requests w /\ storage w' = storage w.
Proof.
  intros Hhit.
  assert (Derived.devKey instruction (Derived.merged f g :: rest)
          = Derived.devKey instruction (f :: g :: rest)) as Hkey
    by (unfold Derived.devKey; by rewrite devContents_merged).
  rewrite <- Hkey in Hhit.
  eexists. split; [by apply devAddon_hit|done].
Qed.

End DevKeyFacts.

Section DevKeyExamples.

(** X26 on the fixture: a result cached for two files is returned for one. *)
Lemma dev_key_does_not_separate_files_example :
  let key := @Derived.devKey Fixture.env ToolFixture.texts "Rename the sword"
               [Fixture.manifest; Fixture.generatedA] in
  let w := mkWorld (mkStorage {[ key := "final" ]} true 5242880) [] [] [] in
  exists w',
    @Tools.devAddon Fixture.env ToolFixture.texts Fixture.json "Rename the sword"
      [Derived.merged Fixture.manifest Fixture.generatedA] w
    = (Normal (Tools.mkDevResult (files Fixture.finalResult) []), w')
    /\ requests w' = requests w /\ storage w' = storage w.
Proof.
  intros key w.
  apply (@dev_key_does_not_separate_files Fixture.env ToolFixture.texts Fixture.json
           "Rename the sword" Fixture.manifest Fixture.generatedA [] w Fixture.finalResult).
  vm_compute. reflexivity.
Defined.

End DevKeyExamples.
